(** * SX1272 LoRa transceiver driver (drivers/sx1272/sx1272.c)

    A shallow embedding of the driver core: the operating-mode state
    machine, the LoRa configuration pass with its power-amplifier policy,
    the time-on-air computation and the DIO event handlers, followed by
    the properties established about them.

    The device structure [sx1272_t] is threaded explicitly; everything the
    driver reaches through the bus, the GPIO controller and the
    application callback lives in a second record, [hw_t]. *)

From Stdlib Require Import ZArith Lia Bool List.
From Stdlib Require Import Floats.
From stdpp Require Import base option list gmap.

Local Open Scope Z_scope.

(** ** Machine integers *)

(** Conversion to [uint8_t] and [uint16_t]. *)
Definition u8 (z : Z) : Z := Z.land z 0xFF.
Definition u16 (z : Z) : Z := Z.land z 0xFFFF.

Definition b2z (b : bool) : Z := if b then 1 else 0.

(** ** Register map *)

Module Regs.

(** Modelled from the spec: the register-map headers (sx1272.h,
    include/sx1272_regs_lora.h, include/sx1272_regs_fsk.h) are not part of
    the sources.  The spec fixes the shape of the fields (operating mode in
    the low bits of the operating-mode register below the long-range-mode
    bit, a 4-bit output-power field, one flag bit per interrupt cause); the
    numeric values are those of the SX1272 register map. *)
Definition REG_OPMODE : Z := 0x01.
Definition REG_PACONFIG : Z := 0x09.
Definition REG_LR_LNA : Z := 0x0C.
Definition REG_LR_FIFOADDRPTR : Z := 0x0D.
Definition REG_LR_FIFORXCURRENTADDR : Z := 0x10.
Definition REG_LR_IRQFLAGS : Z := 0x12.
Definition REG_LR_RXNBBYTES : Z := 0x13.
Definition REG_LR_PKTSNRVALUE : Z := 0x19.
Definition REG_LR_PKTRSSIVALUE : Z := 0x1A.
Definition REG_LR_MODEMCONFIG1 : Z := 0x1D.
Definition REG_LR_MODEMCONFIG2 : Z := 0x1E.
Definition REG_LR_SYMBTIMEOUTLSB : Z := 0x1F.
Definition REG_LR_PREAMBLEMSB : Z := 0x20.
Definition REG_LR_PREAMBLELSB : Z := 0x21.
Definition REG_LR_PAYLOADLENGTH : Z := 0x22.
Definition REG_LR_HOPPERIOD : Z := 0x24.
Definition REG_LR_DETECTOPTIMIZE : Z := 0x31.
Definition REG_LR_DETECTIONTHRESHOLD : Z := 0x37.
Definition REG_DIOMAPPING1 : Z := 0x40.
Definition REG_DIOMAPPING2 : Z := 0x41.
Definition REG_LR_PLLHOP : Z := 0x4B.
Definition REG_PADAC : Z := 0x5A.

Definition RF_OPMODE_MASK : Z := 0xF8.
Definition RF_OPMODE_SLEEP : Z := 0x00.
Definition RF_OPMODE_STANDBY : Z := 0x01.
Definition RF_OPMODE_TRANSMITTER : Z := 0x03.
Definition RF_OPMODE_RECEIVER : Z := 0x05.
Definition RFLR_OPMODE_RECEIVER_SINGLE : Z := 0x06.
Definition RFLR_OPMODE_CAD : Z := 0x07.
Definition RFLR_OPMODE_LONGRANGEMODE_MASK : Z := 0x7F.
Definition RFLR_OPMODE_LONGRANGEMODE_OFF : Z := 0x00.
Definition RFLR_OPMODE_LONGRANGEMODE_ON : Z := 0x80.

Definition RF_PACONFIG_PASELECT_MASK : Z := 0x7F.
Definition RF_PACONFIG_PASELECT_PABOOST : Z := 0x80.
Definition RF_PACONFIG_PASELECT_RFO : Z := 0x00.
Definition RFLR_PACONFIG_OUTPUTPOWER_MASK : Z := 0xF0.
Definition RF_PADAC_20DBM_MASK : Z := 0xF8.
Definition RFLR_PADAC_20DBM_ON : Z := 0x07.
Definition RFLR_PADAC_20DBM_OFF : Z := 0x04.

Definition RFLR_IRQFLAGS_RXDONE : Z := 0x40.
Definition RFLR_IRQFLAGS_PAYLOADCRCERROR : Z := 0x20.
Definition RFLR_IRQFLAGS_PAYLOADCRCERROR_MASK : Z := 0x20.
Definition RFLR_IRQFLAGS_TXDONE : Z := 0x08.
Definition RFLR_IRQFLAGS_CADDONE : Z := 0x04.
Definition RFLR_IRQFLAGS_CADDETECTED : Z := 0x01.

Definition RFLR_MODEMCONFIG1_BW_MASK : Z := 0x3F.
Definition RFLR_MODEMCONFIG1_CODINGRATE_MASK : Z := 0xC7.
Definition RFLR_MODEMCONFIG1_IMPLICITHEADER_MASK : Z := 0xFB.
Definition RFLR_MODEMCONFIG1_RXPAYLOADCRC_MASK : Z := 0xFD.
Definition RFLR_MODEMCONFIG1_LOWDATARATEOPTIMIZE_MASK : Z := 0xFE.
Definition RFLR_MODEMCONFIG2_SF_MASK : Z := 0x0F.
Definition RFLR_MODEMCONFIG2_SYMBTIMEOUTMSB_MASK : Z := 0xFC.
Definition RFLR_MODEMCONFIG2_AGCAUTO_MASK : Z := 0xFB.
Definition RFLR_MODEMCONFIG2_AGCAUTO_ON : Z := 0x04.
Definition RFLR_PLLHOP_FASTHOP_MASK : Z := 0x7F.
Definition RFLR_PLLHOP_FASTHOP_ON : Z := 0x80.
Definition RFLR_LNA_BOOST_MASK : Z := 0xFC.
Definition RFLR_LNA_BOOST_ON : Z := 0x03.
Definition RFLR_DETECTIONOPTIMIZE_SF7_TO_SF12 : Z := 0x03.
Definition RFLR_DETECTIONTHRESH_SF7_TO_SF12 : Z := 0x0A.

Definition RSSI_OFFSET : Z := -139.

End Regs.
Import Regs.

(** ** Data model *)

Inductive sx1272_radio_modems_t := SX1272_MODEM_FSK | SX1272_MODEM_LORA.

Inductive sx1272_radio_state_t :=
  SX1272_RF_IDLE | SX1272_RF_RX_RUNNING | SX1272_RF_TX_RUNNING | SX1272_RF_CAD.

Inductive sx1272_event_type_t :=
  | SX1272_RX_DONE
  | SX1272_TX_DONE
  | SX1272_RX_TIMEOUT
  | SX1272_TX_TIMEOUT
  | SX1272_RX_ERROR_CRC
  | SX1272_FHSS_CHANGE_CHANNEL
  | SX1272_CAD_DONE
  | SX1272_CAD_DETECTED.

Inductive sx1272_rfswitch_mode_t :=
  SX1272_RFSWITCH_ACTIVE_LOW | SX1272_RFSWITCH_ACTIVE_HIGH.

(** The switch of [sx1272_get_time_on_air] gives the bandwidth codes
    (0: 125 kHz, 1: 250 kHz, 2: 500 kHz); spreading factors and coding
    rates are used as plain numbers ([1 << datarate], [coderate + 4]). *)
Inductive sx1272_lora_bandwidth_t :=
  SX1272_BW_125_KHZ | SX1272_BW_250_KHZ | SX1272_BW_500_KHZ.

Inductive sx1272_lora_spreading_factor_t :=
  | SX1272_SF6 | SX1272_SF7 | SX1272_SF8 | SX1272_SF9
  | SX1272_SF10 | SX1272_SF11 | SX1272_SF12.

Inductive sx1272_lora_coding_rate_t :=
  SX1272_CR_4_5 | SX1272_CR_4_6 | SX1272_CR_4_7 | SX1272_CR_4_8.

Definition bw_code (bw : sx1272_lora_bandwidth_t) : Z :=
  match bw with
  | SX1272_BW_125_KHZ => 0
  | SX1272_BW_250_KHZ => 1
  | SX1272_BW_500_KHZ => 2
  end.

Definition sf_code (sf : sx1272_lora_spreading_factor_t) : Z :=
  match sf with
  | SX1272_SF6 => 6 | SX1272_SF7 => 7 | SX1272_SF8 => 8 | SX1272_SF9 => 9
  | SX1272_SF10 => 10 | SX1272_SF11 => 11 | SX1272_SF12 => 12
  end.

Definition cr_code (cr : sx1272_lora_coding_rate_t) : Z :=
  match cr with
  | SX1272_CR_4_5 => 1 | SX1272_CR_4_6 => 2
  | SX1272_CR_4_7 => 3 | SX1272_CR_4_8 => 4
  end.

#[global] Instance bandwidth_eq_dec : EqDecision sx1272_lora_bandwidth_t.
Proof. solve_decision. Defined.
#[global] Instance spreading_factor_eq_dec :
  EqDecision sx1272_lora_spreading_factor_t.
Proof. solve_decision. Defined.
#[global] Instance radio_state_eq_dec : EqDecision sx1272_radio_state_t.
Proof. solve_decision. Defined.

(** [sx1272_lora_settings_t]; [power] is a signed dBm value. *)
Record sx1272_lora_settings_t := mk_lora_settings {
  bandwidth : sx1272_lora_bandwidth_t;
  datarate : sx1272_lora_spreading_factor_t;
  coderate : sx1272_lora_coding_rate_t;
  low_datarate_optimize : bool;
  preamble_len : Z;
  implicit_header : bool;
  payload_len : Z;
  crc_on : bool;
  freq_hop_on : bool;
  hop_period : Z;
  iq_inverted : bool;
  rx_continuous : bool;
  tx_timeout : Z;
  rx_timeout : Z;
  power : Z
}.

Record sx1272_rx_packet_t := mk_rx_packet {
  snr_value : Z;
  rssi_value : Z;
  size : Z;
  content : list Z
}.

(** A GPIO line; [None] stands for [GPIO_UNDEF]. *)
Definition gpio_t := Z.

(** The functions the callback of a deadline timer can point to,
    [_on_tx_timeout] and [_on_rx_timeout]. *)
Inductive xtimer_callback_t := CB_ON_TX_TIMEOUT | CB_ON_RX_TIMEOUT.

(** [sx1272_t].  A deadline timer is [Some d] while armed with duration
    [d]; its callback is [None] while unset, and its [arg] flag tells
    whether the argument handed to the callback is this device.
    [sx1272_event_cb] tells whether a callback is registered. *)
Record sx1272_t := mk_sx1272 {
  dio0_pin : option gpio_t;
  dio1_pin : option gpio_t;
  dio2_pin : option gpio_t;
  dio3_pin : option gpio_t;
  dio4_pin : option gpio_t;
  dio5_pin : option gpio_t;
  rfswitch_pin : option gpio_t;
  rfswitch_mode : sx1272_rfswitch_mode_t;
  sx1272_event_cb : bool;
  channel : Z;
  state : sx1272_radio_state_t;
  modem : sx1272_radio_modems_t;
  lora : sx1272_lora_settings_t;
  last_packet : sx1272_rx_packet_t;
  last_channel : Z;
  is_last_cad_success : bool;
  tx_timeout_timer : option Z;
  rx_timeout_timer : option Z;
  tx_timeout_timer_callback : option xtimer_callback_t;
  tx_timeout_timer_arg : bool;
  rx_timeout_timer_callback : option xtimer_callback_t;
  rx_timeout_timer_arg : bool;
  dio_polling_thread_pid : Z
}.

(** Field updates of the device structure used by the driver. *)
Definition set_state (st : sx1272_radio_state_t) (dev : sx1272_t) : sx1272_t :=
  mk_sx1272 (dio0_pin dev) (dio1_pin dev) (dio2_pin dev) (dio3_pin dev)
    (dio4_pin dev) (dio5_pin dev) (rfswitch_pin dev) (rfswitch_mode dev)
    (sx1272_event_cb dev) (channel dev) st (modem dev) (lora dev)
    (last_packet dev) (last_channel dev) (is_last_cad_success dev)
    (tx_timeout_timer dev) (rx_timeout_timer dev)
    (tx_timeout_timer_callback dev) (tx_timeout_timer_arg dev)
    (rx_timeout_timer_callback dev) (rx_timeout_timer_arg dev)
    (dio_polling_thread_pid dev).

Definition set_modem_field (m : sx1272_radio_modems_t) (dev : sx1272_t) : sx1272_t :=
  mk_sx1272 (dio0_pin dev) (dio1_pin dev) (dio2_pin dev) (dio3_pin dev)
    (dio4_pin dev) (dio5_pin dev) (rfswitch_pin dev) (rfswitch_mode dev)
    (sx1272_event_cb dev) (channel dev) (state dev) m (lora dev)
    (last_packet dev) (last_channel dev) (is_last_cad_success dev)
    (tx_timeout_timer dev) (rx_timeout_timer dev)
    (tx_timeout_timer_callback dev) (tx_timeout_timer_arg dev)
    (rx_timeout_timer_callback dev) (rx_timeout_timer_arg dev)
    (dio_polling_thread_pid dev).

Definition set_lora (l : sx1272_lora_settings_t) (dev : sx1272_t) : sx1272_t :=
  mk_sx1272 (dio0_pin dev) (dio1_pin dev) (dio2_pin dev) (dio3_pin dev)
    (dio4_pin dev) (dio5_pin dev) (rfswitch_pin dev) (rfswitch_mode dev)
    (sx1272_event_cb dev) (channel dev) (state dev) (modem dev) l
    (last_packet dev) (last_channel dev) (is_last_cad_success dev)
    (tx_timeout_timer dev) (rx_timeout_timer dev)
    (tx_timeout_timer_callback dev) (tx_timeout_timer_arg dev)
    (rx_timeout_timer_callback dev) (rx_timeout_timer_arg dev)
    (dio_polling_thread_pid dev).

Definition set_last_packet (p : sx1272_rx_packet_t) (dev : sx1272_t) : sx1272_t :=
  mk_sx1272 (dio0_pin dev) (dio1_pin dev) (dio2_pin dev) (dio3_pin dev)
    (dio4_pin dev) (dio5_pin dev) (rfswitch_pin dev) (rfswitch_mode dev)
    (sx1272_event_cb dev) (channel dev) (state dev) (modem dev) (lora dev)
    p (last_channel dev) (is_last_cad_success dev)
    (tx_timeout_timer dev) (rx_timeout_timer dev)
    (tx_timeout_timer_callback dev) (tx_timeout_timer_arg dev)
    (rx_timeout_timer_callback dev) (rx_timeout_timer_arg dev)
    (dio_polling_thread_pid dev).

Definition set_is_last_cad_success (b : bool) (dev : sx1272_t) : sx1272_t :=
  mk_sx1272 (dio0_pin dev) (dio1_pin dev) (dio2_pin dev) (dio3_pin dev)
    (dio4_pin dev) (dio5_pin dev) (rfswitch_pin dev) (rfswitch_mode dev)
    (sx1272_event_cb dev) (channel dev) (state dev) (modem dev) (lora dev)
    (last_packet dev) (last_channel dev) b
    (tx_timeout_timer dev) (rx_timeout_timer dev)
    (tx_timeout_timer_callback dev) (tx_timeout_timer_arg dev)
    (rx_timeout_timer_callback dev) (rx_timeout_timer_arg dev)
    (dio_polling_thread_pid dev).

Definition set_tx_timeout_timer (t : option Z) (dev : sx1272_t) : sx1272_t :=
  mk_sx1272 (dio0_pin dev) (dio1_pin dev) (dio2_pin dev) (dio3_pin dev)
    (dio4_pin dev) (dio5_pin dev) (rfswitch_pin dev) (rfswitch_mode dev)
    (sx1272_event_cb dev) (channel dev) (state dev) (modem dev) (lora dev)
    (last_packet dev) (last_channel dev) (is_last_cad_success dev)
    t (rx_timeout_timer dev)
    (tx_timeout_timer_callback dev) (tx_timeout_timer_arg dev)
    (rx_timeout_timer_callback dev) (rx_timeout_timer_arg dev)
    (dio_polling_thread_pid dev).

Definition set_rx_timeout_timer (t : option Z) (dev : sx1272_t) : sx1272_t :=
  mk_sx1272 (dio0_pin dev) (dio1_pin dev) (dio2_pin dev) (dio3_pin dev)
    (dio4_pin dev) (dio5_pin dev) (rfswitch_pin dev) (rfswitch_mode dev)
    (sx1272_event_cb dev) (channel dev) (state dev) (modem dev) (lora dev)
    (last_packet dev) (last_channel dev) (is_last_cad_success dev)
    (tx_timeout_timer dev) t
    (tx_timeout_timer_callback dev) (tx_timeout_timer_arg dev)
    (rx_timeout_timer_callback dev) (rx_timeout_timer_arg dev)
    (dio_polling_thread_pid dev).

Definition set_low_datarate_optimize (b : bool) (l : sx1272_lora_settings_t)
  : sx1272_lora_settings_t :=
  mk_lora_settings (bandwidth l) (datarate l) (coderate l) b (preamble_len l)
    (implicit_header l) (payload_len l) (crc_on l) (freq_hop_on l)
    (hop_period l) (iq_inverted l) (rx_continuous l) (tx_timeout l)
    (rx_timeout l) (power l).

Definition set_power (p : Z) (l : sx1272_lora_settings_t)
  : sx1272_lora_settings_t :=
  mk_lora_settings (bandwidth l) (datarate l) (coderate l)
    (low_datarate_optimize l) (preamble_len l) (implicit_header l)
    (payload_len l) (crc_on l) (freq_hop_on l) (hop_period l) (iq_inverted l)
    (rx_continuous l) (tx_timeout l) (rx_timeout l) p.

Definition set_bandwidth (bw : sx1272_lora_bandwidth_t)
  (l : sx1272_lora_settings_t) : sx1272_lora_settings_t :=
  mk_lora_settings bw (datarate l) (coderate l)
    (low_datarate_optimize l) (preamble_len l) (implicit_header l)
    (payload_len l) (crc_on l) (freq_hop_on l) (hop_period l) (iq_inverted l)
    (rx_continuous l) (tx_timeout l) (rx_timeout l) (power l).

Definition set_datarate (sf : sx1272_lora_spreading_factor_t)
  (l : sx1272_lora_settings_t) : sx1272_lora_settings_t :=
  mk_lora_settings (bandwidth l) sf (coderate l)
    (low_datarate_optimize l) (preamble_len l) (implicit_header l)
    (payload_len l) (crc_on l) (freq_hop_on l) (hop_period l) (iq_inverted l)
    (rx_continuous l) (tx_timeout l) (rx_timeout l) (power l).

Definition set_coderate (cr : sx1272_lora_coding_rate_t)
  (l : sx1272_lora_settings_t) : sx1272_lora_settings_t :=
  mk_lora_settings (bandwidth l) (datarate l) cr
    (low_datarate_optimize l) (preamble_len l) (implicit_header l)
    (payload_len l) (crc_on l) (freq_hop_on l) (hop_period l) (iq_inverted l)
    (rx_continuous l) (tx_timeout l) (rx_timeout l) (power l).

(** ** The world outside the device structure *)

(** The chip's register file and FIFO memory, the GPIO controller (lines
    whose interrupt callback is enabled, and output levels), the trace of
    register writes issued on the bus, and the trace of events delivered
    to the application callback.  Both traces are in chronological
    order. *)
Record hw_t := mk_hw {
  regs : gmap Z Z;
  fifo : gmap Z Z;
  irq_enabled : gset gpio_t;
  gpio_level : gmap gpio_t bool;
  bus_writes : list (Z * Z);
  events : list sx1272_event_type_t
}.

(** Modelled from the spec: the chip side of a register write is not in
    the sources.  The handlers "clear" an interrupt flag by writing its
    bit to the IRQ-flags register and then read the remaining flags, so
    that register clears the bits written as one; every other register
    stores the byte written. *)
Definition chip_write (addr data : Z) (r : gmap Z Z) : gmap Z Z :=
  if addr =? REG_LR_IRQFLAGS
  then <[addr := Z.land (u8 (default 0 (r !! addr))) (Z.lnot data)]> r
  else <[addr := data]> r.

(** [sx1272_reg_read]: one byte from the register file. *)
Definition sx1272_reg_read (h : hw_t) (addr : Z) : Z :=
  u8 (default 0 (regs h !! addr)).

(** [sx1272_reg_write]: the [uint8_t] argument is put on the bus. *)
Definition sx1272_reg_write (h : hw_t) (addr data : Z) : hw_t :=
  mk_hw (chip_write addr (u8 data) (regs h)) (fifo h) (irq_enabled h)
    (gpio_level h) (bus_writes h ++ [(addr, u8 data)]) (events h).

Definition gpio_irq_enable (p : gpio_t) (h : hw_t) : hw_t :=
  mk_hw (regs h) (fifo h) ({[p]} ∪ irq_enabled h) (gpio_level h)
    (bus_writes h) (events h).

Definition gpio_irq_disable (p : gpio_t) (h : hw_t) : hw_t :=
  mk_hw (regs h) (fifo h) (irq_enabled h ∖ {[p]}) (gpio_level h)
    (bus_writes h) (events h).

Definition gpio_set (p : gpio_t) (h : hw_t) : hw_t :=
  mk_hw (regs h) (fifo h) (irq_enabled h) (<[p := true]> (gpio_level h))
    (bus_writes h) (events h).

Definition gpio_clear (p : gpio_t) (h : hw_t) : hw_t :=
  mk_hw (regs h) (fifo h) (irq_enabled h) (<[p := false]> (gpio_level h))
    (bus_writes h) (events h).

(** [if (pin != GPIO_UNDEF) { f(pin); }] *)
Definition if_defined (pin : option gpio_t) (f : gpio_t -> hw_t -> hw_t)
  (h : hw_t) : hw_t :=
  match pin with
  | Some p => f p h
  | None => h
  end.

(** [send_event]: the callback is invoked only when one is registered. *)
Definition send_event (dev : sx1272_t) (event_type : sx1272_event_type_t)
  (h : hw_t) : hw_t :=
  if sx1272_event_cb dev
  then mk_hw (regs h) (fifo h) (irq_enabled h) (gpio_level h) (bus_writes h)
         (events h ++ [event_type])
  else h.

Definition xtimer_set (d : Z) : option Z := Some d.
Definition xtimer_remove : option Z := None.

(** ** Operating mode *)

(** [sx1272_set_op_mode].  The function-static [op_mode_prev] is assigned
    before it is read in every call, so it is a local here. *)
Definition sx1272_set_op_mode (dev : sx1272_t) (op_mode : Z) (h : hw_t) : hw_t :=
  let op_mode_prev :=
    u8 (Z.land (sx1272_reg_read h REG_OPMODE) (Z.lnot RF_OPMODE_MASK)) in
  let h :=
    if negb (op_mode =? op_mode_prev)
    then sx1272_reg_write h REG_OPMODE
           (Z.lor (Z.land op_mode_prev RF_OPMODE_MASK) op_mode)
    else h in
  if op_mode =? RF_OPMODE_SLEEP then
    let h := if_defined (dio0_pin dev) gpio_irq_disable h in
    let h := if_defined (dio1_pin dev) gpio_irq_disable h in
    let h := if_defined (dio2_pin dev) gpio_irq_disable h in
    let h := if_defined (dio3_pin dev) gpio_irq_disable h in
    (* disable RF switch power *)
    if_defined (rfswitch_pin dev)
      (match rfswitch_mode dev with
       | SX1272_RFSWITCH_ACTIVE_LOW => gpio_set
       | SX1272_RFSWITCH_ACTIVE_HIGH => gpio_clear
       end) h
  else
    let h := if_defined (dio0_pin dev) gpio_irq_enable h in
    let h := if_defined (dio1_pin dev) gpio_irq_enable h in
    let h := if_defined (dio2_pin dev) gpio_irq_enable h in
    let h := if_defined (dio3_pin dev) gpio_irq_enable h in
    (* enable RF switch power *)
    if_defined (rfswitch_pin dev)
      (match rfswitch_mode dev with
       | SX1272_RFSWITCH_ACTIVE_LOW => gpio_clear
       | SX1272_RFSWITCH_ACTIVE_HIGH => gpio_set
       end) h.

(** [_init_isrs]: [gpio_init_int] registers the rising-edge callback of
    every configured DIO line and leaves it enabled. *)
Definition _init_isrs (dev : sx1272_t) (h : hw_t) : hw_t :=
  let h := if_defined (dio0_pin dev) gpio_irq_enable h in
  let h := if_defined (dio1_pin dev) gpio_irq_enable h in
  let h := if_defined (dio2_pin dev) gpio_irq_enable h in
  let h := if_defined (dio3_pin dev) gpio_irq_enable h in
  let h := if_defined (dio4_pin dev) gpio_irq_enable h in
  if_defined (dio5_pin dev) gpio_irq_enable h.

(** [sx1272_set_modem] *)
Definition sx1272_set_modem (dev : sx1272_t) (m : sx1272_radio_modems_t)
  (h : hw_t) : sx1272_t * hw_t :=
  let dev := set_modem_field m dev in
  match modem dev with
  | SX1272_MODEM_LORA =>
      let h := sx1272_set_op_mode dev RF_OPMODE_SLEEP h in
      let h := sx1272_reg_write h REG_OPMODE
                 (Z.lor (Z.land (sx1272_reg_read h REG_OPMODE)
                           RFLR_OPMODE_LONGRANGEMODE_MASK)
                    RFLR_OPMODE_LONGRANGEMODE_ON) in
      let h := sx1272_reg_write h REG_DIOMAPPING1 0x00 in
      let h := sx1272_reg_write h REG_DIOMAPPING2 0x10 in
      (dev, h)
  | SX1272_MODEM_FSK =>
      let h := sx1272_set_op_mode dev RF_OPMODE_SLEEP h in
      let h := sx1272_reg_write h REG_OPMODE
                 (Z.lor (Z.land (sx1272_reg_read h REG_OPMODE)
                           RFLR_OPMODE_LONGRANGEMODE_MASK)
                    RFLR_OPMODE_LONGRANGEMODE_OFF) in
      let h := sx1272_reg_write h REG_DIOMAPPING1 0x00 in
      (dev, h)
  end.

(** [sx1272_set_sleep] and [sx1272_set_standby] *)
Definition sx1272_set_sleep (dev : sx1272_t) (h : hw_t) : sx1272_t * hw_t :=
  let dev := set_tx_timeout_timer xtimer_remove dev in
  let dev := set_rx_timeout_timer xtimer_remove dev in
  let h := sx1272_set_op_mode dev RF_OPMODE_SLEEP h in
  (set_state SX1272_RF_IDLE dev, h).

Definition sx1272_set_standby (dev : sx1272_t) (h : hw_t) : sx1272_t * hw_t :=
  let dev := set_tx_timeout_timer xtimer_remove dev in
  let dev := set_rx_timeout_timer xtimer_remove dev in
  let h := sx1272_set_op_mode dev RF_OPMODE_STANDBY h in
  (set_state SX1272_RF_IDLE dev, h).

(** ** LoRa configuration and PA policy *)

Section Configuration.

(** The mid-band threshold comes from the missing header sx1272.h; no
    result below depends on its value. *)
Variable SX1272_RF_MID_BAND_THRESH : Z.

(** [sx1272_get_pa_select] *)
Definition sx1272_get_pa_select (channel : Z) : Z :=
  if channel <? SX1272_RF_MID_BAND_THRESH
  then RF_PACONFIG_PASELECT_PABOOST
  else RF_PACONFIG_PASELECT_RFO.

(** [if (power < lo) power = lo; if (power > hi) power = hi;] *)
Definition clamp_power (lo hi p : Z) : Z :=
  let p := if p <? lo then lo else p in
  if p >? hi then hi else p.

(** [setup_power_amplifier].  The [settings] argument of the C function is
    unused: the policy reads and rewrites [dev->settings.lora.power]. *)
Definition setup_power_amplifier (dev : sx1272_t) (h : hw_t) : sx1272_t * hw_t :=
  let pa_config := sx1272_reg_read h REG_PACONFIG in
  let pa_dac := sx1272_reg_read h REG_PADAC in
  let pa_config :=
    u8 (Z.lor (Z.land pa_config RF_PACONFIG_PASELECT_MASK)
          (sx1272_get_pa_select (channel dev))) in
  let '(dev, pa_config, pa_dac) :=
    if Z.land pa_config RF_PACONFIG_PASELECT_PABOOST
         =? RF_PACONFIG_PASELECT_PABOOST
    then
      let pa_dac :=
        if power (lora dev) >? 17
        then u8 (Z.lor (Z.land pa_dac RF_PADAC_20DBM_MASK) RFLR_PADAC_20DBM_ON)
        else u8 (Z.lor (Z.land pa_dac RF_PADAC_20DBM_MASK) RFLR_PADAC_20DBM_OFF) in
      if Z.land pa_dac RFLR_PADAC_20DBM_ON =? RFLR_PADAC_20DBM_ON
      then
        let dev := set_lora (set_power (clamp_power 5 20 (power (lora dev)))
                               (lora dev)) dev in
        (dev,
         u8 (Z.lor (Z.land pa_config RFLR_PACONFIG_OUTPUTPOWER_MASK)
               (u8 (Z.land (u16 (power (lora dev) - 5)) 0x0F))),
         pa_dac)
      else
        let dev := set_lora (set_power (clamp_power 2 17 (power (lora dev)))
                               (lora dev)) dev in
        (dev,
         u8 (Z.lor (Z.land pa_config RFLR_PACONFIG_OUTPUTPOWER_MASK)
               (u8 (Z.land (u16 (power (lora dev) - 2)) 0x0F))),
         pa_dac)
    else
      let dev := set_lora (set_power (clamp_power (-1) 14 (power (lora dev)))
                             (lora dev)) dev in
      (dev,
       u8 (Z.lor (Z.land pa_config RFLR_PACONFIG_OUTPUTPOWER_MASK)
             (u8 (Z.land (u16 (power (lora dev) + 1)) 0x0F))),
       pa_dac) in
  let h := sx1272_reg_write h REG_PACONFIG pa_config in
  let h := sx1272_reg_write h REG_PADAC pa_dac in
  (dev, h).

(** The condition under which [sx1272_configure_lora] sets
    [low_datarate_optimize]. *)
Definition low_datarate_needed (l : sx1272_lora_settings_t) : bool :=
  (bool_decide (bandwidth l = SX1272_BW_125_KHZ)
   && (bool_decide (datarate l = SX1272_SF11)
       || bool_decide (datarate l = SX1272_SF12)))
  || (bool_decide (bandwidth l = SX1272_BW_250_KHZ)
      && bool_decide (datarate l = SX1272_SF12)).

(** [sx1272_configure_lora]; [settings = None] is the NULL pointer. *)
Definition sx1272_configure_lora (dev : sx1272_t)
  (settings : option sx1272_lora_settings_t) (h : hw_t) : sx1272_t * hw_t :=
  let '(dev, h) := sx1272_set_modem dev SX1272_MODEM_LORA h in
  (* Copy LoRa configuration into device structure *)
  let dev :=
    match settings with
    | Some s => set_lora s dev
    | None => dev
    end in
  let dev :=
    if low_datarate_needed (lora dev)
    then set_lora (set_low_datarate_optimize true (lora dev)) dev
    else set_lora (set_low_datarate_optimize false (lora dev)) dev in
  let l := lora dev in
  let h := sx1272_reg_write h REG_LR_MODEMCONFIG1
    (Z.lor (Z.lor (Z.lor (Z.lor (Z.lor
       (Z.land (Z.land (Z.land (Z.land (Z.land
          (sx1272_reg_read h REG_LR_MODEMCONFIG1)
          RFLR_MODEMCONFIG1_BW_MASK)
          RFLR_MODEMCONFIG1_CODINGRATE_MASK)
          RFLR_MODEMCONFIG1_IMPLICITHEADER_MASK)
          RFLR_MODEMCONFIG1_RXPAYLOADCRC_MASK)
          RFLR_MODEMCONFIG1_LOWDATARATEOPTIMIZE_MASK)
       (Z.shiftl (bw_code (bandwidth l)) 6))
       (Z.shiftl (cr_code (coderate l)) 3))
       (Z.shiftl (b2z (implicit_header l)) 2))
       (Z.shiftl (b2z (crc_on l)) 1))
       (b2z (low_datarate_optimize l))) in
  let h := sx1272_reg_write h REG_LR_MODEMCONFIG2
    (Z.lor (Z.lor
       (Z.land (Z.land (sx1272_reg_read h REG_LR_MODEMCONFIG2)
          RFLR_MODEMCONFIG2_SF_MASK)
          RFLR_MODEMCONFIG2_SYMBTIMEOUTMSB_MASK)
       (Z.shiftl (sf_code (datarate l)) 4))
       (Z.land (Z.shiftr (rx_timeout l) 8)
          (Z.lnot RFLR_MODEMCONFIG2_SYMBTIMEOUTMSB_MASK))) in
  let h := sx1272_reg_write h REG_LR_SYMBTIMEOUTLSB
             (u8 (Z.land (rx_timeout l) 0xFF)) in
  let h := sx1272_reg_write h REG_LR_PREAMBLEMSB
             (u8 (Z.land (Z.shiftr (preamble_len l) 8) 0xFF)) in
  let h := sx1272_reg_write h REG_LR_PREAMBLELSB
             (u8 (Z.land (preamble_len l) 0xFF)) in
  let h :=
    if implicit_header l
    then sx1272_reg_write h REG_LR_PAYLOADLENGTH (payload_len l)
    else h in
  let h :=
    if freq_hop_on l
    then
      let h := sx1272_reg_write h REG_LR_PLLHOP
                 (Z.lor (Z.land (sx1272_reg_read h REG_LR_PLLHOP)
                           RFLR_PLLHOP_FASTHOP_MASK)
                    RFLR_PLLHOP_FASTHOP_ON) in
      sx1272_reg_write h REG_LR_HOPPERIOD (hop_period l)
    else h in
  let '(dev, h) := setup_power_amplifier dev h in
  (* Enable LNA HF boost, as recommended in AN1200.23 *)
  let h := sx1272_reg_write h REG_LR_LNA
             (Z.lor (Z.land (sx1272_reg_read h REG_LR_LNA) RFLR_LNA_BOOST_MASK)
                RFLR_LNA_BOOST_ON) in
  (* Enable Automatic Gain Control *)
  let h := sx1272_reg_write h REG_LR_MODEMCONFIG2
             (Z.lor (Z.land (sx1272_reg_read h REG_LR_MODEMCONFIG2)
                       RFLR_MODEMCONFIG2_AGCAUTO_MASK)
                RFLR_MODEMCONFIG2_AGCAUTO_ON) in
  let h := sx1272_reg_write h REG_LR_DETECTOPTIMIZE
             RFLR_DETECTIONOPTIMIZE_SF7_TO_SF12 in
  let h := sx1272_reg_write h REG_LR_DETECTIONTHRESHOLD
             RFLR_DETECTIONTHRESH_SF7_TO_SF12 in
  (dev, h).

(** The per-field setters. *)
Definition sx1272_configure_lora_bw (dev : sx1272_t)
  (bw : sx1272_lora_bandwidth_t) (h : hw_t) : sx1272_t * hw_t :=
  let dev := set_lora (set_bandwidth bw (lora dev)) dev in
  sx1272_configure_lora dev None h.

Definition sx1272_configure_lora_sf (dev : sx1272_t)
  (sf : sx1272_lora_spreading_factor_t) (h : hw_t) : sx1272_t * hw_t :=
  let dev := set_lora (set_datarate sf (lora dev)) dev in
  sx1272_configure_lora dev None h.

Definition sx1272_configure_lora_cr (dev : sx1272_t)
  (cr : sx1272_lora_coding_rate_t) (h : hw_t) : sx1272_t * hw_t :=
  let dev := set_lora (set_coderate cr (lora dev)) dev in
  sx1272_configure_lora dev None h.

End Configuration.

(** ** Time on air *)

(** C [double] arithmetic is IEEE 754 binary64 with round-to-nearest-even,
    which is what the primitive floats compute.  The conversions and the
    two libm roundings used by the driver are written out here. *)
Module D.

(** Integer to [double]; exact below 2^53. *)
Definition of_Z (z : Z) : float :=
  if z <? 0
  then PrimFloat.opp (PrimFloat.of_uint63 (Uint63.of_Z (- z)))
  else PrimFloat.of_uint63 (Uint63.of_Z z).

(** Largest integer not above a finite [x]. *)
Definition floorZ (x : float) : option Z :=
  match Prim2SF x with
  | S754_zero _ => Some 0
  | S754_finite s m e =>
      let n := Z.shiftl (Z.pos m) e in
      if s
      then Some (- (if Z.shiftl n (- e) =? Z.pos m then n else n + 1))
      else Some n
  | S754_infinity _ | S754_nan => None
  end.

Definition is_neg (x : float) : bool :=
  match Prim2SF x with
  | S754_zero s | S754_infinity s | S754_finite s _ _ => s
  | S754_nan => false
  end.

(** An integer back to the [double] nearest [x]: a value of magnitude
    2^53 or more is its own rounding, a zero result keeps the sign of
    [x]. *)
Definition round_to (x : float) (z : Z) : float :=
  if 2 ^ 53 <=? Z.abs z then x
  else if (z =? 0) && is_neg x then PrimFloat.opp (of_Z 0)
  else of_Z z.

(** [floor] and [ceil] of math.h. *)
Definition floor (x : float) : float :=
  match floorZ x with
  | Some z => round_to x z
  | None => x
  end.

Definition ceil (x : float) : float :=
  match floorZ (PrimFloat.opp x) with
  | Some z => round_to x (- z)
  | None => x
  end.

(** [double] to [uint32_t].  C defines the conversion for values in range
    only; out of range the low 32 bits of the integer part are returned
    here, as a conversion through a 64-bit integer gives. *)
Definition to_u32 (x : float) : Z :=
  match floorZ (if is_neg x then ceil x else floor x) with
  | Some z => Z.land z 0xFFFFFFFF
  | None => 0
  end.

End D.

(** Modelled from the spec: the settings structure is declared in a header
    that is not in the sources, and the type of its enumeration-valued
    fields decides the type of the integer arithmetic over them.  A
    field narrower than [int] (a byte, or the enumeration type where the
    compiler stores an enumeration in the smallest type that holds it)
    promotes to [int].  A field of the enumeration type where that has
    the size of an [int] is an [unsigned int], none of the enumerators
    being negative: a sum it enters is computed modulo 2^32. *)
Inductive settings_arith_t := ARITH_INT | ARITH_UNSIGNED_INT.

Definition c_arith (ty : settings_arith_t) (z : Z) : Z :=
  match ty with
  | ARITH_INT => z
  | ARITH_UNSIGNED_INT => z mod 2 ^ 32
  end.

(** [sx1272_get_time_on_air]; [pkt_len] is a [uint8_t].  The three integer
    expressions over the spreading factor and the coding rate are
    evaluated in the type [ty] gives them. *)
Definition sx1272_get_time_on_air (ty : settings_arith_t) (dev : sx1272_t)
  (modem : sx1272_radio_modems_t) (pkt_len : Z) : Z :=
  match modem with
  | SX1272_MODEM_FSK => 0
  | SX1272_MODEM_LORA =>
      let l := lora dev in
      (* Note: SX1272 only supports bandwidths 125, 250 and 500 kHz *)
      let bw :=
        match bw_code (bandwidth l) with
        | 0 => 125e3
        | 1 => 250e3
        | 2 => 500e3
        | _ => 0
        end%float in
      (* Symbol rate : time for one symbol [secs] *)
      let rs := (bw / D.of_Z (Z.shiftl 1 (sf_code (datarate l))))%float in
      let ts := (1 / rs)%float in
      (* time of preamble *)
      let t_preamble := ((D.of_Z (preamble_len l) + 4.25) * ts)%float in
      (* Symbol length of payload and time *)
      let tmp :=
        (D.ceil
           (D.of_Z (c_arith ty
                      (8 * pkt_len - 4 * sf_code (datarate l) + 28
                       + 16 * b2z (crc_on l)
                       - (if negb (implicit_header l) then 20 else 0)))
            / D.of_Z (c_arith ty
                        (4 * sf_code (datarate l)
                         - (if b2z (low_datarate_optimize l) >? 0
                            then 2 else 0))))
         * D.of_Z (c_arith ty (cr_code (coderate l) + 4)))%float in
      let n_payload :=
        (D.of_Z 8 + (if PrimFloat.ltb 0 tmp then tmp else D.of_Z 0))%float in
      let t_payload := (n_payload * ts)%float in
      (* Time on air *)
      let t_on_air := (t_preamble + t_payload)%float in
      D.to_u32 (D.floor (t_on_air * 1e6 + 0x1.ff7ced916872bp-1)%float)
  end.

(** The time on air as the specification words it, in exact arithmetic:
    the payload symbol count
    8 + max(0, ceil[(8 len - 4 SF + 28 + 16 crc - 20 (1 - implicit))
                    / (4 (SF - 2 low_dr_opt))] (coderate + 4)),
    and floor(t + 0.999) of the duration t in microseconds of
    preamble_len + 4.25 + payload symbols at 2^SF / bandwidth each. *)
Definition spec_payload_symbols (l : sx1272_lora_settings_t) (len : Z) : Z :=
  let num := 8 * len - 4 * sf_code (datarate l) + 28 + 16 * b2z (crc_on l)
             - 20 * (1 - b2z (implicit_header l)) in
  let den := 4 * (sf_code (datarate l) - 2 * b2z (low_datarate_optimize l)) in
  8 + Z.max 0 (- ((- num) / den) * (cr_code (coderate l) + 4)).

Definition bandwidth_hz (bw : sx1272_lora_bandwidth_t) : Z :=
  match bw with
  | SX1272_BW_125_KHZ => 125000
  | SX1272_BW_250_KHZ => 250000
  | SX1272_BW_500_KHZ => 500000
  end.

Definition spec_time_on_air (l : sx1272_lora_settings_t) (len : Z) : Z :=
  (* t = num / den microseconds *)
  let num := (4 * preamble_len l + 17 + 4 * spec_payload_symbols l len)
             * 2 ^ sf_code (datarate l) * 1000000 in
  let den := 4 * bandwidth_hz (bandwidth l) in
  (1000 * num + 999 * den) / (1000 * den).

(** The numerator of the payload symbol count, in exact arithmetic. *)
Definition payload_numerator (l : sx1272_lora_settings_t) (len : Z) : Z :=
  8 * len - 4 * sf_code (datarate l) + 28 + 16 * b2z (crc_on l)
  - 20 * (1 - b2z (implicit_header l)).

(** The payload symbol count with the divisor the driver uses,
    4 SF - 2 low_dr_opt, for comparison. *)
Definition driver_payload_symbols (l : sx1272_lora_settings_t) (len : Z) : Z :=
  let num := 8 * len - 4 * sf_code (datarate l) + 28 + 16 * b2z (crc_on l)
             - 20 * (1 - b2z (implicit_header l)) in
  let den := 4 * sf_code (datarate l) - 2 * b2z (low_datarate_optimize l) in
  8 + Z.max 0 (- ((- num) / den) * (cr_code (coderate l) + 4)).

(** The duration the driver computes, in exact arithmetic: the formula
    above with the driver's payload symbol count. *)
Definition driver_time_on_air (l : sx1272_lora_settings_t) (len : Z) : Z :=
  let num := (4 * preamble_len l + 17 + 4 * driver_payload_symbols l len)
             * 2 ^ sf_code (datarate l) * 1000000 in
  let den := 4 * bandwidth_hz (bandwidth l) in
  (1000 * num + 999 * den) / (1000 * den).

(** A settings record with the given fields that enter the time on air. *)
Definition modulation (bw : sx1272_lora_bandwidth_t)
  (sf : sx1272_lora_spreading_factor_t) (cr : sx1272_lora_coding_rate_t)
  (ldo ih crc : bool) (pl : Z) : sx1272_lora_settings_t :=
  mk_lora_settings bw sf cr ldo pl ih 0 crc false 0 false false 0 0 0.

Definition all_bandwidths : list sx1272_lora_bandwidth_t :=
  [SX1272_BW_125_KHZ; SX1272_BW_250_KHZ; SX1272_BW_500_KHZ].

Definition all_spreading_factors : list sx1272_lora_spreading_factor_t :=
  [SX1272_SF6; SX1272_SF7; SX1272_SF8; SX1272_SF9; SX1272_SF10; SX1272_SF11;
   SX1272_SF12].

Definition all_coding_rates : list sx1272_lora_coding_rate_t :=
  [SX1272_CR_4_5; SX1272_CR_4_6; SX1272_CR_4_7; SX1272_CR_4_8].

Definition bytes : list Z := map Z.of_nat (seq 0 256).

(** ** Deadline timers and DIO event handlers *)

(** [_on_tx_timeout] and [_on_rx_timeout], the callbacks of the two
    deadline timers. *)
Definition _on_tx_timeout (dev : sx1272_t) (h : hw_t) : sx1272_t * hw_t :=
  (* TX timeout. Send event message to the application's thread *)
  (dev, send_event dev SX1272_TX_TIMEOUT h).

Definition _on_rx_timeout (dev : sx1272_t) (h : hw_t) : sx1272_t * hw_t :=
  (* RX timeout. Send event message to the application's thread *)
  (dev, send_event dev SX1272_RX_TIMEOUT h).

(** Modelled from the spec: the chip side of a FIFO burst read is not in
    the sources.  Every access yields the next byte of the FIFO memory at
    the address pointer, which advances. *)
Fixpoint fifo_read_burst (n : nat) (ptr : Z) (mem : gmap Z Z) : list Z :=
  match n with
  | O => []
  | S n => u8 (default 0 (mem !! ptr)) :: fifo_read_burst n (u8 (ptr + 1)) mem
  end.

(** [sx1272_read_fifo] *)
Definition sx1272_read_fifo (h : hw_t) (size : Z) : list Z * hw_t :=
  let ptr := sx1272_reg_read h REG_LR_FIFOADDRPTR in
  (fifo_read_burst (Z.to_nat size) ptr (fifo h),
   mk_hw (<[REG_LR_FIFOADDRPTR := u8 (ptr + size)]> (regs h)) (fifo h)
     (irq_enabled h) (gpio_level h) (bus_writes h) (events h)).

(** [sx1272_on_dio0] *)
Definition sx1272_on_dio0 (dev : sx1272_t) (h : hw_t) : sx1272_t * hw_t :=
  match state dev with
  | SX1272_RF_RX_RUNNING =>
      match modem dev with
      | SX1272_MODEM_LORA =>
          (* Clear IRQ *)
          let h := sx1272_reg_write h REG_LR_IRQFLAGS RFLR_IRQFLAGS_RXDONE in
          let irq_flags := sx1272_reg_read h REG_LR_IRQFLAGS in
          if Z.land irq_flags RFLR_IRQFLAGS_PAYLOADCRCERROR_MASK
               =? RFLR_IRQFLAGS_PAYLOADCRCERROR
          then
            let h := sx1272_reg_write h REG_LR_IRQFLAGS
                       RFLR_IRQFLAGS_PAYLOADCRCERROR in
            let dev :=
              if negb (rx_continuous (lora dev))
              then set_state SX1272_RF_IDLE dev
              else dev in
            let dev := set_rx_timeout_timer xtimer_remove dev in
            let h := send_event dev SX1272_RX_ERROR_CRC h in
            (dev, h)
          else
            let snr_value := sx1272_reg_read h REG_LR_PKTSNRVALUE in
            let snr :=
              if negb (Z.land snr_value 0x80 =? 0)
              then (* The SNR is negative: invert and divide by 4 *)
                - Z.shiftr (Z.land (Z.lnot snr_value + 1) 0xFF) 2
              else (* Divide by 4 *)
                Z.shiftr (Z.land snr_value 0xFF) 2 in
            let rssi := sx1272_reg_read h REG_LR_PKTRSSIVALUE in
            let rssi_value :=
              if snr <? 0
              then RSSI_OFFSET + rssi + Z.shiftr rssi 4 + snr
              else RSSI_OFFSET + rssi + Z.shiftr rssi 4 in
            let size := sx1272_reg_read h REG_LR_RXNBBYTES in
            let dev :=
              if negb (rx_continuous (lora dev))
              then set_state SX1272_RF_IDLE dev
              else dev in
            let dev := set_rx_timeout_timer xtimer_remove dev in
            (* Read the last packet from FIFO *)
            let last_rx_addr := sx1272_reg_read h REG_LR_FIFORXCURRENTADDR in
            let h := sx1272_reg_write h REG_LR_FIFOADDRPTR last_rx_addr in
            let '(content, h) := sx1272_read_fifo h size in
            let dev :=
              set_last_packet (mk_rx_packet snr_value rssi_value size content)
                dev in
            (* Notify application about new packet received *)
            let h := send_event dev SX1272_RX_DONE h in
            (dev, h)
      | SX1272_MODEM_FSK => (dev, h)
      end
  | SX1272_RF_TX_RUNNING =>
      (* Clear TX timeout timer *)
      let dev := set_tx_timeout_timer xtimer_remove dev in
      (* Clear IRQ *)
      let h := sx1272_reg_write h REG_LR_IRQFLAGS RFLR_IRQFLAGS_TXDONE in
      let dev := set_state SX1272_RF_IDLE dev in
      let h := send_event dev SX1272_TX_DONE h in
      (dev, h)
  | SX1272_RF_IDLE | SX1272_RF_CAD => (dev, h)
  end.

(** [sx1272_on_dio1] *)
Definition sx1272_on_dio1 (dev : sx1272_t) (h : hw_t) : sx1272_t * hw_t :=
  match state dev with
  | SX1272_RF_RX_RUNNING =>
      match modem dev with
      | SX1272_MODEM_LORA =>
          let dev := set_rx_timeout_timer xtimer_remove dev in
          let dev := set_state SX1272_RF_IDLE dev in
          let h := send_event dev SX1272_RX_TIMEOUT h in
          (dev, h)
      | SX1272_MODEM_FSK => (dev, h)
      end
  | SX1272_RF_TX_RUNNING => (dev, h)
  | SX1272_RF_IDLE | SX1272_RF_CAD => (dev, h)
  end.

(** [sx1272_on_dio3] *)
Definition sx1272_on_dio3 (dev : sx1272_t) (h : hw_t) : sx1272_t * hw_t :=
  match modem dev with
  | SX1272_MODEM_FSK => (dev, h)
  | SX1272_MODEM_LORA =>
      (* Clear IRQ *)
      let h := sx1272_reg_write h REG_LR_IRQFLAGS
                 (Z.lor RFLR_IRQFLAGS_CADDETECTED RFLR_IRQFLAGS_CADDONE) in
      (* Send event message *)
      let dev :=
        set_is_last_cad_success
          (Z.land (sx1272_reg_read h REG_LR_IRQFLAGS) RFLR_IRQFLAGS_CADDETECTED
           =? RFLR_IRQFLAGS_CADDETECTED) dev in
      let h := send_event dev SX1272_CAD_DONE h in
      (dev, h)
  end.

(** [sx1272_on_dio4]: DIO4 may be used for CadDetect events. *)
Definition sx1272_on_dio4 (dev : sx1272_t) (h : hw_t) : sx1272_t * hw_t :=
  match modem dev with
  | SX1272_MODEM_FSK => (dev, h)
  | SX1272_MODEM_LORA =>
      (* Clear IRQ *)
      let h := sx1272_reg_write h REG_LR_IRQFLAGS
                 (Z.lor RFLR_IRQFLAGS_CADDETECTED RFLR_IRQFLAGS_CADDONE) in
      (* Send event message *)
      let dev :=
        set_is_last_cad_success
          (Z.land (sx1272_reg_read h REG_LR_IRQFLAGS) RFLR_IRQFLAGS_CADDETECTED
           =? RFLR_IRQFLAGS_CADDETECTED) dev in
      let h := send_event dev SX1272_CAD_DETECTED h in
      (dev, h)
  end.

(** ** The rest of the driver *)

Definition u32 (z : Z) : Z := Z.land z 0xFFFFFFFF.

Module MoreRegs.

(** Modelled from the spec: further names of the missing register-map
    headers, with the values of the SX1272 register map. *)
Definition REG_FIFO : Z := 0x00.
Definition REG_FRFMSB : Z := 0x06.
Definition REG_FRFMID : Z := 0x07.
Definition REG_FRFLSB : Z := 0x08.
Definition REG_LR_FIFOTXBASEADDR : Z := 0x0E.
Definition REG_LR_FIFORXBASEADDR : Z := 0x0F.
Definition REG_LR_IRQFLAGSMASK : Z := 0x11.
Definition REG_RSSIVALUE : Z := 0x11.
Definition REG_LR_RSSIVALUE : Z := 0x1B.
Definition REG_LR_HOPCHANNEL : Z := 0x1C.
Definition REG_LR_PAYLOADMAXLENGTH : Z := 0x23.
Definition REG_LR_RSSIWIDEBAND : Z := 0x2C.
Definition REG_LR_INVERTIQ : Z := 0x33.
Definition REG_LR_INVERTIQ2 : Z := 0x3B.


Definition RFLR_IRQFLAGS_RXTIMEOUT : Z := 0x80.
Definition RFLR_IRQFLAGS_VALIDHEADER : Z := 0x10.
Definition RFLR_IRQFLAGS_FHSSCHANGEDCHANNEL : Z := 0x02.
Definition RFLR_HOPCHANNEL_CHANNEL_MASK : Z := 0x3F.

Definition RFLR_INVERTIQ_RX_MASK : Z := 0xBF.
Definition RFLR_INVERTIQ_RX_OFF : Z := 0x00.
Definition RFLR_INVERTIQ_RX_ON : Z := 0x40.
Definition RFLR_INVERTIQ_TX_MASK : Z := 0xFE.
Definition RFLR_INVERTIQ_TX_OFF : Z := 0x01.
Definition RFLR_INVERTIQ_TX_ON : Z := 0x00.
Definition RFLR_INVERTIQ2_ON : Z := 0x19.
Definition RFLR_INVERTIQ2_OFF : Z := 0x1D.

Definition RFLR_DIOMAPPING1_DIO0_MASK : Z := 0x3F.
Definition RFLR_DIOMAPPING1_DIO0_00 : Z := 0x00.
Definition RFLR_DIOMAPPING1_DIO0_01 : Z := 0x40.
Definition RFLR_DIOMAPPING1_DIO2_MASK : Z := 0xF3.
Definition RFLR_DIOMAPPING1_DIO2_00 : Z := 0x00.
Definition RFLR_DIOMAPPING1_DIO3_MASK : Z := 0xFC.
Definition RFLR_DIOMAPPING1_DIO3_00 : Z := 0x00.
Definition RFLR_DIOMAPPING2_DIO4_MASK : Z := 0x3F.
Definition RFLR_DIOMAPPING2_DIO4_00 : Z := 0x00.

Definition RXLORA_RXMODE_RSSI_REG_MODEM_CONFIG1 : Z := 0x0A.
Definition RXLORA_RXMODE_RSSI_REG_MODEM_CONFIG2 : Z := 0x70.

Definition RFLR_OPMODE_RECEIVER : Z := 0x05.


End MoreRegs.
Import MoreRegs.

Definition set_last_channel (c : Z) (dev : sx1272_t) : sx1272_t :=
  mk_sx1272 (dio0_pin dev) (dio1_pin dev) (dio2_pin dev) (dio3_pin dev)
    (dio4_pin dev) (dio5_pin dev) (rfswitch_pin dev) (rfswitch_mode dev)
    (sx1272_event_cb dev) (channel dev) (state dev) (modem dev) (lora dev)
    (last_packet dev) c (is_last_cad_success dev)
    (tx_timeout_timer dev) (rx_timeout_timer dev)
    (tx_timeout_timer_callback dev) (tx_timeout_timer_arg dev)
    (rx_timeout_timer_callback dev) (rx_timeout_timer_arg dev)
    (dio_polling_thread_pid dev).

(** [sx1272_get_status] *)
Definition sx1272_get_status (dev : sx1272_t) : sx1272_radio_state_t :=
  state dev.


(** [sx1272_read_rssi]; the result is an [int16_t]. *)
Definition sx1272_read_rssi (dev : sx1272_t) (h : hw_t) : Z :=
  match modem dev with
  | SX1272_MODEM_FSK => - Z.shiftr (sx1272_reg_read h REG_RSSIVALUE) 1
  | SX1272_MODEM_LORA => RSSI_OFFSET + sx1272_reg_read h REG_LR_RSSIVALUE
  end.

(** [sx1272_set_max_payload_len] *)
Definition sx1272_set_max_payload_len (dev : sx1272_t)
  (modem : sx1272_radio_modems_t) (maxlen : Z) (h : hw_t) : sx1272_t * hw_t :=
  let '(dev, h) := sx1272_set_modem dev modem h in
  match modem with
  | SX1272_MODEM_FSK => (dev, h)
  | SX1272_MODEM_LORA => (dev, sx1272_reg_write h REG_LR_PAYLOADMAXLENGTH maxlen)
  end.

Section Channel.

(** The frequency step comes from the missing header sx1272.h. *)
Variable SX1272_FREQ_STEP : float.

(** [sx1272_set_channel]; [freq] is a [uint32_t]. *)
Definition sx1272_set_channel (dev : sx1272_t) (freq : Z) (h : hw_t) : hw_t :=
  (* Save current operating mode *)
  let prev_mode := sx1272_reg_read h REG_OPMODE in
  let h := sx1272_set_op_mode dev RF_OPMODE_STANDBY h in
  let freq := D.to_u32 (D.of_Z freq / SX1272_FREQ_STEP)%float in
  (* Write frequency settings into chip *)
  let h := sx1272_reg_write h REG_FRFMSB (u8 (Z.land (Z.shiftr freq 16) 0xFF)) in
  let h := sx1272_reg_write h REG_FRFMID (u8 (Z.land (Z.shiftr freq 8) 0xFF)) in
  let h := sx1272_reg_write h REG_FRFLSB (u8 (Z.land freq 0xFF)) in
  (* Restore previous operating mode *)
  sx1272_reg_write h REG_OPMODE prev_mode.

(** [sx1272_is_channel_free]; [rssi_thresh] is an [int16_t].  The busy
    wait between the mode change and the sample has no effect here. *)
Definition sx1272_is_channel_free (dev : sx1272_t) (freq rssi_thresh : Z)
  (h : hw_t) : bool * sx1272_t * hw_t :=
  let h := sx1272_set_channel dev freq h in
  let h := sx1272_set_op_mode dev RF_OPMODE_RECEIVER h in
  let rssi := sx1272_read_rssi dev h in
  let '(dev, h) := sx1272_set_sleep dev h in
  if rssi >? rssi_thresh then (false, dev, h) else (true, dev, h).

End Channel.

(** Modelled from the spec: the chip side of the wideband RSSI register is
    not in the sources.  No read is cached and two reads of the register
    may differ: before each read the chip puts a fresh measurement in
    it. *)
Definition chip_sample (v : Z) (h : hw_t) : hw_t :=
  mk_hw (<[REG_LR_RSSIWIDEBAND := v]> (regs h)) (fifo h) (irq_enabled h)
    (gpio_level h) (bus_writes h) (events h).

(** The loop of [sx1272_random]: [n] iterations are left, [i] is the loop
    counter and [samples k] the measurement present at the read of
    iteration [k]. *)
Fixpoint random_loop (n i : nat) (samples : nat -> Z) (rnd : Z) (h : hw_t)
  : Z * hw_t :=
  match n with
  | O => (rnd, h)
  | S n =>
      let h := chip_sample (samples i) h in
      (* Non-filtered RSSI value reading. Only takes the LSB value *)
      let rnd :=
        u32 (Z.lor rnd
               (u32 (Z.shiftl
                       (Z.land (u32 (sx1272_reg_read h REG_LR_RSSIWIDEBAND)) 0x01)
                       (Z.of_nat i)))) in
      random_loop n (S i) samples rnd h
  end.

(** [sx1272_random].  As in the source, both configuration bytes go to
    [REG_LR_MODEMCONFIG1]. *)
Definition sx1272_random (dev : sx1272_t) (samples : nat -> Z) (h : hw_t)
  : Z * sx1272_t * hw_t :=
  let rnd := 0 in
  (* Set LoRa modem ON *)
  let '(dev, h) := sx1272_set_modem dev SX1272_MODEM_LORA h in
  (* Disable LoRa modem interrupts *)
  let h := sx1272_reg_write h REG_LR_IRQFLAGSMASK
    (Z.lor (Z.lor (Z.lor (Z.lor (Z.lor (Z.lor (Z.lor
       RFLR_IRQFLAGS_RXTIMEOUT
       RFLR_IRQFLAGS_RXDONE)
       RFLR_IRQFLAGS_PAYLOADCRCERROR)
       RFLR_IRQFLAGS_VALIDHEADER)
       RFLR_IRQFLAGS_TXDONE)
       RFLR_IRQFLAGS_CADDONE)
       RFLR_IRQFLAGS_FHSSCHANGEDCHANNEL)
       RFLR_IRQFLAGS_CADDETECTED) in
  let h := sx1272_set_op_mode dev RF_OPMODE_STANDBY h in
  let h := sx1272_reg_write h REG_LR_MODEMCONFIG1
             RXLORA_RXMODE_RSSI_REG_MODEM_CONFIG1 in
  let h := sx1272_reg_write h REG_LR_MODEMCONFIG1
             RXLORA_RXMODE_RSSI_REG_MODEM_CONFIG2 in
  (* Set radio in continuous reception *)
  let h := sx1272_set_op_mode dev RF_OPMODE_RECEIVER h in
  let '(rnd, h) := random_loop 32 0 samples rnd h in
  let '(dev, h) := sx1272_set_sleep dev h in
  (rnd, dev, h).

(** Modelled from the spec: the chip side of a FIFO burst write is not in
    the sources.  Every byte goes to the FIFO memory at the address
    pointer, which advances, as for a burst read. *)
Fixpoint fifo_write_burst (data : list Z) (ptr : Z) (mem : gmap Z Z)
  : gmap Z Z :=
  match data with
  | [] => mem
  | b :: data => fifo_write_burst data (u8 (ptr + 1)) (<[ptr := u8 b]> mem)
  end.

(** [sx1272_write_fifo]: [size] bytes of [buffer] in one burst to the FIFO
    address. *)
Definition sx1272_write_fifo (h : hw_t) (buffer : list Z) (size : Z) : hw_t :=
  let data := take (Z.to_nat size) buffer in
  let ptr := sx1272_reg_read h REG_LR_FIFOADDRPTR in
  mk_hw (<[REG_LR_FIFOADDRPTR := u8 (ptr + Z.of_nat (length data))]> (regs h))
    (fifo_write_burst data ptr (fifo h)) (irq_enabled h) (gpio_level h)
    (bus_writes h ++ map (fun b => (REG_FIFO, u8 b)) data) (events h).

(** The IQ setup shared by [sx1272_send] and [sx1272_set_rx]. *)
Definition write_invert_iq (h : hw_t) (rx tx iq2 : Z) : hw_t :=
  let h := sx1272_reg_write h REG_LR_INVERTIQ
             (Z.lor (Z.lor (Z.land (Z.land (sx1272_reg_read h REG_LR_INVERTIQ)
                                      RFLR_INVERTIQ_TX_MASK)
                              RFLR_INVERTIQ_RX_MASK) rx) tx) in
  sx1272_reg_write h REG_LR_INVERTIQ2 iq2.

(** [sx1272_send]; [size] is a [uint8_t]. *)
Definition sx1272_send (dev : sx1272_t) (buffer : list Z) (size : Z)
  (h : hw_t) : sx1272_t * hw_t :=
  let '(dev, h) :=
    match modem dev with
    | SX1272_MODEM_FSK =>
        let h := sx1272_write_fifo h [size] 1 in
        (dev, sx1272_write_fifo h buffer size)
    | SX1272_MODEM_LORA =>
        let h :=
          if iq_inverted (lora dev)
          then write_invert_iq h RFLR_INVERTIQ_RX_OFF RFLR_INVERTIQ_TX_ON
                 RFLR_INVERTIQ2_ON
          else write_invert_iq h RFLR_INVERTIQ_RX_OFF RFLR_INVERTIQ_TX_OFF
                 RFLR_INVERTIQ2_OFF in
        (* Initializes the payload size *)
        let h := sx1272_reg_write h REG_LR_PAYLOADLENGTH size in
        (* Full buffer used for Tx *)
        let h := sx1272_reg_write h REG_LR_FIFOTXBASEADDR 0x00 in
        let h := sx1272_reg_write h REG_LR_FIFOADDRPTR 0x00 in
        (* FIFO operations can not take place in Sleep mode
           So wake up the chip *)
        let '(dev, h) :=
          if Z.land (sx1272_reg_read h REG_OPMODE) (Z.lnot RF_OPMODE_MASK)
               =? RF_OPMODE_SLEEP
          then sx1272_set_standby dev h
          else (dev, h) in
        (* Write payload buffer *)
        (dev, sx1272_write_fifo h buffer size)
    end in
  (* Enable TXDONE interrupt *)
  let h := sx1272_reg_write h REG_LR_IRQFLAGSMASK
    (Z.lor (Z.lor (Z.lor (Z.lor (Z.lor (Z.lor
       RFLR_IRQFLAGS_RXTIMEOUT
       RFLR_IRQFLAGS_RXDONE)
       RFLR_IRQFLAGS_PAYLOADCRCERROR)
       RFLR_IRQFLAGS_VALIDHEADER)
       RFLR_IRQFLAGS_CADDONE)
       RFLR_IRQFLAGS_FHSSCHANGEDCHANNEL)
       RFLR_IRQFLAGS_CADDETECTED) in
  (* Set TXDONE interrupt to the DIO0 line *)
  let h := sx1272_reg_write h REG_DIOMAPPING1
             (Z.lor (Z.land (sx1272_reg_read h REG_DIOMAPPING1)
                       RFLR_DIOMAPPING1_DIO0_MASK)
                RFLR_DIOMAPPING1_DIO0_01) in
  (* Start TX timeout timer *)
  let dev := set_tx_timeout_timer (xtimer_set (tx_timeout (lora dev))) dev in
  (* Put chip into transfer mode *)
  let dev := set_state SX1272_RF_TX_RUNNING dev in
  let h := sx1272_set_op_mode dev RF_OPMODE_TRANSMITTER h in
  (dev, h).

(** [sx1272_set_rx]; [timeout] is a [uint32_t]. *)
Definition sx1272_set_rx (dev : sx1272_t) (timeout : Z) (h : hw_t)
  : sx1272_t * hw_t :=
  let '(rx_continuous, h) :=
    match modem dev with
    | SX1272_MODEM_FSK => (false, h)
    | SX1272_MODEM_LORA =>
        let h :=
          if iq_inverted (lora dev)
          then write_invert_iq h RFLR_INVERTIQ_RX_ON RFLR_INVERTIQ_TX_OFF
                 RFLR_INVERTIQ2_ON
          else write_invert_iq h RFLR_INVERTIQ_RX_OFF RFLR_INVERTIQ_TX_OFF
                 RFLR_INVERTIQ2_OFF in
        (* Setup interrupts *)
        let h :=
          if freq_hop_on (lora dev)
          then
            let h := sx1272_reg_write h REG_LR_IRQFLAGSMASK
              (Z.lor (Z.lor (Z.lor
                 RFLR_IRQFLAGS_VALIDHEADER
                 RFLR_IRQFLAGS_TXDONE)
                 RFLR_IRQFLAGS_CADDONE)
                 RFLR_IRQFLAGS_CADDETECTED) in
            (* DIO0=RxDone, DIO2=FhssChangeChannel *)
            sx1272_reg_write h REG_DIOMAPPING1
              (Z.lor (Z.lor
                 (Z.land (Z.land (sx1272_reg_read h REG_DIOMAPPING1)
                            RFLR_DIOMAPPING1_DIO0_MASK)
                    RFLR_DIOMAPPING1_DIO2_MASK)
                 RFLR_DIOMAPPING1_DIO0_00)
                 RFLR_DIOMAPPING1_DIO2_00)
          else
            let h := sx1272_reg_write h REG_LR_IRQFLAGSMASK
              (Z.lor (Z.lor (Z.lor (Z.lor
                 RFLR_IRQFLAGS_VALIDHEADER
                 RFLR_IRQFLAGS_TXDONE)
                 RFLR_IRQFLAGS_CADDONE)
                 RFLR_IRQFLAGS_FHSSCHANGEDCHANNEL)
                 RFLR_IRQFLAGS_CADDETECTED) in
            (* DIO0=RxDone *)
            sx1272_reg_write h REG_DIOMAPPING1
              (Z.lor (Z.land (sx1272_reg_read h REG_DIOMAPPING1)
                        RFLR_DIOMAPPING1_DIO0_MASK)
                 RFLR_DIOMAPPING1_DIO0_00) in
        let h := sx1272_reg_write h REG_LR_FIFORXBASEADDR 0 in
        let h := sx1272_reg_write h REG_LR_FIFOADDRPTR 0 in
        (rx_continuous (lora dev), h)
    end in
  let dev := set_state SX1272_RF_RX_RUNNING dev in
  if rx_continuous
  then (dev, sx1272_set_op_mode dev RFLR_OPMODE_RECEIVER h)
  else
    let dev :=
      if negb (timeout =? 0)
      then set_rx_timeout_timer (xtimer_set timeout) dev
      else dev in
    (dev, sx1272_set_op_mode dev RFLR_OPMODE_RECEIVER_SINGLE h).

(** [sx1272_start_cad].  The variable [cadmode] is declared outside this
    file; [cad_done] tells whether it equals [SX1272_MODE_CADDONE]. *)
Definition sx1272_start_cad (cad_done : bool) (dev : sx1272_t) (h : hw_t)
  : sx1272_t * hw_t :=
  match modem dev with
  | SX1272_MODEM_FSK => (dev, h)
  | SX1272_MODEM_LORA =>
      let reg :=
        Z.lor (Z.lor (Z.lor (Z.lor (Z.lor
          RFLR_IRQFLAGS_RXTIMEOUT
          RFLR_IRQFLAGS_RXDONE)
          RFLR_IRQFLAGS_PAYLOADCRCERROR)
          RFLR_IRQFLAGS_VALIDHEADER)
          RFLR_IRQFLAGS_TXDONE)
          RFLR_IRQFLAGS_FHSSCHANGEDCHANNEL in
      (* mask interrupt for CadDone or CadDetect *)
      let reg :=
        if cad_done
        then Z.lor reg RFLR_IRQFLAGS_CADDETECTED
        else Z.lor reg RFLR_IRQFLAGS_CADDONE in
      let h := sx1272_reg_write h REG_LR_IRQFLAGSMASK reg in
      (* DIO3 = CADDone, DIO4 = CADDetected *)
      let h :=
        if cad_done
        then sx1272_reg_write h REG_DIOMAPPING1
               (Z.lor (Z.land (sx1272_reg_read h REG_DIOMAPPING1)
                         RFLR_DIOMAPPING1_DIO3_MASK)
                  RFLR_DIOMAPPING1_DIO3_00)
        else sx1272_reg_write h REG_DIOMAPPING2
               (Z.lor (Z.land (sx1272_reg_read h REG_DIOMAPPING2)
                         RFLR_DIOMAPPING2_DIO4_MASK)
                  RFLR_DIOMAPPING2_DIO4_00) in
      let dev := set_state SX1272_RF_CAD dev in
      let h := sx1272_set_op_mode dev RFLR_OPMODE_CAD h in
      (dev, h)
  end.

(** [sx1272_on_dio2] *)
Definition sx1272_on_dio2 (dev : sx1272_t) (h : hw_t) : sx1272_t * hw_t :=
  let hop (dev : sx1272_t) (h : hw_t) :=
    if freq_hop_on (lora dev)
    then
      (* Clear IRQ *)
      let h := sx1272_reg_write h REG_LR_IRQFLAGS
                 RFLR_IRQFLAGS_FHSSCHANGEDCHANNEL in
      let dev :=
        set_last_channel
          (Z.land (sx1272_reg_read h REG_LR_HOPCHANNEL)
             RFLR_HOPCHANNEL_CHANNEL_MASK) dev in
      let h := send_event dev SX1272_FHSS_CHANGE_CHANNEL h in
      (dev, h)
    else (dev, h) in
  match state dev with
  | SX1272_RF_RX_RUNNING =>
      match modem dev with
      | SX1272_MODEM_LORA => hop dev h
      | SX1272_MODEM_FSK => (dev, h)
      end
  | SX1272_RF_TX_RUNNING =>
      match modem dev with
      | SX1272_MODEM_FSK => (dev, h)
      | SX1272_MODEM_LORA => hop dev h
      end
  | SX1272_RF_IDLE | SX1272_RF_CAD => (dev, h)
  end.

(** [sx1272_on_dio5] *)
Definition sx1272_on_dio5 (dev : sx1272_t) (h : hw_t) : sx1272_t * hw_t :=
  (dev, h).

(** One turn of the loop of [dio_polling_thread]: the handler of the line
    whose index the message carries. *)
Definition dio_dispatch (v : Z) (dev : sx1272_t) (h : hw_t)
  : sx1272_t * hw_t :=
  match v with
  | 0 => sx1272_on_dio0 dev h
  | 1 => sx1272_on_dio1 dev h
  | 2 => sx1272_on_dio2 dev h
  | 3 => sx1272_on_dio3 dev h
  | 4 => sx1272_on_dio4 dev h
  | 5 => sx1272_on_dio5 dev h
  | _ => (dev, h)
  end.

(** [dio_polling_thread] on the messages received so far, oldest first;
    the thread itself never returns. *)
Fixpoint dio_polling_thread (msgs : list Z) (dev : sx1272_t) (h : hw_t)
  : sx1272_t * hw_t :=
  match msgs with
  | [] => (dev, h)
  | v :: msgs =>
      let '(dev, h) := dio_dispatch v dev h in
      dio_polling_thread msgs dev h
  end.

(** ** Initialization *)








Section Init.

Variable SX1272_FREQ_STEP : float.


End Init.

(** ** Specification-side notions *)

(** The mode field of the operating-mode register: its low three bits. *)
Definition mode_field (r : Z) : Z := Z.land r 0x07.

(** The DIO lines whose callback [sx1272_set_op_mode] switches. *)
Definition switched_dio_pins (dev : sx1272_t) : list (option gpio_t) :=
  [dio0_pin dev; dio1_pin dev; dio2_pin dev; dio3_pin dev].


(** Level of the RF-switch line for a bias, by polarity. *)
Definition rfswitch_level (m : sx1272_rfswitch_mode_t) (enabled : bool) : bool :=
  match m with
  | SX1272_RFSWITCH_ACTIVE_LOW => negb enabled
  | SX1272_RFSWITCH_ACTIVE_HIGH => enabled
  end.

(** The power the PA policy stores for a channel and a requested power. *)
Definition applied_power (thresh channel p : Z) : Z :=
  if channel <? thresh
  then if p >? 17 then clamp_power 5 20 p else clamp_power 2 17 p
  else clamp_power (-1) 14 p.

(** The low-datarate-optimize rule: 125 kHz with SF11 or SF12, or
    250 kHz with SF12. *)
Definition low_datarate_rule (bw : sx1272_lora_bandwidth_t)
  (sf : sx1272_lora_spreading_factor_t) : Prop :=
  (bw = SX1272_BW_125_KHZ /\ (sf = SX1272_SF11 \/ sf = SX1272_SF12))
  \/ (bw = SX1272_BW_250_KHZ /\ sf = SX1272_SF12).

(** Two settings records agree on every field that is neither one of the
    three modulation parameters, nor the low-datarate-optimize flag, nor
    the power. *)
Definition same_frame (l0 l : sx1272_lora_settings_t) : Prop :=
  preamble_len l = preamble_len l0
  /\ implicit_header l = implicit_header l0
  /\ payload_len l = payload_len l0
  /\ crc_on l = crc_on l0
  /\ freq_hop_on l = freq_hop_on l0
  /\ hop_period l = hop_period l0
  /\ iq_inverted l = iq_inverted l0
  /\ rx_continuous l = rx_continuous l0
  /\ tx_timeout l = tx_timeout l0
  /\ rx_timeout l = rx_timeout l0.

(** ** Sample devices *)

Definition sample_lora : sx1272_lora_settings_t :=
  mk_lora_settings SX1272_BW_125_KHZ SX1272_SF12 SX1272_CR_4_5 true 8 false 0
    true false 0 false false 3000000 0 14.

(** A board with DIO0 to DIO4 and the RF switch wired, in LoRa mode, its
    deadline timers set up and its worker task created. *)
Definition sample_dev : sx1272_t :=
  mk_sx1272 (Some 10) (Some 11) (Some 12) (Some 13) (Some 14) None
    (Some 20) SX1272_RFSWITCH_ACTIVE_LOW true 868000000 SX1272_RF_IDLE
    SX1272_MODEM_LORA sample_lora (mk_rx_packet 0 0 0 []) 0 false None None
    (Some CB_ON_TX_TIMEOUT) true (Some CB_ON_RX_TIMEOUT) true 1.

(** The chip asleep in LoRa mode (operating-mode register 0x80), the
    interrupt lines as [_init_isrs] leaves them. *)
Definition sample_hw : hw_t :=
  _init_isrs sample_dev (mk_hw {[ REG_OPMODE := 0x80 ]} ∅ ∅ ∅ [] []).

(** The chip after a completed channel-activity detection that found the
    channel busy: CadDone and CadDetected are both raised. *)
Definition cad_busy_hw : hw_t :=
  mk_hw {[ REG_OPMODE := 0x81; REG_LR_IRQFLAGS := 0x05 ]} ∅
    (irq_enabled sample_hw) ∅ [] [].

(** A transmission in progress with its deadline timer armed. *)
Definition sending_dev : sx1272_t :=
  set_tx_timeout_timer (xtimer_set 3000000)
    (set_state SX1272_RF_TX_RUNNING sample_dev).

(** A single reception in progress with its deadline timer armed, and the
    chip reporting a received frame with a payload CRC error. *)
Definition receiving_dev : sx1272_t :=
  set_rx_timeout_timer (xtimer_set 1000000)
    (set_state SX1272_RF_RX_RUNNING sample_dev).

Definition crc_error_hw : hw_t :=
  mk_hw {[ REG_OPMODE := 0x86; REG_LR_IRQFLAGS := 0x60 ]} ∅
    (irq_enabled sample_hw) ∅ [] [].

(** The chip after a reception: RxDone and ValidHeader raised, no CRC
    error, a raw SNR of -4 (-1 dB), a raw RSSI of 100, and three payload
    bytes at FIFO address 0x10. *)
Definition rx_done_hw : hw_t :=
  mk_hw {[ REG_OPMODE := 0x86; REG_LR_IRQFLAGS := 0x50;
           REG_LR_PKTSNRVALUE := 0xFC; REG_LR_PKTRSSIVALUE := 100;
           REG_LR_RXNBBYTES := 3; REG_LR_FIFORXCURRENTADDR := 0x10 ]}
    {[ 0x10 := 0x48; 0x11 := 0x69; 0x12 := 0x21 ]}
    (irq_enabled sample_hw) ∅ [] [].

(** ** Properties *)

(** *** Bytes *)

Lemma forall_bytes (P : Z -> bool) :
  forallb P bytes = true -> forall b, 0 <= b < 256 -> P b = true.
Proof.
  intros H b Hb. rewrite forallb_forall in H. apply H.
  unfold bytes. apply in_map_iff. exists (Z.to_nat b).
  split; [lia | apply in_seq; lia].
Qed.

Lemma u8_range z : 0 <= u8 z < 256.
Proof.
  unfold u8. change 0xFF with (Z.ones 8). rewrite Z.land_ones by lia.
  apply Z.mod_pos_bound. lia.
Qed.

Lemma u8_small z : 0 <= z < 256 -> u8 z = z.
Proof.
  intros Hz. unfold u8. change 0xFF with (Z.ones 8).
  rewrite Z.land_ones by lia. apply Z.mod_small. exact Hz.
Qed.

Lemma u8_idem z : u8 (u8 z) = u8 z.
Proof. apply u8_small, u8_range. Qed.

Lemma reg_read_range h a : 0 <= sx1272_reg_read h a < 256.
Proof. apply u8_range. Qed.

(** Proves a closed equation or boolean test about one byte by running
    through all 256 values. *)
Ltac by_bytes b Hb :=
  revert b Hb;
  match goal with
  | |- forall b, 0 <= b < 256 -> ?l = ?r =>
      intros b Hb; apply Z.eqb_eq; revert b Hb;
      match goal with
      | |- forall b, _ -> @?P b = true => apply (forall_bytes P)
      end; vm_compute; reflexivity
  end.

Lemma op_mode_prev_mode_field r :
  0 <= r < 256 -> u8 (Z.land r (Z.lnot RF_OPMODE_MASK)) = mode_field r.
Proof. intros Hr. by_bytes r Hr. Qed.

Lemma mode_field_masked r :
  0 <= r < 256 -> Z.land (mode_field r) RF_OPMODE_MASK = 0.
Proof. intros Hr. by_bytes r Hr. Qed.

(** *** Operating mode *)

(** Solves a goal about [sx1272_set_op_mode] that does not depend on
    which lines are wired. *)
Ltac by_wiring dev :=
  destruct (dio0_pin dev), (dio1_pin dev), (dio2_pin dev), (dio3_pin dev),
    (rfswitch_pin dev), (rfswitch_mode dev); reflexivity.

(** What [sx1272_set_op_mode] leaves on the bus and in the register
    file: one write of the requested mode when it differs from the mode
    field, nothing otherwise. *)
Lemma set_op_mode_bus dev op_mode h :
  let h' := sx1272_set_op_mode dev op_mode h in
  let changed := negb (op_mode =? mode_field (sx1272_reg_read h REG_OPMODE)) in
  bus_writes h' =
    (if changed then bus_writes h ++ [(REG_OPMODE, u8 op_mode)]
     else bus_writes h)
  /\ regs h' =
    (if changed then <[REG_OPMODE := u8 op_mode]> (regs h) else regs h).
Proof.
  cbv zeta. unfold sx1272_set_op_mode.
  rewrite (op_mode_prev_mode_field _ (reg_read_range h REG_OPMODE)).
  rewrite (mode_field_masked _ (reg_read_range h REG_OPMODE)).
  rewrite Z.lor_0_l.
  destruct (negb (op_mode =? mode_field (sx1272_reg_read h REG_OPMODE)));
    destruct (op_mode =? RF_OPMODE_SLEEP); split; by_wiring dev.
Qed.

Lemma elem_irq_disable p pin h :
  p ∈ irq_enabled (if_defined pin gpio_irq_disable h)
  <-> p ∈ irq_enabled h /\ pin <> Some p.
Proof.
  destruct pin as [q|]; simpl.
  - rewrite elem_of_difference, elem_of_singleton. split.
    + intros [Hin Hne]. split; [exact Hin | congruence].
    + intros [Hin Hne]. split; [exact Hin | congruence].
  - split; [intros Hin; split; [exact Hin | discriminate] | tauto].
Qed.

Lemma elem_irq_enable p pin h :
  p ∈ irq_enabled (if_defined pin gpio_irq_enable h)
  <-> pin = Some p \/ p ∈ irq_enabled h.
Proof.
  destruct pin as [q|]; simpl.
  - rewrite elem_of_union, elem_of_singleton. split.
    + intros [->|Hin]; [left; reflexivity | right; exact Hin].
    + intros [Heq|Hin]; [left; congruence | right; exact Hin].
  - split; [tauto | intros [Heq|Hin]; [discriminate | exact Hin]].
Qed.

Lemma elem_switched_dio_pins p dev :
  Some p ∈ switched_dio_pins dev
  <-> dio0_pin dev = Some p \/ dio1_pin dev = Some p
      \/ dio2_pin dev = Some p \/ dio3_pin dev = Some p.
Proof.
  unfold switched_dio_pins. rewrite !elem_of_cons, elem_of_nil.
  intuition congruence.
Qed.

(** The interrupt lines after [sx1272_set_op_mode]: DIO0 to DIO3 follow the
    requested mode, every other line keeps its setting. *)
Lemma set_op_mode_irq dev op_mode h p :
  p ∈ irq_enabled (sx1272_set_op_mode dev op_mode h)
  <-> if op_mode =? RF_OPMODE_SLEEP
      then p ∈ irq_enabled h /\ Some p ∉ switched_dio_pins dev
      else Some p ∈ switched_dio_pins dev \/ p ∈ irq_enabled h.
Proof.
  unfold sx1272_set_op_mode.
  set (h1 := if negb _ then _ else h).
  assert (Hh1 : irq_enabled h1 = irq_enabled h)
    by (subst h1; destruct (negb _); reflexivity).
  destruct (op_mode =? RF_OPMODE_SLEEP).
  - match goal with
    | |- p ∈ irq_enabled (if_defined _ _ ?x) <-> _ =>
        assert (Hsw : irq_enabled (if_defined (rfswitch_pin dev)
                        (match rfswitch_mode dev with
                         | SX1272_RFSWITCH_ACTIVE_LOW => gpio_set
                         | SX1272_RFSWITCH_ACTIVE_HIGH => gpio_clear
                         end) x) = irq_enabled x)
          by (destruct (rfswitch_pin dev), (rfswitch_mode dev); reflexivity)
    end.
    rewrite Hsw, !elem_irq_disable, Hh1.
    unfold not. rewrite elem_switched_dio_pins. tauto.
  - match goal with
    | |- p ∈ irq_enabled (if_defined _ _ ?x) <-> _ =>
        assert (Hsw : irq_enabled (if_defined (rfswitch_pin dev)
                        (match rfswitch_mode dev with
                         | SX1272_RFSWITCH_ACTIVE_LOW => gpio_clear
                         | SX1272_RFSWITCH_ACTIVE_HIGH => gpio_set
                         end) x) = irq_enabled x)
          by (destruct (rfswitch_pin dev), (rfswitch_mode dev); reflexivity)
    end.
    rewrite Hsw, !elem_irq_enable, Hh1, elem_switched_dio_pins. tauto.
Qed.

(** The RF-switch line after [sx1272_set_op_mode]. *)
Lemma set_op_mode_level dev op_mode h :
  gpio_level (sx1272_set_op_mode dev op_mode h) =
  match rfswitch_pin dev with
  | Some p =>
      <[p := rfswitch_level (rfswitch_mode dev)
               (negb (op_mode =? RF_OPMODE_SLEEP))]> (gpio_level h)
  | None => gpio_level h
  end.
Proof.
  unfold sx1272_set_op_mode.
  destruct (negb (op_mode =? _)); destruct (op_mode =? RF_OPMODE_SLEEP);
    by_wiring dev.
Qed.

Lemma set_op_mode_events dev op_mode h :
  events (sx1272_set_op_mode dev op_mode h) = events h
  /\ fifo (sx1272_set_op_mode dev op_mode h) = fifo h.
Proof.
  unfold sx1272_set_op_mode.
  destruct (negb (op_mode =? _)); destruct (op_mode =? RF_OPMODE_SLEEP);
    split; by_wiring dev.
Qed.

(** C1 (fails on the code): on a mode change the byte written to the
    operating-mode register should keep the bits outside the mode field.
    With the chip asleep in LoRa mode (register 0x80, long-range-mode bit
    set), requesting Standby differs from the current mode, and the one
    byte [sx1272_set_op_mode] writes is 0x01: the long-range-mode bit
    read before is not carried over, where preservation asks for 0x81. *)
Theorem set_op_mode_write_drops_long_range_bit :
  let h := sample_hw in
  let h' := sx1272_set_op_mode sample_dev RF_OPMODE_STANDBY h in
  sx1272_reg_read h REG_OPMODE = 0x80
  /\ RF_OPMODE_STANDBY <> mode_field (sx1272_reg_read h REG_OPMODE)
  /\ bus_writes h' = bus_writes h ++ [(REG_OPMODE, 0x01)]
  /\ Z.land (sx1272_reg_read h REG_OPMODE) RFLR_OPMODE_LONGRANGEMODE_ON
     = RFLR_OPMODE_LONGRANGEMODE_ON
  /\ Z.land 0x01 RFLR_OPMODE_LONGRANGEMODE_ON = 0.
Proof.
  cbv zeta. repeat split; try (vm_compute; reflexivity).
  vm_compute. discriminate.
Qed.

(** C3 (fails on the code): entering Sleep should disable the interrupt
    callback of every wired DIO line.  On a board with DIO0 to DIO4 wired,
    all enabled by [_init_isrs], a transition into Sleep disables DIO0 to
    DIO3 and drives the RF switch, but the callback of DIO4 stays
    enabled. *)
Theorem set_op_mode_sleep_leaves_dio4_enabled :
  let h' := sx1272_set_op_mode sample_dev RF_OPMODE_SLEEP sample_hw in
  dio4_pin sample_dev = Some 14
  /\ 14 ∈ irq_enabled sample_hw
  /\ 14 ∈ irq_enabled h'
  /\ (forall p, Some p ∈ switched_dio_pins sample_dev -> p ∉ irq_enabled h')
  /\ gpio_level h' !! 20 = Some true.
Proof.
  cbv zeta. split; [reflexivity |].
  split; [vm_compute; reflexivity |].
  split; [vm_compute; reflexivity |].
  split; [| vm_compute; reflexivity].
  intros p Hp Hin. apply set_op_mode_irq in Hin. simpl in Hin. tauto.
Qed.



(** *** PA policy *)

Lemma pa_select_boost x :
  0 <= x < 256 ->
  Z.land (u8 (Z.lor (Z.land x RF_PACONFIG_PASELECT_MASK)
                RF_PACONFIG_PASELECT_PABOOST)) RF_PACONFIG_PASELECT_PABOOST
  = RF_PACONFIG_PASELECT_PABOOST.
Proof. intros Hx. by_bytes x Hx. Qed.

Lemma pa_select_rfo x :
  0 <= x < 256 ->
  Z.land (u8 (Z.lor (Z.land x RF_PACONFIG_PASELECT_MASK)
                RF_PACONFIG_PASELECT_RFO)) RF_PACONFIG_PASELECT_PABOOST
  = 0.
Proof. intros Hx. by_bytes x Hx. Qed.

Lemma pa_dac_on x :
  0 <= x < 256 ->
  Z.land (u8 (Z.lor (Z.land x RF_PADAC_20DBM_MASK) RFLR_PADAC_20DBM_ON))
    RFLR_PADAC_20DBM_ON = RFLR_PADAC_20DBM_ON.
Proof. intros Hx. by_bytes x Hx. Qed.

Lemma pa_dac_off x :
  0 <= x < 256 ->
  Z.land (u8 (Z.lor (Z.land x RF_PADAC_20DBM_MASK) RFLR_PADAC_20DBM_OFF))
    RFLR_PADAC_20DBM_ON = RFLR_PADAC_20DBM_OFF.
Proof. intros Hx. by_bytes x Hx. Qed.

Section PowerAmplifier.

Variable thresh : Z.

(** The three branches of [setup_power_amplifier], each with the bytes it
    puts in the two PA registers. *)
Lemma setup_power_amplifier_boost_20dbm dev h :
  (channel dev <? thresh) = true ->
  (power (lora dev) >? 17) = true ->
  let p := clamp_power 5 20 (power (lora dev)) in
  let pa_config :=
    u8 (Z.lor (Z.land (sx1272_reg_read h REG_PACONFIG)
                 RF_PACONFIG_PASELECT_MASK) RF_PACONFIG_PASELECT_PABOOST) in
  let pa_dac :=
    u8 (Z.lor (Z.land (sx1272_reg_read h REG_PADAC) RF_PADAC_20DBM_MASK)
          RFLR_PADAC_20DBM_ON) in
  setup_power_amplifier thresh dev h =
  (set_lora (set_power p (lora dev)) dev,
   sx1272_reg_write
     (sx1272_reg_write h REG_PACONFIG
        (u8 (Z.lor (Z.land pa_config RFLR_PACONFIG_OUTPUTPOWER_MASK)
               (u8 (Z.land (u16 (p - 5)) 0x0F)))))
     REG_PADAC pa_dac).
Proof.
  intros Hch Hp. cbv zeta.
  unfold setup_power_amplifier, sx1272_get_pa_select. rewrite Hch.
  rewrite (pa_select_boost _ (reg_read_range h REG_PACONFIG)).
  rewrite Z.eqb_refl, Hp.
  rewrite (pa_dac_on _ (reg_read_range h REG_PADAC)).
  rewrite Z.eqb_refl. reflexivity.
Qed.

Lemma setup_power_amplifier_boost_17dbm dev h :
  (channel dev <? thresh) = true ->
  (power (lora dev) >? 17) = false ->
  let p := clamp_power 2 17 (power (lora dev)) in
  let pa_config :=
    u8 (Z.lor (Z.land (sx1272_reg_read h REG_PACONFIG)
                 RF_PACONFIG_PASELECT_MASK) RF_PACONFIG_PASELECT_PABOOST) in
  let pa_dac :=
    u8 (Z.lor (Z.land (sx1272_reg_read h REG_PADAC) RF_PADAC_20DBM_MASK)
          RFLR_PADAC_20DBM_OFF) in
  setup_power_amplifier thresh dev h =
  (set_lora (set_power p (lora dev)) dev,
   sx1272_reg_write
     (sx1272_reg_write h REG_PACONFIG
        (u8 (Z.lor (Z.land pa_config RFLR_PACONFIG_OUTPUTPOWER_MASK)
               (u8 (Z.land (u16 (p - 2)) 0x0F)))))
     REG_PADAC pa_dac).
Proof.
  intros Hch Hp. cbv zeta.
  unfold setup_power_amplifier, sx1272_get_pa_select. rewrite Hch.
  rewrite (pa_select_boost _ (reg_read_range h REG_PACONFIG)).
  rewrite Z.eqb_refl, Hp.
  rewrite (pa_dac_off _ (reg_read_range h REG_PADAC)).
  reflexivity.
Qed.

Lemma setup_power_amplifier_rfo dev h :
  (channel dev <? thresh) = false ->
  let p := clamp_power (-1) 14 (power (lora dev)) in
  let pa_config :=
    u8 (Z.lor (Z.land (sx1272_reg_read h REG_PACONFIG)
                 RF_PACONFIG_PASELECT_MASK) RF_PACONFIG_PASELECT_RFO) in
  setup_power_amplifier thresh dev h =
  (set_lora (set_power p (lora dev)) dev,
   sx1272_reg_write
     (sx1272_reg_write h REG_PACONFIG
        (u8 (Z.lor (Z.land pa_config RFLR_PACONFIG_OUTPUTPOWER_MASK)
               (u8 (Z.land (u16 (p + 1)) 0x0F)))))
     REG_PADAC (sx1272_reg_read h REG_PADAC)).
Proof.
  intros Hch. cbv zeta.
  unfold setup_power_amplifier, sx1272_get_pa_select. rewrite Hch.
  rewrite (pa_select_rfo _ (reg_read_range h REG_PACONFIG)).
  reflexivity.
Qed.

(** The device structure after the PA policy: only the stored power
    changes. *)
Lemma setup_power_amplifier_dev dev h :
  fst (setup_power_amplifier thresh dev h) =
  set_lora (set_power (applied_power thresh (channel dev) (power (lora dev)))
              (lora dev)) dev.
Proof.
  unfold applied_power.
  destruct (channel dev <? thresh) eqn:Hch.
  - destruct (power (lora dev) >? 17) eqn:Hp.
    + rewrite setup_power_amplifier_boost_20dbm by assumption. reflexivity.
    + rewrite setup_power_amplifier_boost_17dbm by assumption. reflexivity.
  - rewrite setup_power_amplifier_rfo by assumption. reflexivity.
Qed.

End PowerAmplifier.

(** *** Register file *)

Lemma reg_read_write_same h a v :
  a <> REG_LR_IRQFLAGS ->
  sx1272_reg_read (sx1272_reg_write h a v) a = u8 v.
Proof.
  intros Ha. unfold sx1272_reg_read, sx1272_reg_write, chip_write. simpl.
  apply Z.eqb_neq in Ha. rewrite Ha, lookup_insert_eq. simpl. apply u8_idem.
Qed.

Lemma reg_read_write_other h a b v :
  a <> b -> sx1272_reg_read (sx1272_reg_write h a v) b = sx1272_reg_read h b.
Proof.
  intros Hab. unfold sx1272_reg_read, sx1272_reg_write, chip_write. simpl.
  destruct (a =? REG_LR_IRQFLAGS); rewrite lookup_insert_ne by exact Hab;
    reflexivity.
Qed.

(** Writing a flag byte to the IRQ-flags register leaves raised exactly
    the flags that were raised and not written. *)
Lemma reg_read_irqflags_cleared h v :
  sx1272_reg_read (sx1272_reg_write h REG_LR_IRQFLAGS v) REG_LR_IRQFLAGS
  = Z.land (sx1272_reg_read h REG_LR_IRQFLAGS) (Z.lnot (u8 v)).
Proof.
  unfold sx1272_reg_read, sx1272_reg_write, chip_write. simpl.
  rewrite lookup_insert_eq. simpl.
  unfold u8 at 1. rewrite <- Z.land_assoc, (Z.land_comm (Z.lnot _)).
  rewrite Z.land_assoc. fold (u8 (u8 (default 0 (regs h !! REG_LR_IRQFLAGS)))).
  rewrite u8_idem. reflexivity.
Qed.

Lemma forall_bytes2 (P : Z -> Z -> bool) :
  forallb (fun a => forallb (P a) bytes) bytes = true ->
  forall a b, 0 <= a < 256 -> 0 <= b < 256 -> P a b = true.
Proof.
  intros H a b Ha Hb.
  apply (forall_bytes (P a)); [| exact Hb].
  apply (forall_bytes (fun a => forallb (P a) bytes) H a Ha).
Qed.

Lemma nibble_encode e : 0 <= e < 16 -> u8 (Z.land (u16 e) 0x0F) = e.
Proof.
  intros He. unfold u8, u16.
  change 0xFF with (Z.ones 8). change 0xFFFF with (Z.ones 16).
  change 0x0F with (Z.ones 4).
  rewrite !Z.land_ones by lia.
  rewrite (Z.mod_small e (2 ^ 16)) by lia.
  rewrite (Z.mod_small e (2 ^ 4)) by lia.
  apply Z.mod_small. lia.
Qed.

(** The output-power update of the PA configuration byte: the low four
    bits take the encoded power, the amplifier selection bit stays. *)
Lemma output_power_field c e :
  0 <= c < 256 -> 0 <= e < 16 ->
  let c' := u8 (Z.lor (Z.land c RFLR_PACONFIG_OUTPUTPOWER_MASK) e) in
  Z.land c' 0x0F = e
  /\ Z.land c' RF_PACONFIG_PASELECT_PABOOST
     = Z.land c RF_PACONFIG_PASELECT_PABOOST.
Proof.
  intros Hc He. cbv zeta.
  pose proof (forall_bytes2
    (fun c e =>
       (16 <=? e)
       || ((Z.land (u8 (Z.lor (Z.land c RFLR_PACONFIG_OUTPUTPOWER_MASK) e)) 0x0F
            =? e)
           && (Z.land (u8 (Z.lor (Z.land c RFLR_PACONFIG_OUTPUTPOWER_MASK) e))
                 RF_PACONFIG_PASELECT_PABOOST
               =? Z.land c RF_PACONFIG_PASELECT_PABOOST)))
    ltac:(vm_compute; reflexivity) c e Hc ltac:(lia)) as H.
  apply orb_true_iff in H. destruct H as [H|H].
  - apply Z.leb_le in H. lia.
  - apply andb_true_iff in H. destruct H as [H1 H2].
    apply Z.eqb_eq in H1, H2. split; assumption.
Qed.

Lemma clamp_power_spec lo hi p :
  lo <= hi -> clamp_power lo hi p = Z.max lo (Z.min hi p).
Proof.
  intros Hle. unfold clamp_power.
  destruct (p <? lo) eqn:H1; [apply Z.ltb_lt in H1 | apply Z.ltb_ge in H1].
  - destruct (lo >? hi) eqn:H2; [apply Z.gtb_lt in H2; lia | lia].
  - destruct (p >? hi) eqn:H2.
    + apply Z.gtb_lt in H2. lia.
    + rewrite Z.gtb_ltb in H2. apply Z.ltb_ge in H2. lia.
Qed.

(** C6: the PA policy.  The boosted path is selected exactly when the
    channel is below the mid-band threshold.  On it the +20 dBm stage is
    switched on exactly when the requested power exceeds 17 dBm, the
    stored power becomes the request clamped to [5,20] and is encoded as
    power - 5 with the stage on, clamped to [2,17] and encoded as
    power - 2 with it off.  On the RF-output path the power is clamped to
    [-1,14] and encoded as power + 1.  The code sits in the low four bits
    of the PA configuration register, and the clamped power replaces the
    power of the settings record, whose other fields stay. *)
Theorem setup_power_amplifier_policy thresh dev h :
  let p := power (lora dev) in
  let dev' := fst (setup_power_amplifier thresh dev h) in
  let h' := snd (setup_power_amplifier thresh dev h) in
  let p' := power (lora dev') in
  let pa_config := sx1272_reg_read h' REG_PACONFIG in
  let pa_dac := sx1272_reg_read h' REG_PADAC in
  dev' = set_lora (set_power p' (lora dev)) dev
  /\ 0 <= Z.land pa_config 0x0F < 16
  /\ if channel dev <? thresh
     then Z.land pa_config RF_PACONFIG_PASELECT_PABOOST
          = RF_PACONFIG_PASELECT_PABOOST
          /\ if p >? 17
             then Z.land pa_dac RFLR_PADAC_20DBM_ON = RFLR_PADAC_20DBM_ON
                  /\ p' = Z.max 5 (Z.min 20 p)
                  /\ Z.land pa_config 0x0F = p' - 5
             else Z.land pa_dac RFLR_PADAC_20DBM_ON = RFLR_PADAC_20DBM_OFF
                  /\ p' = Z.max 2 (Z.min 17 p)
                  /\ Z.land pa_config 0x0F = p' - 2
     else Z.land pa_config RF_PACONFIG_PASELECT_PABOOST
          = RF_PACONFIG_PASELECT_RFO
          /\ p' = Z.max (-1) (Z.min 14 p)
          /\ Z.land pa_config 0x0F = p' + 1.
Proof.
  cbv zeta.
  assert (Hrd : forall h0 c d,
    sx1272_reg_read (sx1272_reg_write (sx1272_reg_write h0 REG_PACONFIG c)
                       REG_PADAC d) REG_PACONFIG = u8 c
    /\ sx1272_reg_read (sx1272_reg_write (sx1272_reg_write h0 REG_PACONFIG c)
                          REG_PADAC d) REG_PADAC = u8 d).
  { intros h0 c d. split.
    - rewrite reg_read_write_other by discriminate.
      apply reg_read_write_same. discriminate.
    - apply reg_read_write_same. discriminate. }
  destruct (channel dev <? thresh) eqn:Hch;
    [destruct (power (lora dev) >? 17) eqn:Hp |].
  - rewrite (setup_power_amplifier_boost_20dbm thresh dev h Hch Hp).
    cbn [fst snd]. destruct (Hrd h
      (u8 (Z.lor (Z.land (u8 (Z.lor (Z.land (sx1272_reg_read h REG_PACONFIG)
                                       RF_PACONFIG_PASELECT_MASK)
                                RF_PACONFIG_PASELECT_PABOOST))
                    RFLR_PACONFIG_OUTPUTPOWER_MASK)
             (u8 (Z.land (u16 (clamp_power 5 20 (power (lora dev)) - 5)) 0x0F))))
      (u8 (Z.lor (Z.land (sx1272_reg_read h REG_PADAC) RF_PADAC_20DBM_MASK)
             RFLR_PADAC_20DBM_ON))) as [-> ->].
    rewrite !u8_idem. cbn [lora power set_lora set_power].
    rewrite clamp_power_spec by lia. apply Z.gtb_lt in Hp.
    set (q := Z.max 5 (Z.min 20 (power (lora dev)))).
    assert (Hq : 0 <= q - 5 < 16) by lia.
    rewrite (nibble_encode _ Hq).
    destruct (output_power_field _ _ (u8_range (Z.lor (Z.land
      (sx1272_reg_read h REG_PACONFIG) RF_PACONFIG_PASELECT_MASK)
      RF_PACONFIG_PASELECT_PABOOST)) Hq) as [Hlow Hsel].
    rewrite Hlow, Hsel.
    rewrite (pa_select_boost _ (reg_read_range h REG_PACONFIG)).
    rewrite (pa_dac_on _ (reg_read_range h REG_PADAC)).
    repeat split; lia.
  - rewrite (setup_power_amplifier_boost_17dbm thresh dev h Hch Hp).
    cbn [fst snd]. destruct (Hrd h
      (u8 (Z.lor (Z.land (u8 (Z.lor (Z.land (sx1272_reg_read h REG_PACONFIG)
                                       RF_PACONFIG_PASELECT_MASK)
                                RF_PACONFIG_PASELECT_PABOOST))
                    RFLR_PACONFIG_OUTPUTPOWER_MASK)
             (u8 (Z.land (u16 (clamp_power 2 17 (power (lora dev)) - 2)) 0x0F))))
      (u8 (Z.lor (Z.land (sx1272_reg_read h REG_PADAC) RF_PADAC_20DBM_MASK)
             RFLR_PADAC_20DBM_OFF))) as [-> ->].
    rewrite !u8_idem. cbn [lora power set_lora set_power].
    rewrite clamp_power_spec by lia.
    rewrite Z.gtb_ltb in Hp. apply Z.ltb_ge in Hp.
    set (q := Z.max 2 (Z.min 17 (power (lora dev)))).
    assert (Hq : 0 <= q - 2 < 16) by lia.
    rewrite (nibble_encode _ Hq).
    destruct (output_power_field _ _ (u8_range (Z.lor (Z.land
      (sx1272_reg_read h REG_PACONFIG) RF_PACONFIG_PASELECT_MASK)
      RF_PACONFIG_PASELECT_PABOOST)) Hq) as [Hlow Hsel].
    rewrite Hlow, Hsel.
    rewrite (pa_select_boost _ (reg_read_range h REG_PACONFIG)).
    rewrite (pa_dac_off _ (reg_read_range h REG_PADAC)).
    repeat split; lia.
  - rewrite (setup_power_amplifier_rfo thresh dev h Hch).
    cbn [fst snd]. destruct (Hrd h
      (u8 (Z.lor (Z.land (u8 (Z.lor (Z.land (sx1272_reg_read h REG_PACONFIG)
                                       RF_PACONFIG_PASELECT_MASK)
                                RF_PACONFIG_PASELECT_RFO))
                    RFLR_PACONFIG_OUTPUTPOWER_MASK)
             (u8 (Z.land (u16 (clamp_power (-1) 14 (power (lora dev)) + 1)) 0x0F))))
      (sx1272_reg_read h REG_PADAC)) as [-> _].
    rewrite !u8_idem. cbn [lora power set_lora set_power].
    rewrite clamp_power_spec by lia.
    set (q := Z.max (-1) (Z.min 14 (power (lora dev)))).
    assert (Hq : 0 <= q + 1 < 16) by lia.
    rewrite (nibble_encode _ Hq).
    destruct (output_power_field _ _ (u8_range (Z.lor (Z.land
      (sx1272_reg_read h REG_PACONFIG) RF_PACONFIG_PASELECT_MASK)
      RF_PACONFIG_PASELECT_RFO)) Hq) as [Hlow Hsel].
    rewrite Hlow, Hsel.
    rewrite (pa_select_rfo _ (reg_read_range h REG_PACONFIG)).
    repeat split; lia.
Qed.

Lemma pa_config_rewrite_boost x e :
  0 <= x < 256 -> 0 <= e < 256 ->
  let c := u8 (Z.lor (Z.land (u8 (Z.lor (Z.land x RF_PACONFIG_PASELECT_MASK)
                                    RF_PACONFIG_PASELECT_PABOOST))
                        RFLR_PACONFIG_OUTPUTPOWER_MASK) e) in
  u8 (Z.lor (Z.land (u8 (Z.lor (Z.land c RF_PACONFIG_PASELECT_MASK)
                           RF_PACONFIG_PASELECT_PABOOST))
               RFLR_PACONFIG_OUTPUTPOWER_MASK) e) = c.
Proof.
  intros Hx He. cbv zeta. apply Z.eqb_eq.
  apply (forall_bytes2
    (fun x e =>
       u8 (Z.lor (Z.land (u8 (Z.lor (Z.land
             (u8 (Z.lor (Z.land (u8 (Z.lor (Z.land x RF_PACONFIG_PASELECT_MASK)
                                       RF_PACONFIG_PASELECT_PABOOST))
                           RFLR_PACONFIG_OUTPUTPOWER_MASK) e))
             RF_PACONFIG_PASELECT_MASK) RF_PACONFIG_PASELECT_PABOOST))
          RFLR_PACONFIG_OUTPUTPOWER_MASK) e)
       =? u8 (Z.lor (Z.land (u8 (Z.lor (Z.land x RF_PACONFIG_PASELECT_MASK)
                                   RF_PACONFIG_PASELECT_PABOOST))
                       RFLR_PACONFIG_OUTPUTPOWER_MASK) e))
    ltac:(vm_compute; reflexivity) x e Hx He).
Qed.

Lemma pa_config_rewrite_rfo x e :
  0 <= x < 256 -> 0 <= e < 256 ->
  let c := u8 (Z.lor (Z.land (u8 (Z.lor (Z.land x RF_PACONFIG_PASELECT_MASK)
                                    RF_PACONFIG_PASELECT_RFO))
                        RFLR_PACONFIG_OUTPUTPOWER_MASK) e) in
  u8 (Z.lor (Z.land (u8 (Z.lor (Z.land c RF_PACONFIG_PASELECT_MASK)
                           RF_PACONFIG_PASELECT_RFO))
               RFLR_PACONFIG_OUTPUTPOWER_MASK) e) = c.
Proof.
  intros Hx He. cbv zeta. apply Z.eqb_eq.
  apply (forall_bytes2
    (fun x e =>
       u8 (Z.lor (Z.land (u8 (Z.lor (Z.land
             (u8 (Z.lor (Z.land (u8 (Z.lor (Z.land x RF_PACONFIG_PASELECT_MASK)
                                       RF_PACONFIG_PASELECT_RFO))
                           RFLR_PACONFIG_OUTPUTPOWER_MASK) e))
             RF_PACONFIG_PASELECT_MASK) RF_PACONFIG_PASELECT_RFO))
          RFLR_PACONFIG_OUTPUTPOWER_MASK) e)
       =? u8 (Z.lor (Z.land (u8 (Z.lor (Z.land x RF_PACONFIG_PASELECT_MASK)
                                   RF_PACONFIG_PASELECT_RFO))
                       RFLR_PACONFIG_OUTPUTPOWER_MASK) e))
    ltac:(vm_compute; reflexivity) x e Hx He).
Qed.

Lemma pa_dac_rewrite_on d :
  0 <= d < 256 ->
  u8 (Z.lor (Z.land (u8 (Z.lor (Z.land d RF_PADAC_20DBM_MASK)
                           RFLR_PADAC_20DBM_ON)) RF_PADAC_20DBM_MASK)
        RFLR_PADAC_20DBM_ON)
  = u8 (Z.lor (Z.land d RF_PADAC_20DBM_MASK) RFLR_PADAC_20DBM_ON).
Proof. intros Hd. by_bytes d Hd. Qed.

Lemma pa_dac_rewrite_off d :
  0 <= d < 256 ->
  u8 (Z.lor (Z.land (u8 (Z.lor (Z.land d RF_PADAC_20DBM_MASK)
                           RFLR_PADAC_20DBM_OFF)) RF_PADAC_20DBM_MASK)
        RFLR_PADAC_20DBM_OFF)
  = u8 (Z.lor (Z.land d RF_PADAC_20DBM_MASK) RFLR_PADAC_20DBM_OFF).
Proof. intros Hd. by_bytes d Hd. Qed.

(** Rewriting the two PA registers with the bytes they hold changes
    nothing in the register file. *)
Lemma pa_regs_rewritten h c d :
  let h1 := sx1272_reg_write (sx1272_reg_write h REG_PACONFIG c) REG_PADAC d in
  sx1272_reg_read h1 REG_PACONFIG = u8 c
  /\ sx1272_reg_read h1 REG_PADAC = u8 d
  /\ regs (sx1272_reg_write (sx1272_reg_write h1 REG_PACONFIG (u8 c))
             REG_PADAC (u8 d)) = regs h1.
Proof.
  cbv zeta. split; [| split].
  - rewrite reg_read_write_other by discriminate.
    apply reg_read_write_same. discriminate.
  - apply reg_read_write_same. discriminate.
  - unfold sx1272_reg_write, chip_write. simpl. rewrite !u8_idem.
    apply map_eq. intros i. rewrite !lookup_insert.
    repeat case_decide; reflexivity.
Qed.

Lemma clamp_power_idem lo hi p :
  lo <= hi -> clamp_power lo hi (clamp_power lo hi p) = clamp_power lo hi p.
Proof. intros Hle. rewrite !clamp_power_spec by exact Hle. lia. Qed.

(** C7: the PA policy is idempotent.  Running [setup_power_amplifier] a
    second time, on the power it has clamped and the registers it has
    written, stores the same power, writes the same output-power code and
    takes the same +20 dBm decision: device structure and register file
    are those of the first run. *)
Theorem setup_power_amplifier_idempotent thresh dev h :
  let r1 := setup_power_amplifier thresh dev h in
  let r2 := setup_power_amplifier thresh (fst r1) (snd r1) in
  fst r2 = fst r1
  /\ regs (snd r2) = regs (snd r1)
  /\ power (lora (fst r2)) = power (lora (fst r1))
  /\ Z.land (sx1272_reg_read (snd r2) REG_PACONFIG) 0x0F
     = Z.land (sx1272_reg_read (snd r1) REG_PACONFIG) 0x0F
  /\ sx1272_reg_read (snd r2) REG_PADAC = sx1272_reg_read (snd r1) REG_PADAC.
Proof.
  cbv zeta.
  assert (Hmain :
    fst (setup_power_amplifier thresh
           (fst (setup_power_amplifier thresh dev h))
           (snd (setup_power_amplifier thresh dev h)))
    = fst (setup_power_amplifier thresh dev h)
    /\ regs (snd (setup_power_amplifier thresh
                    (fst (setup_power_amplifier thresh dev h))
                    (snd (setup_power_amplifier thresh dev h))))
       = regs (snd (setup_power_amplifier thresh dev h))).
  { destruct (channel dev <? thresh) eqn:Hch;
      [destruct (power (lora dev) >? 17) eqn:Hp |].
    - rewrite (setup_power_amplifier_boost_20dbm thresh dev h Hch Hp).
      cbn [fst snd].
      match goal with
      | |- context [setup_power_amplifier thresh ?d1 (sx1272_reg_write
                      (sx1272_reg_write h REG_PACONFIG ?c) REG_PADAC ?d)] =>
          set (dev1 := d1);
          destruct (pa_regs_rewritten h c d) as (Hc & Hd & Hregs);
          set (h1 := sx1272_reg_write (sx1272_reg_write h REG_PACONFIG c)
                       REG_PADAC d) in *
      end.
      rewrite !u8_idem in Hc. rewrite !u8_idem in Hd. rewrite !u8_idem in Hregs.
      assert (Hp1 : (power (lora dev1) >? 17) = true).
      { subst dev1. cbn [lora power set_lora set_power].
        rewrite clamp_power_spec by lia. apply Z.gtb_lt in Hp.
        apply Z.gtb_lt. lia. }
      rewrite (setup_power_amplifier_boost_20dbm thresh dev1 h1 Hch Hp1).
      cbn [fst snd]. rewrite Hc, Hd.
      replace (clamp_power 5 20 (power (lora dev1)))
        with (clamp_power 5 20 (power (lora dev)))
        by (subst dev1; cbn [lora power set_lora set_power];
            symmetry; apply clamp_power_idem; lia).
      rewrite pa_config_rewrite_boost
        by (apply reg_read_range || apply u8_range).
      rewrite pa_dac_rewrite_on by apply reg_read_range.
      split; [reflexivity | exact Hregs].
    - rewrite (setup_power_amplifier_boost_17dbm thresh dev h Hch Hp).
      cbn [fst snd].
      match goal with
      | |- context [setup_power_amplifier thresh ?d1 (sx1272_reg_write
                      (sx1272_reg_write h REG_PACONFIG ?c) REG_PADAC ?d)] =>
          set (dev1 := d1);
          destruct (pa_regs_rewritten h c d) as (Hc & Hd & Hregs);
          set (h1 := sx1272_reg_write (sx1272_reg_write h REG_PACONFIG c)
                       REG_PADAC d) in *
      end.
      rewrite !u8_idem in Hc. rewrite !u8_idem in Hd. rewrite !u8_idem in Hregs.
      assert (Hp1 : (power (lora dev1) >? 17) = false).
      { subst dev1. cbn [lora power set_lora set_power].
        rewrite clamp_power_spec by lia.
        rewrite Z.gtb_ltb. apply Z.ltb_ge. lia. }
      rewrite (setup_power_amplifier_boost_17dbm thresh dev1 h1 Hch Hp1).
      cbn [fst snd]. rewrite Hc, Hd.
      replace (clamp_power 2 17 (power (lora dev1)))
        with (clamp_power 2 17 (power (lora dev)))
        by (subst dev1; cbn [lora power set_lora set_power];
            symmetry; apply clamp_power_idem; lia).
      rewrite pa_config_rewrite_boost
        by (apply reg_read_range || apply u8_range).
      rewrite pa_dac_rewrite_off by apply reg_read_range.
      split; [reflexivity | exact Hregs].
    - rewrite (setup_power_amplifier_rfo thresh dev h Hch).
      cbn [fst snd].
      match goal with
      | |- context [setup_power_amplifier thresh ?d1 (sx1272_reg_write
                      (sx1272_reg_write h REG_PACONFIG ?c) REG_PADAC ?d)] =>
          set (dev1 := d1);
          destruct (pa_regs_rewritten h c d) as (Hc & Hd & Hregs);
          set (h1 := sx1272_reg_write (sx1272_reg_write h REG_PACONFIG c)
                       REG_PADAC d) in *
      end.
      rewrite !u8_idem in Hc. rewrite !u8_idem in Hregs.
      rewrite (setup_power_amplifier_rfo thresh dev1 h1 Hch).
      cbn [fst snd]. rewrite Hc, Hd.
      replace (clamp_power (-1) 14 (power (lora dev1)))
        with (clamp_power (-1) 14 (power (lora dev)))
        by (subst dev1; cbn [lora power set_lora set_power];
            symmetry; apply clamp_power_idem; lia).
      rewrite pa_config_rewrite_rfo
        by (apply reg_read_range || apply u8_range).
      split; [reflexivity | exact Hregs]. }
  destruct Hmain as [Hdev Hregs].
  split; [exact Hdev |]. split; [exact Hregs |].
  rewrite Hdev. split; [reflexivity |].
  unfold sx1272_reg_read. rewrite Hregs. split; reflexivity.
Qed.

(** *** LoRa configuration *)

Lemma set_modem_dev dev m h :
  fst (sx1272_set_modem dev m h) = set_modem_field m dev.
Proof. unfold sx1272_set_modem. destruct m; reflexivity. Qed.

(** The device structure after [sx1272_configure_lora]: the modem is
    LoRa, and the settings record is the one configured (the argument, or
    the stored record for a NULL argument) with the low-datarate-optimize
    flag recomputed and the power clamped by the PA policy. *)
Lemma configure_lora_dev thresh dev settings h :
  let l0 := default (lora dev) settings in
  fst (sx1272_configure_lora thresh dev settings h) =
  set_lora
    (set_power (applied_power thresh (channel dev) (power l0))
       (set_low_datarate_optimize (low_datarate_needed l0) l0))
    (set_modem_field SX1272_MODEM_LORA dev).
Proof.
  cbv zeta. unfold sx1272_configure_lora.
  pose proof (set_modem_dev dev SX1272_MODEM_LORA h) as Hm.
  destruct (sx1272_set_modem dev SX1272_MODEM_LORA h) as [dev1 h1].
  simpl in Hm. subst dev1.
  match goal with
  | |- context [setup_power_amplifier thresh ?d0 ?h0] =>
      pose proof (setup_power_amplifier_dev thresh d0 h0) as Hpa;
      destruct (setup_power_amplifier thresh d0 h0) as [dev2 h2]
  end.
  simpl in Hpa. simpl fst. subst dev2.
  destruct settings as [s|]; simpl;
    match goal with
    | |- context [low_datarate_needed ?l] =>
        destruct (low_datarate_needed l)
    end; reflexivity.
Qed.

Lemma low_datarate_needed_spec l :
  low_datarate_needed l = true
  <-> low_datarate_rule (bandwidth l) (datarate l).
Proof.
  unfold low_datarate_needed, low_datarate_rule.
  destruct (bandwidth l), (datarate l); simpl;
    (split; [intros H; try discriminate H; tauto
            | intros H; try reflexivity;
              repeat match goal with
                     | H : _ \/ _ |- _ => destruct H
                     | H : _ /\ _ |- _ => destruct H
                     end; discriminate]).
Qed.

(** C5: after [sx1272_configure_lora], and after each per-field setter,
    the stored bandwidth and spreading factor are the configured ones and
    the stored low-datarate-optimize flag is set if and only if the
    bandwidth is 125 kHz with SF11 or SF12, or 250 kHz with SF12. *)
Theorem configure_lora_low_datarate_optimize thresh dev settings bw sf cr h :
  let configured (bw : sx1272_lora_bandwidth_t)
        (sf : sx1272_lora_spreading_factor_t) (r : sx1272_t * hw_t) :=
    bandwidth (lora (fst r)) = bw
    /\ datarate (lora (fst r)) = sf
    /\ (low_datarate_optimize (lora (fst r)) = true <-> low_datarate_rule bw sf) in
  configured (bandwidth (default (lora dev) settings))
    (datarate (default (lora dev) settings))
    (sx1272_configure_lora thresh dev settings h)
  /\ configured bw (datarate (lora dev))
       (sx1272_configure_lora_bw thresh dev bw h)
  /\ configured (bandwidth (lora dev)) sf
       (sx1272_configure_lora_sf thresh dev sf h)
  /\ configured (bandwidth (lora dev)) (datarate (lora dev))
       (sx1272_configure_lora_cr thresh dev cr h).
Proof.
  cbv zeta beta.
  unfold sx1272_configure_lora_bw, sx1272_configure_lora_sf,
    sx1272_configure_lora_cr.
  rewrite !configure_lora_dev. cbn -[low_datarate_needed low_datarate_rule].
  rewrite !low_datarate_needed_spec. cbn -[low_datarate_rule]. tauto.
Qed.

(** C10: a configuration pass with a NULL argument keeps every field of
    the stored settings record except the low-datarate-optimize flag,
    which is recomputed, and the power, which the PA policy clamps; a
    per-field setter hands the pass the stored record with its one field
    replaced, so its result differs from the stored record in that field,
    the flag and the power only. *)
Theorem configure_lora_null_keeps_settings thresh dev bw sf cr h :
  let l0 := lora dev in
  let derived (l1 l : sx1272_lora_settings_t) :=
    low_datarate_optimize l = low_datarate_needed l1
    /\ power l = applied_power thresh (channel dev) (power l0) in
  (let l := lora (fst (sx1272_configure_lora thresh dev None h)) in
   bandwidth l = bandwidth l0 /\ datarate l = datarate l0
   /\ coderate l = coderate l0 /\ same_frame l0 l /\ derived l0 l)
  /\ (let l := lora (fst (sx1272_configure_lora_bw thresh dev bw h)) in
      bandwidth l = bw /\ datarate l = datarate l0
      /\ coderate l = coderate l0 /\ same_frame l0 l
      /\ derived (set_bandwidth bw l0) l)
  /\ (let l := lora (fst (sx1272_configure_lora_sf thresh dev sf h)) in
      bandwidth l = bandwidth l0 /\ datarate l = sf
      /\ coderate l = coderate l0 /\ same_frame l0 l
      /\ derived (set_datarate sf l0) l)
  /\ (let l := lora (fst (sx1272_configure_lora_cr thresh dev cr h)) in
      bandwidth l = bandwidth l0 /\ datarate l = datarate l0
      /\ coderate l = cr /\ same_frame l0 l
      /\ derived (set_coderate cr l0) l).
Proof.
  cbv zeta beta.
  unfold sx1272_configure_lora_bw, sx1272_configure_lora_sf,
    sx1272_configure_lora_cr, same_frame.
  rewrite !configure_lora_dev. cbn -[low_datarate_needed applied_power].
  repeat split; reflexivity.
Qed.

(** *** Time on air *)

(** Without low-datarate optimization the driver's divisor is the
    specified one. *)
Lemma payload_symbols_without_low_datarate l len :
  low_datarate_optimize l = false ->
  driver_payload_symbols l len = spec_payload_symbols l len.
Proof.
  intros Hl. unfold driver_payload_symbols, spec_payload_symbols.
  rewrite Hl. simpl b2z. rewrite !Z.mul_0_r, !Z.sub_0_r. reflexivity.
Qed.

(** C2 (fails on the code): the LoRa time on air should count
    ceil[(8 len - 4 SF + 28 + 16 crc - 20 (1 - implicit)) /
    (4 (SF - 2 low_dr_opt))] (coderate + 4) payload symbols past the first
    eight.  The FSK modem does return 0.  At 125 kHz, SF12 with low
    datarate optimization, coding rate 4/5, CRC on, explicit header, a
    preamble of 8 and 14 payload bytes, the driver divides by
    4 SF - 2 = 46 where the formula has 4 (SF - 2) = 40: it counts 18
    payload symbols instead of 23 and returns 991232 microseconds where
    the formula gives 1155072. *)
Theorem time_on_air_low_datarate_divisor :
  (forall ty dev pkt_len,
     sx1272_get_time_on_air ty dev SX1272_MODEM_FSK pkt_len = 0)
  /\ lora sample_dev = sample_lora
  /\ low_datarate_optimize sample_lora = low_datarate_needed sample_lora
  /\ (forall ty,
        sx1272_get_time_on_air ty sample_dev SX1272_MODEM_LORA 14 = 991232)
  /\ spec_time_on_air sample_lora 14 = 1155072
  /\ driver_payload_symbols sample_lora 14 = 18
  /\ spec_payload_symbols sample_lora 14 = 23.
Proof.
  split; [intros ty dev pkt_len; reflexivity |].
  repeat split; try (intros []); vm_compute; reflexivity.
Qed.

(** *** Event handlers *)

Lemma crc_flag_after_rxdone_clear f :
  0 <= f < 256 ->
  Z.land (Z.land f (Z.lnot (u8 RFLR_IRQFLAGS_RXDONE)))
    RFLR_IRQFLAGS_PAYLOADCRCERROR_MASK
  = Z.land f RFLR_IRQFLAGS_PAYLOADCRCERROR.
Proof. intros Hf. by_bytes f Hf. Qed.

Lemma cad_detected_after_clear f :
  0 <= f < 256 ->
  Z.land (Z.land f (Z.lnot (u8 (Z.lor RFLR_IRQFLAGS_CADDETECTED
                                  RFLR_IRQFLAGS_CADDONE))))
    RFLR_IRQFLAGS_CADDETECTED = 0.
Proof. intros Hf. by_bytes f Hf. Qed.

Lemma crc_flag_cleared f :
  0 <= f < 256 ->
  Z.land (Z.land (Z.land f (Z.lnot (u8 RFLR_IRQFLAGS_RXDONE)))
            (Z.lnot (u8 RFLR_IRQFLAGS_PAYLOADCRCERROR)))
    RFLR_IRQFLAGS_PAYLOADCRCERROR = 0.
Proof. intros Hf. by_bytes f Hf. Qed.

Lemma rxdone_flag_stays_cleared f :
  0 <= f < 256 ->
  Z.land (Z.land (Z.land f (Z.lnot (u8 RFLR_IRQFLAGS_RXDONE)))
            (Z.lnot (u8 RFLR_IRQFLAGS_PAYLOADCRCERROR)))
    RFLR_IRQFLAGS_RXDONE = 0.
Proof. intros Hf. by_bytes f Hf. Qed.

(** Delivering an event touches no register. *)
Lemma send_event_regs dev e h : regs (send_event dev e h) = regs h.
Proof. unfold send_event. destruct (sx1272_event_cb dev); reflexivity. Qed.

(** Whatever the chip reported, the CAD handlers cache [false]: the
    CadDetected flag is read after the write that clears it. *)
Lemma on_dio3_on_dio4_cache_false dev h :
  modem dev = SX1272_MODEM_LORA ->
  is_last_cad_success (fst (sx1272_on_dio3 dev h)) = false
  /\ is_last_cad_success (fst (sx1272_on_dio4 dev h)) = false.
Proof.
  intros Hm. unfold sx1272_on_dio3, sx1272_on_dio4. rewrite Hm.
  cbn [fst is_last_cad_success set_is_last_cad_success].
  rewrite reg_read_irqflags_cleared.
  rewrite (cad_detected_after_clear _ (reg_read_range h REG_LR_IRQFLAGS)).
  split; reflexivity.
Qed.

(** C9 (fails on the code): the CAD handlers should cache whether the
    channel was detected busy.  After a detection that found the channel
    busy (CadDone and CadDetected raised), the DIO3 handler clears both
    flags and emits CadDone once, the DIO4 handler does the same and emits
    CadDetected, but each caches [false]: the CadDetected flag is read
    back only after it has been cleared. *)
Theorem on_dio3_caches_cleared_cad_flag :
  let r3 := sx1272_on_dio3 sample_dev cad_busy_hw in
  let r4 := sx1272_on_dio4 sample_dev cad_busy_hw in
  modem sample_dev = SX1272_MODEM_LORA
  /\ Z.land (sx1272_reg_read cad_busy_hw REG_LR_IRQFLAGS)
       RFLR_IRQFLAGS_CADDETECTED = RFLR_IRQFLAGS_CADDETECTED
  /\ is_last_cad_success (fst r3) = false
  /\ is_last_cad_success (fst r4) = false
  /\ sx1272_reg_read (snd r3) REG_LR_IRQFLAGS = 0
  /\ sx1272_reg_read (snd r4) REG_LR_IRQFLAGS = 0
  /\ events (snd r3) = [SX1272_CAD_DONE]
  /\ events (snd r4) = [SX1272_CAD_DETECTED].
Proof. cbv zeta. repeat split; vm_compute; reflexivity. Qed.

(** The event trace after [send_event]. *)
Lemma send_event_events dev e h :
  events (send_event dev e h)
  = events h ++ (if sx1272_event_cb dev then [e] else []).
Proof.
  unfold send_event. destruct (sx1272_event_cb dev); simpl;
    [reflexivity | symmetry; apply app_nil_r].
Qed.

(** C4, as the claim states it, fails: when the TX deadline timer fires
    during a transmission, [_on_tx_timeout] leaves the logical state at
    TxRunning. *)
Lemma on_tx_timeout_stays_tx_running :
  ~ (let r := _on_tx_timeout sending_dev sample_hw in
     (if rx_continuous (lora sending_dev) then True
      else state (fst r) = SX1272_RF_IDLE)
     /\ tx_timeout_timer (fst r) = None
     /\ rx_timeout_timer (fst r) = None
     /\ events (snd r) = events sample_hw ++ [SX1272_TX_TIMEOUT]).
Proof. intros [H _]. vm_compute in H. discriminate H. Qed.

(** C4, amended.  A deadline timer that fires only reports: its callback
    delivers TxTimeout (RxTimeout) once to a registered callback and
    leaves the device structure, logical state and timers included, as it
    was.  During a LoRa reception, a timeout reported on DIO1 cancels the
    RX timer, sets the state to Idle and delivers RxTimeout once; a CRC
    error reported on DIO0 clears the flag (and RxDone with it), cancels
    the RX timer, sets the state to Idle unless the reception is
    continuous, and delivers RxError(Crc) once.  Neither handler touches
    the TX timer. *)
Theorem crc_and_timeout_handling dev h :
  let report (e : sx1272_event_type_t) (h' : hw_t) :=
    events h' = events h ++ (if sx1272_event_cb dev then [e] else []) in
  (fst (_on_tx_timeout dev h) = dev
   /\ report SX1272_TX_TIMEOUT (snd (_on_tx_timeout dev h)))
  /\ (fst (_on_rx_timeout dev h) = dev
      /\ report SX1272_RX_TIMEOUT (snd (_on_rx_timeout dev h)))
  /\ (state dev = SX1272_RF_RX_RUNNING -> modem dev = SX1272_MODEM_LORA ->
      let r := sx1272_on_dio1 dev h in
      state (fst r) = SX1272_RF_IDLE
      /\ rx_timeout_timer (fst r) = None
      /\ tx_timeout_timer (fst r) = tx_timeout_timer dev
      /\ report SX1272_RX_TIMEOUT (snd r))
  /\ (state dev = SX1272_RF_RX_RUNNING -> modem dev = SX1272_MODEM_LORA ->
      Z.land (sx1272_reg_read h REG_LR_IRQFLAGS) RFLR_IRQFLAGS_PAYLOADCRCERROR
      = RFLR_IRQFLAGS_PAYLOADCRCERROR ->
      let r := sx1272_on_dio0 dev h in
      state (fst r) = (if rx_continuous (lora dev)
                       then SX1272_RF_RX_RUNNING else SX1272_RF_IDLE)
      /\ rx_timeout_timer (fst r) = None
      /\ tx_timeout_timer (fst r) = tx_timeout_timer dev
      /\ Z.land (sx1272_reg_read (snd r) REG_LR_IRQFLAGS)
           RFLR_IRQFLAGS_PAYLOADCRCERROR = 0
      /\ Z.land (sx1272_reg_read (snd r) REG_LR_IRQFLAGS)
           RFLR_IRQFLAGS_RXDONE = 0
      /\ report SX1272_RX_ERROR_CRC (snd r)).
Proof.
  cbv zeta beta. split; [| split; [| split]].
  - split; [reflexivity | apply send_event_events].
  - split; [reflexivity | apply send_event_events].
  - intros Hst Hm. unfold sx1272_on_dio1. rewrite Hst, Hm.
    cbn [fst snd]. rewrite send_event_events.
    repeat split; reflexivity.
  - intros Hst Hm Hcrc. unfold sx1272_on_dio0. rewrite Hst, Hm.
    rewrite reg_read_irqflags_cleared.
    rewrite (crc_flag_after_rxdone_clear _ (reg_read_range h REG_LR_IRQFLAGS)).
    rewrite Hcrc, Z.eqb_refl. cbn [fst snd]. rewrite send_event_events.
    assert (Hflags : forall dev' e,
      sx1272_reg_read
        (send_event dev' e
           (sx1272_reg_write
              (sx1272_reg_write h REG_LR_IRQFLAGS RFLR_IRQFLAGS_RXDONE)
              REG_LR_IRQFLAGS RFLR_IRQFLAGS_PAYLOADCRCERROR))
        REG_LR_IRQFLAGS
      = Z.land (Z.land (sx1272_reg_read h REG_LR_IRQFLAGS)
                  (Z.lnot (u8 RFLR_IRQFLAGS_RXDONE)))
          (Z.lnot (u8 RFLR_IRQFLAGS_PAYLOADCRCERROR))).
    { intros dev' e. unfold sx1272_reg_read at 1.
      rewrite send_event_regs.
      fold (sx1272_reg_read
              (sx1272_reg_write
                 (sx1272_reg_write h REG_LR_IRQFLAGS RFLR_IRQFLAGS_RXDONE)
                 REG_LR_IRQFLAGS RFLR_IRQFLAGS_PAYLOADCRCERROR)
              REG_LR_IRQFLAGS).
      rewrite !reg_read_irqflags_cleared. reflexivity. }
    rewrite Hflags.
    rewrite (crc_flag_cleared _ (reg_read_range h REG_LR_IRQFLAGS)).
    rewrite (rxdone_flag_stays_cleared _ (reg_read_range h REG_LR_IRQFLAGS)).
    destruct (rx_continuous (lora dev)); simpl; rewrite ?Hst;
      repeat split; reflexivity.
Qed.

Lemma crc_and_timeout_handling_witness :
  let r := sx1272_on_dio0 receiving_dev crc_error_hw in
  state (fst r) = SX1272_RF_IDLE
  /\ rx_timeout_timer (fst r) = None
  /\ Z.land (sx1272_reg_read (snd r) REG_LR_IRQFLAGS)
       RFLR_IRQFLAGS_PAYLOADCRCERROR = 0
  /\ events (snd r) = [SX1272_RX_ERROR_CRC]
  /\ state (fst (sx1272_on_dio1 receiving_dev crc_error_hw)) = SX1272_RF_IDLE
  /\ events (snd (sx1272_on_dio1 receiving_dev crc_error_hw))
     = [SX1272_RX_TIMEOUT].
Proof.
  destruct (crc_and_timeout_handling receiving_dev crc_error_hw)
    as (_ & _ & Hdio1 & Hdio0).
  destruct (Hdio1 eq_refl eq_refl) as (H1 & _ & _ & H2).
  destruct (Hdio0 eq_refl eq_refl ltac:(vm_compute; reflexivity))
    as (H3 & H4 & _ & H6 & _ & H5).
  cbv zeta. repeat split; assumption.
Defined.

(** *** Further properties: modes *)

Lemma reg_read_set_op_mode dev op_mode h a :
  sx1272_reg_read (sx1272_set_op_mode dev op_mode h) a =
  if (a =? REG_OPMODE)
     && negb (op_mode =? mode_field (sx1272_reg_read h REG_OPMODE))
  then u8 op_mode
  else sx1272_reg_read h a.
Proof.
  unfold sx1272_reg_read at 1.
  rewrite (proj2 (set_op_mode_bus dev op_mode h)).
  fold (sx1272_reg_read h REG_OPMODE).
  destruct (negb (op_mode =? mode_field (sx1272_reg_read h REG_OPMODE))).
  - destruct (a =? REG_OPMODE) eqn:Ha; simpl.
    + apply Z.eqb_eq in Ha. subst a. rewrite lookup_insert_eq. simpl.
      apply u8_idem.
    + apply Z.eqb_neq in Ha. rewrite lookup_insert_ne by congruence.
      reflexivity.
  - rewrite andb_false_r. reflexivity.
Qed.

Lemma mode_field_u8 z : mode_field (u8 z) = mode_field z.
Proof.
  unfold mode_field, u8. rewrite <- Z.land_assoc. reflexivity.
Qed.

Lemma mode_field_idem z : mode_field (mode_field z) = mode_field z.
Proof.
  unfold mode_field. rewrite <- Z.land_assoc. reflexivity.
Qed.

Lemma mode_field_set_op_mode dev op_mode h :
  mode_field (sx1272_reg_read (sx1272_set_op_mode dev op_mode h) REG_OPMODE)
  = mode_field op_mode.
Proof.
  rewrite reg_read_set_op_mode. simpl.
  destruct (op_mode =? mode_field (sx1272_reg_read h REG_OPMODE)) eqn:Hm; simpl.
  - apply Z.eqb_eq in Hm. rewrite Hm. symmetry. apply mode_field_idem.
  - apply mode_field_u8.
Qed.

(** X1: The GPIO side of a mode change, for every device and mode: the
    callback of each wired line among DIO0 to DIO3 is enabled exactly when
    the requested mode is not Sleep, every other line keeps its setting,
    and a wired RF switch is driven to the bias of the mode. *)
Theorem set_op_mode_side_effects dev op_mode h p :
  let h' := sx1272_set_op_mode dev op_mode h in
  (Some p ∈ switched_dio_pins dev ->
   (p ∈ irq_enabled h' <-> op_mode <> RF_OPMODE_SLEEP))
  /\ (Some p ∉ switched_dio_pins dev ->
      (p ∈ irq_enabled h' <-> p ∈ irq_enabled h))
  /\ (rfswitch_pin dev = Some p ->
      gpio_level h' !! p =
      Some (rfswitch_level (rfswitch_mode dev)
              (negb (op_mode =? RF_OPMODE_SLEEP)))).
Proof.
  cbv zeta. split; [| split].
  - intros Hp. rewrite set_op_mode_irq.
    destruct (op_mode =? RF_OPMODE_SLEEP) eqn:Hsleep.
    + apply Z.eqb_eq in Hsleep. tauto.
    + apply Z.eqb_neq in Hsleep. tauto.
  - intros Hp. rewrite set_op_mode_irq.
    destruct (op_mode =? RF_OPMODE_SLEEP); tauto.
  - intros Hp. rewrite set_op_mode_level, Hp. apply lookup_insert_eq.
Qed.

Lemma set_op_mode_side_effects_witness :
  (10 ∈ irq_enabled (sx1272_set_op_mode sample_dev RF_OPMODE_STANDBY sample_hw)
   <-> RF_OPMODE_STANDBY <> RF_OPMODE_SLEEP)
  /\ gpio_level (sx1272_set_op_mode sample_dev RF_OPMODE_STANDBY sample_hw) !! 20
     = Some false.
Proof.
  destruct (set_op_mode_side_effects sample_dev RF_OPMODE_STANDBY sample_hw 10)
    as (H1 & _ & _).
  destruct (set_op_mode_side_effects sample_dev RF_OPMODE_STANDBY sample_hw 20)
    as (_ & _ & H3).
  split; [apply H1; apply elem_switched_dio_pins; left; reflexivity
        | apply H3; reflexivity].
Defined.

(** X2: Whatever the register held, after [sx1272_set_op_mode] its mode field
    is the requested mode, for each of the six operating modes. *)
Theorem set_op_mode_reaches_mode dev op_mode h :
  In op_mode [RF_OPMODE_SLEEP; RF_OPMODE_STANDBY; RF_OPMODE_TRANSMITTER;
              RF_OPMODE_RECEIVER; RFLR_OPMODE_RECEIVER_SINGLE; RFLR_OPMODE_CAD] ->
  mode_field (sx1272_reg_read (sx1272_set_op_mode dev op_mode h) REG_OPMODE)
  = op_mode.
Proof.
  intros Hin. rewrite mode_field_set_op_mode.
  simpl in Hin. decompose [or] Hin; subst; try reflexivity. contradiction.
Qed.

Lemma set_op_mode_reaches_mode_witness :
  mode_field (sx1272_reg_read
                (sx1272_set_op_mode sample_dev RFLR_OPMODE_CAD sample_hw)
                REG_OPMODE) = RFLR_OPMODE_CAD.
Proof.
  apply set_op_mode_reaches_mode. simpl. tauto.
Defined.

(** X3: [sx1272_set_sleep] and [sx1272_set_standby] cancel both deadline
    timers and leave the logical state Idle; the chip's mode field is
    Sleep, respectively Standby, and the callbacks of the wired lines DIO0
    to DIO3 are disabled, respectively enabled.  No event is delivered. *)
Theorem set_sleep_set_standby_idle dev h :
  let idle (r : sx1272_t * hw_t) (mode : Z) :=
    state (fst r) = SX1272_RF_IDLE
    /\ tx_timeout_timer (fst r) = None
    /\ rx_timeout_timer (fst r) = None
    /\ mode_field (sx1272_reg_read (snd r) REG_OPMODE) = mode
    /\ events (snd r) = events h
    /\ forall p, Some p ∈ switched_dio_pins dev ->
         (p ∈ irq_enabled (snd r) <-> mode <> RF_OPMODE_SLEEP) in
  idle (sx1272_set_sleep dev h) RF_OPMODE_SLEEP
  /\ idle (sx1272_set_standby dev h) RF_OPMODE_STANDBY.
Proof.
  cbv zeta beta. unfold sx1272_set_sleep, sx1272_set_standby. cbn [fst snd].
  split.
  - split; [reflexivity |]. split; [reflexivity |]. split; [reflexivity |].
    split; [apply mode_field_set_op_mode |].
    split; [apply set_op_mode_events |].
    intros p Hp. rewrite set_op_mode_irq. simpl.
    assert (Hsw : Some p ∈ switched_dio_pins dev) by exact Hp.
    split; [intros [_ Hn]; contradiction | intros Hn; congruence].
  - split; [reflexivity |]. split; [reflexivity |]. split; [reflexivity |].
    split; [apply mode_field_set_op_mode |].
    split; [apply set_op_mode_events |].
    intros p Hp. rewrite set_op_mode_irq. simpl.
    assert (Hsw : Some p ∈ switched_dio_pins dev) by exact Hp.
    split; [intros _; discriminate | intros _; left; exact Hsw].
Qed.

(** The operating-mode register and the mapping register after
    [sx1272_set_modem]. *)
Lemma set_modem_spec dev m h :
  let r := sx1272_set_modem dev m h in
  let opmode := sx1272_reg_read (snd r) REG_OPMODE in
  modem (fst r) = m
  /\ mode_field opmode = RF_OPMODE_SLEEP
  /\ Z.land opmode RFLR_OPMODE_LONGRANGEMODE_ON
     = match m with
       | SX1272_MODEM_LORA => RFLR_OPMODE_LONGRANGEMODE_ON
       | SX1272_MODEM_FSK => RFLR_OPMODE_LONGRANGEMODE_OFF
       end
  /\ sx1272_reg_read (snd r) REG_DIOMAPPING1 = 0
  /\ events (snd r) = events h.
Proof.
  cbv zeta. unfold sx1272_set_modem.
  assert (Hbits : forall x, 0 <= x < 256 -> mode_field x = 0 ->
    (mode_field (u8 (Z.lor (Z.land x RFLR_OPMODE_LONGRANGEMODE_MASK)
                       RFLR_OPMODE_LONGRANGEMODE_ON)) = 0
     /\ Z.land (u8 (Z.lor (Z.land x RFLR_OPMODE_LONGRANGEMODE_MASK)
                      RFLR_OPMODE_LONGRANGEMODE_ON))
          RFLR_OPMODE_LONGRANGEMODE_ON = RFLR_OPMODE_LONGRANGEMODE_ON)
    /\ (mode_field (u8 (Z.lor (Z.land x RFLR_OPMODE_LONGRANGEMODE_MASK)
                          RFLR_OPMODE_LONGRANGEMODE_OFF)) = 0
        /\ Z.land (u8 (Z.lor (Z.land x RFLR_OPMODE_LONGRANGEMODE_MASK)
                         RFLR_OPMODE_LONGRANGEMODE_OFF))
             RFLR_OPMODE_LONGRANGEMODE_ON = RFLR_OPMODE_LONGRANGEMODE_OFF)).
  { intros x Hx Hmf.
    pose proof (forall_bytes
      (fun x =>
         negb (mode_field x =? 0)
         || ((mode_field (u8 (Z.lor (Z.land x RFLR_OPMODE_LONGRANGEMODE_MASK)
                                RFLR_OPMODE_LONGRANGEMODE_ON)) =? 0)
             && (Z.land (u8 (Z.lor (Z.land x RFLR_OPMODE_LONGRANGEMODE_MASK)
                               RFLR_OPMODE_LONGRANGEMODE_ON))
                   RFLR_OPMODE_LONGRANGEMODE_ON =? RFLR_OPMODE_LONGRANGEMODE_ON)
             && (mode_field (u8 (Z.lor (Z.land x RFLR_OPMODE_LONGRANGEMODE_MASK)
                                   RFLR_OPMODE_LONGRANGEMODE_OFF)) =? 0)
             && (Z.land (u8 (Z.lor (Z.land x RFLR_OPMODE_LONGRANGEMODE_MASK)
                               RFLR_OPMODE_LONGRANGEMODE_OFF))
                   RFLR_OPMODE_LONGRANGEMODE_ON
                 =? RFLR_OPMODE_LONGRANGEMODE_OFF)))
      ltac:(vm_compute; reflexivity) x Hx) as H.
    cbv beta in H. rewrite Hmf in H. simpl negb in H. simpl orb in H.
    repeat (apply andb_true_iff in H; destruct H as [H ?]).
    repeat match goal with
           | H : (_ =? _) = true |- _ => apply Z.eqb_eq in H
           end.
    repeat split; assumption. }
  pose proof (mode_field_set_op_mode dev RF_OPMODE_SLEEP h) as Hsleep.
  pose proof (reg_read_range (sx1272_set_op_mode dev RF_OPMODE_SLEEP h)
                REG_OPMODE) as Hrange.
  assert (Hsleep' :
    mode_field (sx1272_reg_read
                  (sx1272_set_op_mode (set_modem_field m dev) RF_OPMODE_SLEEP h)
                  REG_OPMODE) = 0)
    by apply (mode_field_set_op_mode (set_modem_field m dev) RF_OPMODE_SLEEP h).
  destruct (Hbits _ (reg_read_range
              (sx1272_set_op_mode (set_modem_field m dev) RF_OPMODE_SLEEP h)
              REG_OPMODE) Hsleep') as [[Hl1 Hl2] [Hf1 Hf2]].
  destruct m; cbn [modem set_modem_field fst snd].
  - split; [reflexivity |].
    rewrite !(reg_read_write_other _ REG_DIOMAPPING1 REG_OPMODE) by discriminate.
    rewrite (reg_read_write_same _ REG_OPMODE) by discriminate.
    rewrite (reg_read_write_same _ REG_DIOMAPPING1) by discriminate.
    repeat split; try assumption; try reflexivity. apply set_op_mode_events.
  - split; [reflexivity |].
    rewrite !(reg_read_write_other _ REG_DIOMAPPING2 REG_OPMODE) by discriminate.
    rewrite !(reg_read_write_other _ REG_DIOMAPPING1 REG_OPMODE) by discriminate.
    rewrite (reg_read_write_same _ REG_OPMODE) by discriminate.
    rewrite (reg_read_write_other _ REG_DIOMAPPING2 REG_DIOMAPPING1)
      by discriminate.
    rewrite (reg_read_write_same _ REG_DIOMAPPING1) by discriminate.
    repeat split; try assumption; try reflexivity. apply set_op_mode_events.
Qed.

(** X4: [sx1272_set_modem] records the modem, puts the chip to sleep and
    sets the long-range-mode bit for LoRa, clears it for FSK; the DIO0 to
    DIO3 mapping is reset and no event is delivered. *)
Theorem set_modem_long_range_bit dev m h :
  let r := sx1272_set_modem dev m h in
  let opmode := sx1272_reg_read (snd r) REG_OPMODE in
  modem (fst r) = m
  /\ mode_field opmode = RF_OPMODE_SLEEP
  /\ Z.land opmode RFLR_OPMODE_LONGRANGEMODE_ON
     = match m with
       | SX1272_MODEM_LORA => RFLR_OPMODE_LONGRANGEMODE_ON
       | SX1272_MODEM_FSK => RFLR_OPMODE_LONGRANGEMODE_OFF
       end
  /\ sx1272_reg_read (snd r) REG_DIOMAPPING1 = 0
  /\ events (snd r) = events h.
Proof. exact (set_modem_spec dev m h). Qed.

(** *** Further properties: channel, RSSI, random numbers *)

Lemma reg_write_frame h a v :
  events (sx1272_reg_write h a v) = events h
  /\ irq_enabled (sx1272_reg_write h a v) = irq_enabled h
  /\ gpio_level (sx1272_reg_write h a v) = gpio_level h
  /\ fifo (sx1272_reg_write h a v) = fifo h.
Proof. repeat split; reflexivity. Qed.

Lemma three_bytes z :
  u8 (Z.land (Z.shiftr z 16) 0xFF) * 65536
  + u8 (Z.land (Z.shiftr z 8) 0xFF) * 256
  + u8 (Z.land z 0xFF) = z mod 2 ^ 24.
Proof.
  fold (u8 (Z.shiftr z 16)). fold (u8 (Z.shiftr z 8)). fold (u8 z).
  rewrite !u8_idem. unfold u8. change 0xFF with (Z.ones 8).
  rewrite !Z.land_ones, !Z.shiftr_div_pow2 by lia.
  change (2 ^ 8) with 256. change (2 ^ 16) with 65536.
  change (2 ^ 24) with 16777216.
  Z.div_mod_to_equations. lia.
Qed.

(** The registers and interrupt lines after [sx1272_set_channel]. *)
Lemma set_channel_spec step dev freq h :
  let h' := sx1272_set_channel step dev freq h in
  let frf := D.to_u32 (D.of_Z freq / step)%float in
  sx1272_reg_read h' REG_OPMODE = sx1272_reg_read h REG_OPMODE
  /\ sx1272_reg_read h' REG_FRFMSB * 65536
     + sx1272_reg_read h' REG_FRFMID * 256
     + sx1272_reg_read h' REG_FRFLSB = frf mod 2 ^ 24
  /\ events h' = events h
  /\ forall p, Some p ∈ switched_dio_pins dev -> p ∈ irq_enabled h'.
Proof.
  cbv zeta. unfold sx1272_set_channel.
  set (frf := D.to_u32 (D.of_Z freq / step)%float).
  split; [| split; [| split]].
  - rewrite reg_read_write_same by discriminate. apply u8_idem.
  - rewrite !(reg_read_write_other _ REG_OPMODE) by discriminate.
    rewrite !(reg_read_write_other _ REG_FRFLSB REG_FRFMSB) by discriminate.
    rewrite !(reg_read_write_other _ REG_FRFLSB REG_FRFMID) by discriminate.
    rewrite !(reg_read_write_other _ REG_FRFMID REG_FRFMSB) by discriminate.
    rewrite !reg_read_write_same by discriminate.
    rewrite !u8_idem. apply three_bytes.
  - apply set_op_mode_events.
  - intros p Hp. cbn [irq_enabled sx1272_reg_write].
    apply set_op_mode_irq. simpl. left. exact Hp.
Qed.

(** X5: [sx1272_set_channel] programs the three frequency registers with
    the 24-bit step count, most significant byte first, and puts back the
    byte the operating-mode register held, whole.  No event is delivered,
    and the callbacks of the wired lines DIO0 to DIO3 are enabled
    afterwards, whatever the mode was. *)
Theorem set_channel_registers step dev freq h :
  let h' := sx1272_set_channel step dev freq h in
  let frf := D.to_u32 (D.of_Z freq / step)%float in
  sx1272_reg_read h' REG_OPMODE = sx1272_reg_read h REG_OPMODE
  /\ sx1272_reg_read h' REG_FRFMSB * 65536
     + sx1272_reg_read h' REG_FRFMID * 256
     + sx1272_reg_read h' REG_FRFLSB = frf mod 2 ^ 24
  /\ events h' = events h
  /\ forall p, Some p ∈ switched_dio_pins dev -> p ∈ irq_enabled h'.
Proof. exact (set_channel_spec step dev freq h). Qed.

(** X6: The RSSI sample is an [int16_t] without wrap-around: between -139 and
    116 dBm in LoRa mode, between -127 and 0 in FSK mode. *)
Theorem read_rssi_range dev h :
  match modem dev with
  | SX1272_MODEM_LORA => -139 <= sx1272_read_rssi dev h <= 116
  | SX1272_MODEM_FSK => -127 <= sx1272_read_rssi dev h <= 0
  end.
Proof.
  unfold sx1272_read_rssi. destruct (modem dev).
  - pose proof (reg_read_range h REG_RSSIVALUE) as Hr.
    rewrite Z.shiftr_div_pow2 by lia. change (2 ^ 1) with 2.
    Z.div_mod_to_equations. lia.
  - pose proof (reg_read_range h REG_LR_RSSIVALUE) as Hr.
    unfold RSSI_OFFSET. lia.
Qed.

(** X7: [sx1272_is_channel_free] answers by the RSSI register alone, which
    none of its own writes touches: free exactly when the sample is not
    above the threshold.  It leaves the device Idle and asleep with both
    deadline timers cancelled, and delivers no event. *)
Theorem is_channel_free_result step dev freq rssi_thresh h :
  let r := sx1272_is_channel_free step dev freq rssi_thresh h in
  let dev' := snd (fst r) in
  (fst (fst r) = true <-> sx1272_read_rssi dev h <= rssi_thresh)
  /\ state dev' = SX1272_RF_IDLE
  /\ tx_timeout_timer dev' = None
  /\ rx_timeout_timer dev' = None
  /\ mode_field (sx1272_reg_read (snd r) REG_OPMODE) = RF_OPMODE_SLEEP
  /\ events (snd r) = events h.
Proof.
  cbv zeta. unfold sx1272_is_channel_free, sx1272_set_sleep.
  assert (Hrssi :
    sx1272_read_rssi dev
      (sx1272_set_op_mode dev RF_OPMODE_RECEIVER
         (sx1272_set_channel step dev freq h))
    = sx1272_read_rssi dev h).
  { unfold sx1272_read_rssi, sx1272_set_channel.
    destruct (modem dev);
      rewrite reg_read_set_op_mode; simpl;
      rewrite !reg_read_write_other by discriminate;
      rewrite reg_read_set_op_mode; reflexivity. }
  rewrite Hrssi.
  destruct (sx1272_read_rssi dev h >? rssi_thresh) eqn:Hcmp;
    cbn [fst snd].
  - apply Z.gtb_lt in Hcmp.
    split; [split; [discriminate | lia] |].
    repeat split; try reflexivity.
    + apply mode_field_set_op_mode.
    + rewrite (proj1 (set_op_mode_events _ _ _)).
      rewrite (proj1 (set_op_mode_events _ _ _)).
      apply set_channel_spec.
  - rewrite Z.gtb_ltb in Hcmp. apply Z.ltb_ge in Hcmp.
    split; [split; [intros _; exact Hcmp | reflexivity] |].
    repeat split; try reflexivity.
    + apply mode_field_set_op_mode.
    + rewrite (proj1 (set_op_mode_events _ _ _)).
      rewrite (proj1 (set_op_mode_events _ _ _)).
      apply set_channel_spec.
Qed.

Lemma testbit_u32 x j :
  0 <= j -> Z.testbit (u32 x) j = Z.testbit x j && (j <? 32).
Proof.
  intros Hj. unfold u32. change 0xFFFFFFFF with (Z.ones 32).
  rewrite Z.land_spec, Z.testbit_ones_nonneg by lia. reflexivity.
Qed.

Lemma u32_range x : 0 <= u32 x < 2 ^ 32.
Proof.
  unfold u32. change 0xFFFFFFFF with (Z.ones 32).
  rewrite Z.land_ones by lia. apply Z.mod_pos_bound. lia.
Qed.

(** The bit an iteration of the loop contributes. *)
Lemma random_sample_bit s i j h :
  0 <= i < 32 -> 0 <= j ->
  Z.testbit
    (u32 (Z.shiftl
            (Z.land (u32 (sx1272_reg_read (chip_sample s h) REG_LR_RSSIWIDEBAND))
               0x01) i)) j
  = (j =? i) && Z.odd s.
Proof.
  intros Hi Hj.
  assert (Hread : sx1272_reg_read (chip_sample s h) REG_LR_RSSIWIDEBAND = u8 s).
  { unfold sx1272_reg_read, chip_sample. simpl.
    rewrite lookup_insert_eq. reflexivity. }
  rewrite Hread, testbit_u32, Z.shiftl_spec by lia.
  destruct (j =? i) eqn:Hji.
  - apply Z.eqb_eq in Hji. subst j. rewrite Z.sub_diag.
    rewrite Z.land_spec, testbit_u32 by lia.
    unfold u8. rewrite Z.land_spec. simpl Z.testbit at 2 3.
    rewrite Z.bit0_odd.
    replace (0 <? 32) with true by reflexivity.
    replace (i <? 32) with true by (symmetry; apply Z.ltb_lt; lia).
    destruct (Z.odd s); reflexivity.
  - apply Z.eqb_neq in Hji.
    destruct (Z.ltb_spec j i) as [Hlt|Hge].
    + rewrite Z.testbit_neg_r by lia. reflexivity.
    + rewrite Z.land_spec.
      assert (H1 : Z.testbit 1 (j - i) = false).
      { destruct (j - i) eqn:E; try lia. destruct p; reflexivity. }
      rewrite H1, andb_false_r. reflexivity.
Qed.

(** The loop fills one bit per iteration, from bit [i] up, and leaves the
    bits below as they are. *)
Lemma random_loop_bits n : forall i samples rnd h,
  (i + n <= 32)%nat ->
  (forall j, Z.of_nat i <= j -> Z.testbit rnd j = false) ->
  forall j, 0 <= j ->
  Z.testbit (fst (random_loop n i samples rnd h)) j
  = if j <? Z.of_nat i then Z.testbit rnd j
    else (j <? Z.of_nat (i + n)) && Z.odd (samples (Z.to_nat j)).
Proof.
  induction n as [|n IH]; intros i samples rnd h Hn Hhigh j Hj.
  - simpl. rewrite Nat.add_0_r.
    destruct (Z.ltb_spec j (Z.of_nat i)) as [Hlt|Hge]; [reflexivity |].
    rewrite Hhigh by lia. reflexivity.
  - cbn [random_loop].
    rewrite IH; [| lia | | exact Hj].
    + rewrite testbit_u32, Z.lor_spec, random_sample_bit by lia.
      replace (S i + n)%nat with (i + S n)%nat by lia.
      destruct (Z.ltb_spec j (Z.of_nat (S i))) as [Hlt|Hge].
      * destruct (Z.ltb_spec j (Z.of_nat i)) as [Hlt'|Hge'].
        -- replace (j =? Z.of_nat i) with false
             by (symmetry; apply Z.eqb_neq; lia).
           simpl. rewrite orb_false_r.
           replace (j <? 32) with true by (symmetry; apply Z.ltb_lt; lia).
           apply andb_true_r.
        -- assert (j = Z.of_nat i) by lia. subst j.
           rewrite Hhigh by lia. rewrite Z.eqb_refl. simpl.
           rewrite Nat2Z.id.
           replace (Z.of_nat i <? 32) with true
             by (symmetry; apply Z.ltb_lt; lia).
           replace (Z.of_nat i <? Z.of_nat (i + S n)) with true
             by (symmetry; apply Z.ltb_lt; lia).
           rewrite andb_true_r. reflexivity.
      * replace (j <? Z.of_nat i) with false
          by (symmetry; apply Z.ltb_ge; lia).
        reflexivity.
    + intros k Hk. rewrite testbit_u32, Z.lor_spec, random_sample_bit by lia.
      rewrite Hhigh by lia.
      replace (k =? Z.of_nat i) with false by (symmetry; apply Z.eqb_neq; lia).
      reflexivity.
Qed.

Lemma random_loop_range n : forall i samples rnd h,
  0 <= rnd < 2 ^ 32 ->
  0 <= fst (random_loop n i samples rnd h) < 2 ^ 32.
Proof.
  induction n as [|n IH]; intros i samples rnd h Hr; [exact Hr |].
  cbn [random_loop]. apply IH. apply u32_range.
Qed.

(** X8: [sx1272_random] returns a 32-bit word whose bit [i] is the least
    significant bit of the wideband RSSI measurement read in iteration
    [i], and leaves the device Idle with both deadline timers
    cancelled. *)
Theorem random_bits dev samples h :
  let r := sx1272_random dev samples h in
  let rnd := fst (fst r) in
  0 <= rnd < 2 ^ 32
  /\ (forall i, (i < 32)%nat ->
        Z.testbit rnd (Z.of_nat i) = Z.odd (samples i))
  /\ state (snd (fst r)) = SX1272_RF_IDLE
  /\ tx_timeout_timer (snd (fst r)) = None
  /\ rx_timeout_timer (snd (fst r)) = None.
Proof.
  cbv zeta. unfold sx1272_random.
  destruct (sx1272_set_modem dev SX1272_MODEM_LORA h) as [dev1 h1].
  match goal with
  | |- context [random_loop 32 0 samples 0 ?h0] =>
      pose proof (random_loop_range 32 0 samples 0 h0 ltac:(lia)) as Hrange;
      pose proof (random_loop_bits 32 0 samples 0 h0 ltac:(lia)
                    ltac:(intros; apply Z.testbit_0_l)) as Hbits;
      destruct (random_loop 32 0 samples 0 h0) as [rnd h2]
  end.
  cbn [fst snd] in *. unfold sx1272_set_sleep. cbn [fst snd].
  split; [exact Hrange |].
  split; [| repeat split; reflexivity].
  intros i Hi. rewrite Hbits by lia.
  replace (Z.of_nat i <? Z.of_nat 0) with false
    by (symmetry; apply Z.ltb_ge; lia).
  replace (Z.of_nat i <? Z.of_nat (0 + 32)) with true
    by (symmetry; apply Z.ltb_lt; lia).
  rewrite Nat2Z.id. reflexivity.
Qed.

Lemma random_bits_witness :
  Z.testbit
    (fst (fst (sx1272_random sample_dev (fun i => Z.of_nat i) sample_hw))) 5
  = true.
Proof.
  destruct (random_bits sample_dev (fun i => Z.of_nat i) sample_hw)
    as (_ & Hbits & _).
  exact (Hbits 5%nat ltac:(lia)).
Defined.

(** *** Further properties: transmission *)

Lemma fifo_write_burst_below data : forall ptr mem q,
  0 <= ptr -> ptr + Z.of_nat (length data) <= 256 -> q < ptr ->
  fifo_write_burst data ptr mem !! q = mem !! q.
Proof.
  induction data as [|b data IH]; intros ptr mem q Hp Hlen Hq;
    [reflexivity |].
  cbn [fifo_write_burst length] in *.
  destruct data as [|b' data'].
  - cbn [fifo_write_burst]. apply lookup_insert_ne. lia.
  - rewrite (u8_small (ptr + 1)) by (cbn [length] in Hlen; lia).
    rewrite IH by (cbn [length] in *; lia).
    apply lookup_insert_ne. lia.
Qed.

(** What a burst write put in the FIFO, a burst read from the same
    address returns. *)
Lemma fifo_write_read data : forall ptr mem,
  0 <= ptr -> ptr + Z.of_nat (length data) <= 256 ->
  fifo_read_burst (length data) ptr (fifo_write_burst data ptr mem)
  = map u8 data.
Proof.
  induction data as [|b data IH]; intros ptr mem Hp Hlen; [reflexivity |].
  cbn [fifo_write_burst fifo_read_burst length map] in *.
  destruct data as [|b' data'].
  - cbn [fifo_write_burst fifo_read_burst length map].
    rewrite lookup_insert_eq. simpl. rewrite u8_idem. reflexivity.
  - rewrite (u8_small (ptr + 1)) by (cbn [length] in Hlen; lia).
    rewrite fifo_write_burst_below by (cbn [length] in *; lia).
    rewrite lookup_insert_eq. simpl default. rewrite u8_idem.
    rewrite IH by (cbn [length] in *; lia). reflexivity.
Qed.

Lemma write_fifo_frame h buffer size :
  events (sx1272_write_fifo h buffer size) = events h
  /\ irq_enabled (sx1272_write_fifo h buffer size) = irq_enabled h
  /\ gpio_level (sx1272_write_fifo h buffer size) = gpio_level h.
Proof. repeat split; reflexivity. Qed.

Lemma reg_read_write_fifo_other h buffer size a :
  a <> REG_LR_FIFOADDRPTR ->
  sx1272_reg_read (sx1272_write_fifo h buffer size) a = sx1272_reg_read h a.
Proof.
  intros Ha. unfold sx1272_reg_read, sx1272_write_fifo. simpl.
  rewrite lookup_insert_ne by congruence. reflexivity.
Qed.

Lemma write_invert_iq_frame h rx tx iq2 :
  events (write_invert_iq h rx tx iq2) = events h
  /\ fifo (write_invert_iq h rx tx iq2) = fifo h
  /\ forall a, a <> REG_LR_INVERTIQ -> a <> REG_LR_INVERTIQ2 ->
       sx1272_reg_read (write_invert_iq h rx tx iq2) a = sx1272_reg_read h a.
Proof.
  split; [reflexivity |]. split; [reflexivity |].
  intros a H1 H2. unfold write_invert_iq.
  rewrite !reg_read_write_other by congruence. reflexivity.
Qed.

(** X9: [sx1272_send] delivers no event: it leaves the device TxRunning with
    the TX deadline timer armed for the configured TX timeout and the
    chip's mode field at Transmitter.  The DIO0 handler that follows
    sets the state to Idle, cancels the TX timer and delivers TxDone,
    once.  When the TX deadline expires in between, its callback delivers
    TxTimeout and leaves the device as it is, TxRunning, so that the
    handler still delivers TxDone after it: the events of the cycle are
    then TxTimeout and TxDone, in this order. *)
Theorem send_then_tx_done dev buffer size (timed_out : bool) h :
  let r1 := sx1272_send dev buffer size h in
  let r1' := if timed_out then _on_tx_timeout (fst r1) (snd r1) else r1 in
  let r2 := sx1272_on_dio0 (fst r1') (snd r1') in
  state (fst r1) = SX1272_RF_TX_RUNNING
  /\ tx_timeout_timer (fst r1) = Some (tx_timeout (lora dev))
  /\ mode_field (sx1272_reg_read (snd r1) REG_OPMODE) = RF_OPMODE_TRANSMITTER
  /\ events (snd r1) = events h
  /\ fst r1' = fst r1
  /\ state (fst r2) = SX1272_RF_IDLE
  /\ tx_timeout_timer (fst r2) = None
  /\ events (snd r2)
     = events h
       ++ (if sx1272_event_cb dev
           then (if timed_out then [SX1272_TX_TIMEOUT] else [])
                ++ [SX1272_TX_DONE]
           else []).
Proof.
  cbv zeta.
  assert (Hsend : exists dev1 h1,
    sx1272_send dev buffer size h
    = (set_state SX1272_RF_TX_RUNNING
         (set_tx_timeout_timer (xtimer_set (tx_timeout (lora dev1))) dev1),
       sx1272_set_op_mode
         (set_state SX1272_RF_TX_RUNNING
            (set_tx_timeout_timer (xtimer_set (tx_timeout (lora dev1))) dev1))
         RF_OPMODE_TRANSMITTER h1)
    /\ lora dev1 = lora dev
    /\ sx1272_event_cb dev1 = sx1272_event_cb dev
    /\ events h1 = events h).
  { unfold sx1272_send.
    destruct (modem dev).
    - eexists. eexists. split; [reflexivity |]. repeat split; reflexivity.
    - destruct (Z.land _ _ =? RF_OPMODE_SLEEP).
      + unfold sx1272_set_standby.
        eexists. eexists. split; [reflexivity |].
        split; [reflexivity |]. split; [reflexivity |].
        cbn [events sx1272_reg_write sx1272_write_fifo].
        rewrite (proj1 (set_op_mode_events _ _ _)).
        destruct (iq_inverted (lora dev)); reflexivity.
      + eexists. eexists. split; [reflexivity |].
        split; [reflexivity |]. split; [reflexivity |].
        cbn [events sx1272_reg_write sx1272_write_fifo].
        destruct (iq_inverted (lora dev)); reflexivity. }
  destruct Hsend as (dev1 & h1 & -> & Hl & Hcb & Hev).
  cbn [fst snd]. rewrite Hl.
  split; [reflexivity |]. split; [reflexivity |].
  split; [apply mode_field_set_op_mode |].
  split; [rewrite (proj1 (set_op_mode_events _ _ _)); exact Hev |].
  split; [destruct timed_out; reflexivity |].
  unfold sx1272_on_dio0.
  destruct timed_out; unfold _on_tx_timeout;
    cbn [state set_state set_tx_timeout_timer fst snd tx_timeout_timer
         xtimer_remove];
    (split; [reflexivity |]); (split; [reflexivity |]);
    rewrite !send_event_events;
    cbn [events sx1272_reg_write sx1272_event_cb set_state
         set_tx_timeout_timer];
    rewrite ?send_event_events;
    cbn [sx1272_event_cb set_state set_tx_timeout_timer];
    rewrite (proj1 (set_op_mode_events _ _ _)), Hev, Hcb;
    destruct (sx1272_event_cb dev); simpl; rewrite <- ?app_assoc;
    reflexivity.
Qed.

(** X10: In LoRa mode [sx1272_send] leaves the payload in the chip: the
    payload-length register holds its size, the TX base address is 0 and
    the FIFO read back from address 0 returns the bytes of the buffer. *)
Theorem send_fifo_payload dev buffer h :
  modem dev = SX1272_MODEM_LORA ->
  (length buffer < 256)%nat ->
  let size := Z.of_nat (length buffer) in
  let h1 := snd (sx1272_send dev buffer size h) in
  fifo_read_burst (length buffer) 0 (fifo h1) = map u8 buffer
  /\ sx1272_reg_read h1 REG_LR_PAYLOADLENGTH = size
  /\ sx1272_reg_read h1 REG_LR_FIFOTXBASEADDR = 0.
Proof.
  intros Hm Hlen. cbv zeta. unfold sx1272_send. rewrite Hm.
  set (h0 := if iq_inverted (lora dev) then _ else _).
  set (h3 := sx1272_reg_write
               (sx1272_reg_write
                  (sx1272_reg_write h0 REG_LR_PAYLOADLENGTH
                     (Z.of_nat (length buffer)))
                  REG_LR_FIFOTXBASEADDR 0) REG_LR_FIFOADDRPTR 0).
  assert (Hwake : exists dev4 h4,
    (if Z.land (sx1272_reg_read h3 REG_OPMODE) (Z.lnot RF_OPMODE_MASK)
        =? RF_OPMODE_SLEEP
     then sx1272_set_standby dev h3 else (dev, h3)) = (dev4, h4)
    /\ fifo h4 = fifo h3
    /\ forall a, a <> REG_OPMODE ->
         sx1272_reg_read h4 a = sx1272_reg_read h3 a).
  { destruct (_ =? RF_OPMODE_SLEEP).
    - unfold sx1272_set_standby. eexists. eexists.
      split; [reflexivity |].
      split; [apply set_op_mode_events |].
      intros a Ha. rewrite reg_read_set_op_mode.
      apply Z.eqb_neq in Ha. rewrite Ha. reflexivity.
    - eexists. eexists. split; [reflexivity |].
      split; [reflexivity |]. intros; reflexivity. }
  destruct Hwake as (dev4 & h4 & -> & Hfifo & Hregs).
  cbn [snd].
  assert (Hptr : sx1272_reg_read h4 REG_LR_FIFOADDRPTR = 0).
  { rewrite Hregs by discriminate. subst h3.
    rewrite reg_read_write_same by discriminate. reflexivity. }
  assert (Htake : take (Z.to_nat (Z.of_nat (length buffer))) buffer = buffer)
    by (rewrite Nat2Z.id; apply firstn_all).
  split; [| split].
  - rewrite (proj2 (set_op_mode_events _ _ _)).
    cbn [fifo sx1272_reg_write sx1272_write_fifo].
    rewrite Htake, Hptr, Hfifo. apply fifo_write_read; lia.
  - rewrite reg_read_set_op_mode. simpl andb. cbv iota.
    rewrite !reg_read_write_other by discriminate.
    rewrite reg_read_write_fifo_other by discriminate.
    rewrite Hregs by discriminate. subst h3.
    rewrite !reg_read_write_other by discriminate.
    rewrite reg_read_write_same by discriminate.
    apply u8_small. lia.
  - rewrite reg_read_set_op_mode. simpl andb. cbv iota.
    rewrite !reg_read_write_other by discriminate.
    rewrite reg_read_write_fifo_other by discriminate.
    rewrite Hregs by discriminate. subst h3.
    rewrite !reg_read_write_other by discriminate.
    rewrite reg_read_write_same by discriminate.
    reflexivity.
Qed.

Lemma send_fifo_payload_witness :
  fifo_read_burst 3 0
    (fifo (snd (sx1272_send sample_dev [0x48; 0x69; 0x21] 3 sample_hw)))
  = [0x48; 0x69; 0x21].
Proof.
  exact (proj1 (send_fifo_payload sample_dev [0x48; 0x69; 0x21] sample_hw
                  eq_refl ltac:(simpl; lia))).
Defined.

(** *** Further properties: reception and the other handlers *)

(** X11: [sx1272_set_rx] delivers no event and leaves the device RxRunning.
    The chip is put in continuous reception when the LoRa settings ask
    for it, in single reception otherwise.  The RX deadline timer is
    armed with a non-zero timeout of a single reception only; in every
    other case it is left as it was.  The TX timer is not touched. *)
Theorem set_rx_arms_reception dev timeout h :
  let r := sx1272_set_rx dev timeout h in
  let continuous :=
    match modem dev with
    | SX1272_MODEM_LORA => rx_continuous (lora dev)
    | SX1272_MODEM_FSK => false
    end in
  state (fst r) = SX1272_RF_RX_RUNNING
  /\ mode_field (sx1272_reg_read (snd r) REG_OPMODE)
     = (if continuous then RFLR_OPMODE_RECEIVER
        else RFLR_OPMODE_RECEIVER_SINGLE)
  /\ rx_timeout_timer (fst r)
     = (if continuous || (timeout =? 0) then rx_timeout_timer dev
        else Some timeout)
  /\ tx_timeout_timer (fst r) = tx_timeout_timer dev
  /\ events (snd r) = events h.
Proof.
  cbv zeta. unfold sx1272_set_rx.
  destruct (modem dev).
  - destruct (timeout =? 0); cbn [negb fst snd orb];
      (split; [reflexivity |]); (split; [apply mode_field_set_op_mode |]);
      (split; [reflexivity |]); (split; [reflexivity |]);
      apply set_op_mode_events.
  - destruct (rx_continuous (lora dev)); [| destruct (timeout =? 0)];
      cbn [negb fst snd orb];
      (split; [reflexivity |]); (split; [apply mode_field_set_op_mode |]);
      (split; [reflexivity |]); (split; [reflexivity |]);
      rewrite (proj1 (set_op_mode_events _ _ _));
      destruct (iq_inverted (lora dev)), (freq_hop_on (lora dev));
      reflexivity.
Qed.

(** The two-branch SNR decoding of the receive handler is the division
    by four, rounded towards zero, of the register byte read as a signed
    number. *)
Lemma snr_decode b :
  0 <= b < 256 ->
  (if negb (Z.land b 0x80 =? 0)
   then - Z.shiftr (Z.land (Z.lnot b + 1) 0xFF) 2
   else Z.shiftr (Z.land b 0xFF) 2)
  = Z.quot (if b <? 128 then b else b - 256) 4.
Proof. intros Hb. by_bytes b Hb. Qed.

Lemma fifo_read_burst_length n : forall ptr mem,
  length (fifo_read_burst n ptr mem) = n.
Proof.
  induction n as [|n IH]; intros ptr mem; [reflexivity |].
  cbn [fifo_read_burst length]. rewrite IH. reflexivity.
Qed.

Lemma rxdone_flag_cleared f :
  0 <= f < 256 ->
  Z.land (Z.land f (Z.lnot (u8 RFLR_IRQFLAGS_RXDONE))) RFLR_IRQFLAGS_RXDONE = 0.
Proof. intros Hf. by_bytes f Hf. Qed.

Lemma reg_read_send_event dev e h a :
  sx1272_reg_read (send_event dev e h) a = sx1272_reg_read h a.
Proof. unfold send_event. destruct (sx1272_event_cb dev); reflexivity. Qed.

(** [sx1272_read_fifo] returns the FIFO bytes from the address pointer on
    and moves nothing but the pointer. *)
Lemma read_fifo_spec h n :
  fst (sx1272_read_fifo h n)
  = fifo_read_burst (Z.to_nat n) (sx1272_reg_read h REG_LR_FIFOADDRPTR) (fifo h)
  /\ events (snd (sx1272_read_fifo h n)) = events h
  /\ forall a, a <> REG_LR_FIFOADDRPTR ->
       sx1272_reg_read (snd (sx1272_read_fifo h n)) a = sx1272_reg_read h a.
Proof.
  split; [reflexivity |]. split; [reflexivity |].
  intros a Ha. unfold sx1272_reg_read, sx1272_read_fifo. simpl.
  rewrite lookup_insert_ne by congruence. reflexivity.
Qed.

(** X12: A LoRa reception that completes without CRC error: the handler of
    DIO0 clears RxDone, stores the packet and delivers RxDone once.  The
    packet has the size the chip reports and that many bytes, read from
    the FIFO at the chip's current RX address; its SNR field is the raw
    register byte; its RSSI is -139 + rssi + rssi / 16, plus the decoded
    SNR when that is negative.  The RX timer is cancelled and the state
    is Idle unless the reception is continuous. *)
Theorem on_dio0_rx_done dev h :
  state dev = SX1272_RF_RX_RUNNING ->
  modem dev = SX1272_MODEM_LORA ->
  Z.land (sx1272_reg_read h REG_LR_IRQFLAGS) RFLR_IRQFLAGS_PAYLOADCRCERROR = 0 ->
  let r := sx1272_on_dio0 dev h in
  let pkt := last_packet (fst r) in
  let raw_snr := sx1272_reg_read h REG_LR_PKTSNRVALUE in
  let snr := Z.quot (if raw_snr <? 128 then raw_snr else raw_snr - 256) 4 in
  let rssi := sx1272_reg_read h REG_LR_PKTRSSIVALUE in
  state (fst r) = (if rx_continuous (lora dev)
                   then SX1272_RF_RX_RUNNING else SX1272_RF_IDLE)
  /\ rx_timeout_timer (fst r) = None
  /\ tx_timeout_timer (fst r) = tx_timeout_timer dev
  /\ size pkt = sx1272_reg_read h REG_LR_RXNBBYTES
  /\ snr_value pkt = raw_snr
  /\ rssi_value pkt = -139 + rssi + rssi / 16 + Z.min 0 snr
  /\ content pkt
     = fifo_read_burst (Z.to_nat (size pkt))
         (sx1272_reg_read h REG_LR_FIFORXCURRENTADDR) (fifo h)
  /\ length (content pkt) = Z.to_nat (size pkt)
  /\ Z.land (sx1272_reg_read (snd r) REG_LR_IRQFLAGS) RFLR_IRQFLAGS_RXDONE = 0
  /\ events (snd r)
     = events h ++ (if sx1272_event_cb dev then [SX1272_RX_DONE] else []).
Proof.
  intros Hst Hm Hcrc. cbv zeta. unfold sx1272_on_dio0. rewrite Hst, Hm.
  rewrite reg_read_irqflags_cleared.
  rewrite (crc_flag_after_rxdone_clear _ (reg_read_range h REG_LR_IRQFLAGS)).
  rewrite Hcrc. simpl (0 =? RFLR_IRQFLAGS_PAYLOADCRCERROR). cbv iota.
  rewrite !(reg_read_write_other h REG_LR_IRQFLAGS) by discriminate.
  rewrite (snr_decode _ (reg_read_range h REG_LR_PKTSNRVALUE)).
  set (raw_snr := sx1272_reg_read h REG_LR_PKTSNRVALUE).
  set (snr := Z.quot (if raw_snr <? 128 then raw_snr else raw_snr - 256) 4).
  set (rssi := sx1272_reg_read h REG_LR_PKTRSSIVALUE).
  match goal with
  | |- context [sx1272_read_fifo ?h0 ?n] =>
      destruct (read_fifo_spec h0 n) as (Hcontent & Hev & Hregs);
      destruct (sx1272_read_fifo h0 n) as [bytes_read h3]
  end.
  cbn [fst snd] in Hcontent, Hev, Hregs.
  rewrite reg_read_write_same in Hcontent by discriminate.
  rewrite (u8_small (sx1272_reg_read h REG_LR_FIFORXCURRENTADDR)) in Hcontent
    by apply reg_read_range.
  cbn [fifo sx1272_reg_write] in Hcontent.
  cbn [events sx1272_reg_write] in Hev.
  cbn [fst snd last_packet set_last_packet size snr_value rssi_value content].
  split.
  { destruct (rx_continuous (lora dev)); simpl; [exact Hst | reflexivity]. }
  split; [destruct (rx_continuous (lora dev)); reflexivity |].
  split; [destruct (rx_continuous (lora dev)); reflexivity |].
  split; [reflexivity |]. split; [reflexivity |].
  split.
  { rewrite Z.shiftr_div_pow2 by lia. change (2 ^ 4) with 16.
    unfold RSSI_OFFSET.
    destruct (snr <? 0) eqn:Hs;
      [apply Z.ltb_lt in Hs | apply Z.ltb_ge in Hs]; lia. }
  split; [exact Hcontent |].
  split; [rewrite Hcontent; apply fifo_read_burst_length |].
  split.
  { rewrite reg_read_send_event, Hregs by discriminate.
    rewrite reg_read_write_other by discriminate.
    rewrite reg_read_irqflags_cleared.
    apply rxdone_flag_cleared, reg_read_range. }
  rewrite send_event_events, Hev.
  destruct (rx_continuous (lora dev)); reflexivity.
Qed.

Lemma on_dio0_rx_done_witness :
  let pkt := last_packet (fst (sx1272_on_dio0 receiving_dev rx_done_hw)) in
  content pkt = [0x48; 0x69; 0x21]
  /\ rssi_value pkt = -34
  /\ events (snd (sx1272_on_dio0 receiving_dev rx_done_hw)) = [SX1272_RX_DONE].
Proof.
  destruct (on_dio0_rx_done receiving_dev rx_done_hw eq_refl eq_refl
              ltac:(vm_compute; reflexivity))
    as (_ & _ & _ & _ & _ & Hrssi & Hcontent & _ & _ & Hev).
  cbv zeta. split; [| split].
  - rewrite Hcontent. vm_compute. reflexivity.
  - rewrite Hrssi. vm_compute. reflexivity.
  - exact Hev.
Defined.

Lemma fhss_flag_cleared f :
  0 <= f < 256 ->
  Z.land (Z.land f (Z.lnot (u8 RFLR_IRQFLAGS_FHSSCHANGEDCHANNEL)))
    RFLR_IRQFLAGS_FHSSCHANGEDCHANNEL = 0.
Proof. intros Hf. by_bytes f Hf. Qed.

Lemma hop_channel_range c :
  0 <= c < 256 -> 0 <= Z.land c RFLR_HOPCHANNEL_CHANNEL_MASK < 64.
Proof.
  intros Hc.
  pose proof (forall_bytes
    (fun c => (0 <=? Z.land c RFLR_HOPCHANNEL_CHANNEL_MASK)
              && (Z.land c RFLR_HOPCHANNEL_CHANNEL_MASK <? 64))
    ltac:(vm_compute; reflexivity) c Hc) as H.
  cbv beta in H. apply andb_true_iff in H. destruct H as [H1 H2].
  apply Z.leb_le in H1. apply Z.ltb_lt in H2. lia.
Qed.

(** X13: The handler of DIO2 acts only in LoRa mode with frequency hopping
    enabled, during a reception or a transmission: it clears the
    hop-change flag, caches the channel index the chip reports, a number
    below 64, and delivers FhssChangeChannel once, without leaving the
    running state.  In every other case it changes nothing. *)
Theorem on_dio2_hop dev h :
  let r := sx1272_on_dio2 dev h in
  let running :=
    bool_decide (state dev = SX1272_RF_RX_RUNNING)
    || bool_decide (state dev = SX1272_RF_TX_RUNNING) in
  let lora_modem :=
    match modem dev with
    | SX1272_MODEM_LORA => true
    | SX1272_MODEM_FSK => false
    end in
  if running && lora_modem && freq_hop_on (lora dev)
  then last_channel (fst r)
       = Z.land (sx1272_reg_read h REG_LR_HOPCHANNEL)
           RFLR_HOPCHANNEL_CHANNEL_MASK
       /\ 0 <= last_channel (fst r) < 64
       /\ state (fst r) = state dev
       /\ Z.land (sx1272_reg_read (snd r) REG_LR_IRQFLAGS)
            RFLR_IRQFLAGS_FHSSCHANGEDCHANNEL = 0
       /\ events (snd r)
          = events h ++ (if sx1272_event_cb dev
                         then [SX1272_FHSS_CHANGE_CHANNEL] else [])
  else r = (dev, h).
Proof.
  cbv zeta. unfold sx1272_on_dio2.
  assert (Hhop :
    last_channel
      (set_last_channel
         (Z.land (sx1272_reg_read
                    (sx1272_reg_write h REG_LR_IRQFLAGS
                       RFLR_IRQFLAGS_FHSSCHANGEDCHANNEL) REG_LR_HOPCHANNEL)
            RFLR_HOPCHANNEL_CHANNEL_MASK) dev)
    = Z.land (sx1272_reg_read h REG_LR_HOPCHANNEL) RFLR_HOPCHANNEL_CHANNEL_MASK
    /\ 0 <= Z.land (sx1272_reg_read h REG_LR_HOPCHANNEL)
              RFLR_HOPCHANNEL_CHANNEL_MASK < 64
    /\ Z.land (sx1272_reg_read
                 (send_event
                    (set_last_channel
                       (Z.land (sx1272_reg_read
                                  (sx1272_reg_write h REG_LR_IRQFLAGS
                                     RFLR_IRQFLAGS_FHSSCHANGEDCHANNEL)
                                  REG_LR_HOPCHANNEL)
                          RFLR_HOPCHANNEL_CHANNEL_MASK) dev)
                    SX1272_FHSS_CHANGE_CHANNEL
                    (sx1272_reg_write h REG_LR_IRQFLAGS
                       RFLR_IRQFLAGS_FHSSCHANGEDCHANNEL)) REG_LR_IRQFLAGS)
         RFLR_IRQFLAGS_FHSSCHANGEDCHANNEL = 0).
  { rewrite reg_read_write_other by discriminate.
    split; [reflexivity |].
    split; [apply hop_channel_range, reg_read_range |].
    rewrite reg_read_send_event, reg_read_irqflags_cleared.
    apply fhss_flag_cleared, reg_read_range. }
  destruct Hhop as (H1 & H2 & H3).
  destruct (state dev) eqn:Hst, (modem dev), (freq_hop_on (lora dev));
    cbn [bool_decide decide_rel andb orb fst snd]; try reflexivity;
    rewrite ?bool_decide_eq_true_2 by reflexivity;
    rewrite ?bool_decide_eq_false_2 by discriminate;
    cbn [andb orb fst snd]; try reflexivity;
    (split; [exact H1 |]; split; [rewrite H1; exact H2 |];
     split; [exact Hst |]; split; [exact H3 |];
     rewrite send_event_events; reflexivity).
Qed.

Lemma dio_dispatch_ignored v dev h :
  (modem dev = SX1272_MODEM_FSK /\ state dev <> SX1272_RF_TX_RUNNING)
  \/ ((state dev = SX1272_RF_IDLE \/ state dev = SX1272_RF_CAD)
      /\ v <> 3 /\ v <> 4) ->
  dio_dispatch v dev h = (dev, h).
Proof.
  intros Hcase. unfold dio_dispatch.
  destruct v as [|p|p]; [| do 3 (try destruct p as [p|p|]) |];
    try reflexivity;
    unfold sx1272_on_dio0, sx1272_on_dio1, sx1272_on_dio2, sx1272_on_dio3,
      sx1272_on_dio4, sx1272_on_dio5;
    destruct Hcase as [[Hm Hst]|[[Hst|Hst] [H3 H4]]];
    rewrite ?Hm, ?Hst; try reflexivity; try contradiction;
    destruct (state dev); try reflexivity; contradiction.
Qed.

Lemma dio_polling_thread_app msgs : forall msgs' dev h,
  dio_polling_thread (msgs ++ msgs') dev h
  = dio_polling_thread msgs' (fst (dio_polling_thread msgs dev h))
      (snd (dio_polling_thread msgs dev h)).
Proof.
  induction msgs as [|v msgs IH]; intros msgs' dev h; [reflexivity |].
  cbn [app dio_polling_thread].
  destruct (dio_dispatch v dev h) as [dev1 h1]. apply IH.
Qed.

Lemma dio_polling_thread_one v dev h :
  dio_polling_thread [v] dev h = dio_dispatch v dev h.
Proof.
  cbn [dio_polling_thread]. destruct (dio_dispatch v dev h); reflexivity.
Qed.

(** X14: The worker task handles its messages in the order received, each
    by the handler of the DIO line whose number the message carries, 0
    to 5; a message with another value is dropped.  What it never does:
    in FSK mode, outside a running transmission, no message changes
    anything (no register access, no event, no state change), and an
    Idle device, or one in CAD, is changed by the messages of lines 3 and
    4 only. *)
Theorem dio_polling_thread_ignores msgs dev h :
  (forall msgs',
     dio_polling_thread (msgs ++ msgs') dev h
     = dio_polling_thread msgs' (fst (dio_polling_thread msgs dev h))
         (snd (dio_polling_thread msgs dev h)))
  /\ dio_polling_thread [0] dev h = sx1272_on_dio0 dev h
  /\ dio_polling_thread [1] dev h = sx1272_on_dio1 dev h
  /\ dio_polling_thread [2] dev h = sx1272_on_dio2 dev h
  /\ dio_polling_thread [3] dev h = sx1272_on_dio3 dev h
  /\ dio_polling_thread [4] dev h = sx1272_on_dio4 dev h
  /\ dio_polling_thread [5] dev h = sx1272_on_dio5 dev h
  /\ (forall v, ~ 0 <= v <= 5 -> dio_polling_thread [v] dev h = (dev, h))
  /\ ((modem dev = SX1272_MODEM_FSK /\ state dev <> SX1272_RF_TX_RUNNING)
      \/ ((state dev = SX1272_RF_IDLE \/ state dev = SX1272_RF_CAD)
          /\ Forall (fun v => v <> 3 /\ v <> 4) msgs) ->
      dio_polling_thread msgs dev h = (dev, h)).
Proof.
  split; [intros msgs'; apply dio_polling_thread_app |].
  do 6 (split; [apply dio_polling_thread_one |]).
  split.
  - intros v Hv. rewrite dio_polling_thread_one. unfold dio_dispatch.
    destruct v as [|p|p]; [lia | | reflexivity].
    do 3 (try destruct p as [p|p|]); try reflexivity; lia.
  - revert dev h.
    induction msgs as [|v msgs IH]; intros dev h Hcase; [reflexivity |].
    cbn [dio_polling_thread].
    rewrite dio_dispatch_ignored.
    + apply IH. destruct Hcase as [Hf|[Hst Hall]]; [left; exact Hf |].
      right. split; [exact Hst |]. inversion Hall; assumption.
    + destruct Hcase as [Hf|[Hst Hall]]; [left; exact Hf |].
      right. split; [exact Hst |]. inversion Hall; assumption.
Qed.

Lemma dio_polling_thread_ignores_witness :
  dio_polling_thread [0; 1; 2; 5; 7] sample_dev sample_hw
  = (sample_dev, sample_hw).
Proof.
  apply dio_polling_thread_ignores. right.
  split; [left; reflexivity |].
  repeat constructor; discriminate.
Defined.

Lemma cad_mask_bits cad_done :
  let reg :=
    Z.lor (Z.lor (Z.lor (Z.lor (Z.lor
      RFLR_IRQFLAGS_RXTIMEOUT RFLR_IRQFLAGS_RXDONE)
      RFLR_IRQFLAGS_PAYLOADCRCERROR) RFLR_IRQFLAGS_VALIDHEADER)
      RFLR_IRQFLAGS_TXDONE) RFLR_IRQFLAGS_FHSSCHANGEDCHANNEL in
  Z.land
    (u8 (if cad_done : bool
         then Z.lor reg RFLR_IRQFLAGS_CADDETECTED
         else Z.lor reg RFLR_IRQFLAGS_CADDONE))
    (Z.lor RFLR_IRQFLAGS_CADDONE RFLR_IRQFLAGS_CADDETECTED)
  = if cad_done then RFLR_IRQFLAGS_CADDETECTED else RFLR_IRQFLAGS_CADDONE.
Proof. destruct cad_done; reflexivity. Qed.

(** X15: A detection cycle in LoRa mode.  [sx1272_start_cad] delivers no
    event, sets the state to Cad and the chip's mode field to CAD, and
    masks the one of the two CAD interrupts that is not selected.  The
    handler of the selected line then delivers its event once, CadDone on
    DIO3 or CadDetected on DIO4, and the logical state stays Cad.  In FSK
    mode [sx1272_start_cad] does nothing. *)
Theorem start_cad_cycle cad_done dev h :
  let r1 := sx1272_start_cad cad_done dev h in
  let r2 :=
    if cad_done then sx1272_on_dio3 (fst r1) (snd r1)
    else sx1272_on_dio4 (fst r1) (snd r1) in
  match modem dev with
  | SX1272_MODEM_FSK => r1 = (dev, h)
  | SX1272_MODEM_LORA =>
      state (fst r1) = SX1272_RF_CAD
      /\ mode_field (sx1272_reg_read (snd r1) REG_OPMODE) = RFLR_OPMODE_CAD
      /\ Z.land (sx1272_reg_read (snd r1) REG_LR_IRQFLAGSMASK)
           (Z.lor RFLR_IRQFLAGS_CADDONE RFLR_IRQFLAGS_CADDETECTED)
         = (if cad_done then RFLR_IRQFLAGS_CADDETECTED
            else RFLR_IRQFLAGS_CADDONE)
      /\ events (snd r1) = events h
      /\ state (fst r2) = SX1272_RF_CAD
      /\ events (snd r2)
         = events h ++ (if sx1272_event_cb dev
                        then [if cad_done then SX1272_CAD_DONE
                              else SX1272_CAD_DETECTED]
                        else [])
  end.
Proof.
  cbv zeta. unfold sx1272_start_cad.
  destruct (modem dev) eqn:Hm; [reflexivity |].
  cbn [fst snd].
  split; [reflexivity |].
  split; [apply mode_field_set_op_mode |].
  split.
  { rewrite reg_read_set_op_mode. simpl andb. cbv iota.
    destruct cad_done;
      rewrite reg_read_write_other by discriminate;
      rewrite reg_read_write_same by discriminate; reflexivity. }
  split; [rewrite (proj1 (set_op_mode_events _ _ _));
          destruct cad_done; reflexivity |].
  destruct cad_done; unfold sx1272_on_dio3, sx1272_on_dio4;
    cbn [modem set_state]; rewrite Hm; cbn [fst snd];
    (split; [reflexivity |]);
    rewrite send_event_events;
    cbn [events sx1272_reg_write sx1272_event_cb set_is_last_cad_success
         set_state];
    rewrite (proj1 (set_op_mode_events _ _ _)); reflexivity.
Qed.

(** *** Further properties: initialization *)






(** *** Further properties: the register image of a configuration *)

Lemma setup_power_amplifier_frame thresh dev h a :
  a <> REG_PACONFIG -> a <> REG_PADAC ->
  sx1272_reg_read (snd (setup_power_amplifier thresh dev h)) a
  = sx1272_reg_read h a.
Proof.
  intros H1 H2.
  destruct (channel dev <? thresh) eqn:Hch;
    [destruct (power (lora dev) >? 17) eqn:Hp |].
  - rewrite (setup_power_amplifier_boost_20dbm thresh dev h Hch Hp).
    cbn [snd]. rewrite !reg_read_write_other by congruence. reflexivity.
  - rewrite (setup_power_amplifier_boost_17dbm thresh dev h Hch Hp).
    cbn [snd]. rewrite !reg_read_write_other by congruence. reflexivity.
  - rewrite (setup_power_amplifier_rfo thresh dev h Hch).
    cbn [snd]. rewrite !reg_read_write_other by congruence. reflexivity.
Qed.

Lemma reg_read_if (b : bool) h1 h2 a :
  sx1272_reg_read (if b then h1 else h2) a
  = if b then sx1272_reg_read h1 a else sx1272_reg_read h2 a.
Proof. destruct b; reflexivity. Qed.

Lemma u8_lor a b : u8 (Z.lor a b) = Z.lor (u8 a) (u8 b).
Proof. unfold u8. apply Z.land_lor_distr_l. Qed.

Lemma u8_symb_timeout_msb t :
  u8 (Z.land t (Z.lnot RFLR_MODEMCONFIG2_SYMBTIMEOUTMSB_MASK)) = Z.land t 0x03.
Proof. unfold u8. rewrite <- Z.land_assoc. reflexivity. Qed.

Lemma modem_config1_byte x bw cr (ih crc ldo : bool) :
  0 <= x < 256 ->
  u8 (Z.lor (Z.lor (Z.lor (Z.lor (Z.lor
       (Z.land (Z.land (Z.land (Z.land (Z.land x
          RFLR_MODEMCONFIG1_BW_MASK)
          RFLR_MODEMCONFIG1_CODINGRATE_MASK)
          RFLR_MODEMCONFIG1_IMPLICITHEADER_MASK)
          RFLR_MODEMCONFIG1_RXPAYLOADCRC_MASK)
          RFLR_MODEMCONFIG1_LOWDATARATEOPTIMIZE_MASK)
       (Z.shiftl (bw_code bw) 6))
       (Z.shiftl (cr_code cr) 3))
       (Z.shiftl (b2z ih) 2))
       (Z.shiftl (b2z crc) 1))
       (b2z ldo))
  = bw_code bw * 64 + cr_code cr * 8 + b2z ih * 4 + b2z crc * 2 + b2z ldo.
Proof.
  intros Hx. destruct bw, cr, ih, crc, ldo; by_bytes x Hx.
Qed.

Lemma modem_config2_byte x sf t :
  0 <= x < 256 -> 0 <= t < 4 ->
  let c :=
    u8 (Z.lor (Z.land
                 (Z.lor (u8 (Z.lor (Z.land (Z.land x RFLR_MODEMCONFIG2_SF_MASK)
                                      RFLR_MODEMCONFIG2_SYMBTIMEOUTMSB_MASK)
                               (Z.shiftl (sf_code sf) 4))) t)
                 RFLR_MODEMCONFIG2_AGCAUTO_MASK)
          RFLR_MODEMCONFIG2_AGCAUTO_ON) in
  Z.shiftr c 4 = sf_code sf
  /\ Z.land c RFLR_MODEMCONFIG2_AGCAUTO_ON = RFLR_MODEMCONFIG2_AGCAUTO_ON
  /\ Z.land c 0x03 = t.
Proof.
  intros Hx Ht. cbv zeta.
  assert (Hcheck : forall sf,
    forallb (fun x => forallb (fun t =>
      let c :=
        u8 (Z.lor (Z.land
                     (Z.lor (u8 (Z.lor (Z.land (Z.land x
                                                  RFLR_MODEMCONFIG2_SF_MASK)
                                          RFLR_MODEMCONFIG2_SYMBTIMEOUTMSB_MASK)
                                   (Z.shiftl (sf_code sf) 4))) t)
                     RFLR_MODEMCONFIG2_AGCAUTO_MASK)
              RFLR_MODEMCONFIG2_AGCAUTO_ON) in
      (Z.shiftr c 4 =? sf_code sf)
      && (Z.land c RFLR_MODEMCONFIG2_AGCAUTO_ON =? RFLR_MODEMCONFIG2_AGCAUTO_ON)
      && (Z.land c 0x03 =? t)) [0; 1; 2; 3]) bytes = true)
    by (intros []; vm_compute; reflexivity).
  pose proof (forall_bytes _ (Hcheck sf) x Hx) as H. cbv beta in H.
  rewrite forallb_forall in H.
  assert (Hin : In t [0; 1; 2; 3]) by (simpl; lia).
  specialize (H t Hin). cbv zeta in H.
  apply andb_true_iff in H. destruct H as [H H3].
  apply andb_true_iff in H. destruct H as [H1 H2].
  apply Z.eqb_eq in H1, H2, H3. repeat split; assumption.
Qed.

Lemma two_bytes z :
  u8 (u8 (Z.land (Z.shiftr z 8) 0xFF)) * 256 + u8 (u8 (Z.land z 0xFF))
  = z mod 2 ^ 16.
Proof.
  fold (u8 (Z.shiftr z 8)). fold (u8 z). rewrite !u8_idem.
  unfold u8. change 0xFF with (Z.ones 8).
  rewrite !Z.land_ones, !Z.shiftr_div_pow2 by lia.
  change (2 ^ 8) with 256. change (2 ^ 16) with 65536.
  Z.div_mod_to_equations. lia.
Qed.

Lemma symb_timeout_bytes z :
  Z.land (Z.shiftr z 8) 0x03 * 256 + u8 (u8 (Z.land z 0xFF)) = z mod 2 ^ 10.
Proof.
  fold (u8 z). rewrite !u8_idem.
  unfold u8. change 0xFF with (Z.ones 8). change 0x03 with (Z.ones 2).
  rewrite !Z.land_ones, !Z.shiftr_div_pow2 by lia.
  change (2 ^ 8) with 256. change (2 ^ 2) with 4. change (2 ^ 10) with 1024.
  Z.div_mod_to_equations. lia.
Qed.

Lemma lna_boost_byte x :
  0 <= x < 256 ->
  Z.land (u8 (Z.lor (Z.land x RFLR_LNA_BOOST_MASK) RFLR_LNA_BOOST_ON))
    RFLR_LNA_BOOST_ON = RFLR_LNA_BOOST_ON.
Proof. intros Hx. by_bytes x Hx. Qed.

Lemma fast_hop_byte x :
  0 <= x < 256 ->
  Z.land (u8 (Z.lor (Z.land x RFLR_PLLHOP_FASTHOP_MASK) RFLR_PLLHOP_FASTHOP_ON))
    RFLR_PLLHOP_FASTHOP_ON = RFLR_PLLHOP_FASTHOP_ON.
Proof. intros Hx. by_bytes x Hx. Qed.

(** Pushes a register read back through the writes of a configuration
    pass. *)
Ltac read_back :=
  repeat first
    [ rewrite reg_read_write_same by discriminate
    | rewrite reg_read_write_other by discriminate
    | rewrite reg_read_if
    | rewrite setup_power_amplifier_frame by discriminate ].

(** X17: The registers after [sx1272_configure_lora] decode to the stored
    settings.  Modem configuration 1 is bandwidth, coding rate,
    implicit-header, CRC and low-datarate-optimize flags in that order
    from bit 6 down; modem configuration 2 has the spreading factor in
    its high nibble and automatic gain control on; the symbol timeout
    registers hold the low ten bits of the RX timeout and the preamble
    registers the low sixteen bits of the preamble length, high byte
    first; payload length and hop period are written when the header is
    implicit, respectively when hopping is on; the LNA boost is on, the
    detection constants are those for SF7 to SF12 and the long-range-mode
    bit is set. *)
Theorem configure_lora_register_image thresh dev settings h :
  let r := sx1272_configure_lora thresh dev settings h in
  let l := lora (fst r) in
  let rd := sx1272_reg_read (snd r) in
  rd REG_LR_MODEMCONFIG1
  = bw_code (bandwidth l) * 64 + cr_code (coderate l) * 8
    + b2z (implicit_header l) * 4 + b2z (crc_on l) * 2
    + b2z (low_datarate_optimize l)
  /\ Z.shiftr (rd REG_LR_MODEMCONFIG2) 4 = sf_code (datarate l)
  /\ Z.land (rd REG_LR_MODEMCONFIG2) RFLR_MODEMCONFIG2_AGCAUTO_ON
     = RFLR_MODEMCONFIG2_AGCAUTO_ON
  /\ Z.land (rd REG_LR_MODEMCONFIG2) 0x03 * 256 + rd REG_LR_SYMBTIMEOUTLSB
     = rx_timeout l mod 2 ^ 10
  /\ rd REG_LR_PREAMBLEMSB * 256 + rd REG_LR_PREAMBLELSB
     = preamble_len l mod 2 ^ 16
  /\ (implicit_header l = true ->
      rd REG_LR_PAYLOADLENGTH = u8 (payload_len l))
  /\ (freq_hop_on l = true ->
      rd REG_LR_HOPPERIOD = u8 (hop_period l)
      /\ Z.land (rd REG_LR_PLLHOP) RFLR_PLLHOP_FASTHOP_ON
         = RFLR_PLLHOP_FASTHOP_ON)
  /\ Z.land (rd REG_LR_LNA) RFLR_LNA_BOOST_ON = RFLR_LNA_BOOST_ON
  /\ rd REG_LR_DETECTOPTIMIZE = RFLR_DETECTIONOPTIMIZE_SF7_TO_SF12
  /\ rd REG_LR_DETECTIONTHRESHOLD = RFLR_DETECTIONTHRESH_SF7_TO_SF12
  /\ Z.land (rd REG_OPMODE) RFLR_OPMODE_LONGRANGEMODE_ON
     = RFLR_OPMODE_LONGRANGEMODE_ON.
Proof.
  cbv zeta.
  pose proof (configure_lora_dev thresh dev settings h) as Hdev.
  cbv zeta in Hdev. rewrite Hdev. clear Hdev.
  cbn [lora set_lora set_power bandwidth coderate datarate implicit_header
       crc_on low_datarate_optimize rx_timeout preamble_len payload_len
       freq_hop_on hop_period set_low_datarate_optimize set_modem_field].
  set (l0 := default (lora dev) settings).
  unfold sx1272_configure_lora.
  pose proof (set_modem_spec dev SX1272_MODEM_LORA h) as Hmodem.
  cbv zeta in Hmodem. destruct Hmodem as (_ & _ & Hlr & _ & _).
  pose proof (set_modem_dev dev SX1272_MODEM_LORA h) as Hdev1.
  destruct (sx1272_set_modem dev SX1272_MODEM_LORA h) as [dev1 h1].
  cbn [fst snd] in Hlr, Hdev1. subst dev1.
  match goal with
  | |- context [setup_power_amplifier thresh ?d0 ?h0] =>
      pose proof (fun a H1 H2 =>
                    setup_power_amplifier_frame thresh d0 h0 a H1 H2) as Hpa;
      destruct (setup_power_amplifier thresh d0 h0) as [dev3 h9]
  end.
  cbn [fst snd] in *.
  assert (Hl : forall (b : bool) d,
            lora (if b
                  then set_lora (set_low_datarate_optimize true (lora d)) d
                  else set_lora (set_low_datarate_optimize false (lora d)) d)
            = set_low_datarate_optimize b (lora d))
    by (intros [] d; reflexivity).
  rewrite Hl in Hpa.
  assert (Hl0 : lora match settings with
                     | Some s => set_lora s (set_modem_field SX1272_MODEM_LORA dev)
                     | None => set_modem_field SX1272_MODEM_LORA dev
                     end = l0)
    by (destruct settings; reflexivity).
  rewrite Hl0 in Hpa.
  cbn [bandwidth coderate datarate implicit_header
       crc_on low_datarate_optimize rx_timeout preamble_len payload_len
       freq_hop_on hop_period set_low_datarate_optimize] in Hpa.
  assert (Hmc2 :
    sx1272_reg_read
      (sx1272_reg_write
         (sx1272_reg_write
            (sx1272_reg_write
               (sx1272_reg_write h9 REG_LR_LNA
                  (Z.lor (Z.land (sx1272_reg_read h9 REG_LR_LNA)
                            RFLR_LNA_BOOST_MASK) RFLR_LNA_BOOST_ON))
               REG_LR_MODEMCONFIG2
               (Z.lor
                  (Z.land
                     (sx1272_reg_read
                        (sx1272_reg_write h9 REG_LR_LNA
                           (Z.lor (Z.land (sx1272_reg_read h9 REG_LR_LNA)
                                     RFLR_LNA_BOOST_MASK) RFLR_LNA_BOOST_ON))
                        REG_LR_MODEMCONFIG2) RFLR_MODEMCONFIG2_AGCAUTO_MASK)
                  RFLR_MODEMCONFIG2_AGCAUTO_ON))
            REG_LR_DETECTOPTIMIZE RFLR_DETECTIONOPTIMIZE_SF7_TO_SF12)
         REG_LR_DETECTIONTHRESHOLD RFLR_DETECTIONTHRESH_SF7_TO_SF12)
      REG_LR_MODEMCONFIG2
    = u8 (Z.lor (Z.land
                   (Z.lor (u8 (Z.lor (Z.land (Z.land
                                        (sx1272_reg_read h1 REG_LR_MODEMCONFIG2)
                                        RFLR_MODEMCONFIG2_SF_MASK)
                                        RFLR_MODEMCONFIG2_SYMBTIMEOUTMSB_MASK)
                                 (Z.shiftl (sf_code (datarate l0)) 4)))
                      (Z.land (Z.shiftr (rx_timeout l0) 8) 0x03))
                   RFLR_MODEMCONFIG2_AGCAUTO_MASK)
            RFLR_MODEMCONFIG2_AGCAUTO_ON)).
  { read_back. rewrite Hpa by discriminate. read_back.
    rewrite (u8_lor (Z.lor _ _)), u8_symb_timeout_msb.
    destruct (freq_hop_on l0), (implicit_header l0); reflexivity. }
  rewrite !Hmc2. clear Hmc2.
  assert (Ht : 0 <= Z.land (Z.shiftr (rx_timeout l0) 8) 0x03 < 4).
  { change 0x03 with (Z.ones 2). rewrite Z.land_ones by lia.
    apply Z.mod_pos_bound. lia. }
  destruct (modem_config2_byte _ (datarate l0) _
              (reg_read_range h1 REG_LR_MODEMCONFIG2) Ht) as (Hsf & Hagc & Hlow).
  rewrite Hsf, Hagc, Hlow. clear Hsf Hagc Hlow.
  split.
  { read_back. rewrite Hpa by discriminate. read_back.
    rewrite !modem_config1_byte by apply reg_read_range.
    destruct (freq_hop_on l0), (implicit_header l0); reflexivity. }
  split; [reflexivity |]. split; [reflexivity |].
  split.
  { read_back. rewrite Hpa by discriminate. read_back.
    destruct (freq_hop_on l0), (implicit_header l0);
      apply symb_timeout_bytes. }
  split.
  { read_back. rewrite !Hpa by discriminate. read_back.
    destruct (freq_hop_on l0), (implicit_header l0); apply two_bytes. }
  split.
  { intros Hih. read_back. rewrite Hpa by discriminate. read_back.
    rewrite Hih. read_back.
    destruct (freq_hop_on l0); reflexivity. }
  split.
  { intros Hfh. split.
    - read_back. rewrite Hpa by discriminate. rewrite Hfh. read_back.
      reflexivity.
    - read_back. rewrite Hpa by discriminate. rewrite Hfh. read_back.
      destruct (implicit_header l0); apply fast_hop_byte, reg_read_range. }
  split.
  { read_back. apply lna_boost_byte, reg_read_range. }
  split; [read_back; reflexivity |].
  split; [read_back; reflexivity |].
  read_back. rewrite Hpa by discriminate. read_back.
  destruct (freq_hop_on l0), (implicit_header l0); exact Hlr.
Qed.

(** *** Further properties: CAD flags and the time on air *)

(** X18: In LoRa mode the handlers of DIO3 and DIO4 differ in the event only.
    Both clear the two CAD flags and leave the same device structure,
    the same registers and register writes, the same FIFO and the same
    GPIO state; the one delivers CadDone once, the other CadDetected. *)
Theorem on_dio3_on_dio4_clear_and_report dev h :
  modem dev = SX1272_MODEM_LORA ->
  let r3 := sx1272_on_dio3 dev h in
  let r4 := sx1272_on_dio4 dev h in
  let cad_flags := Z.lor RFLR_IRQFLAGS_CADDETECTED RFLR_IRQFLAGS_CADDONE in
  Z.land (sx1272_reg_read (snd r3) REG_LR_IRQFLAGS) cad_flags = 0
  /\ fst r4 = fst r3
  /\ regs (snd r4) = regs (snd r3)
  /\ bus_writes (snd r4) = bus_writes (snd r3)
  /\ fifo (snd r4) = fifo (snd r3)
  /\ irq_enabled (snd r4) = irq_enabled (snd r3)
  /\ gpio_level (snd r4) = gpio_level (snd r3)
  /\ events (snd r3)
     = events h ++ (if sx1272_event_cb dev then [SX1272_CAD_DONE] else [])
  /\ events (snd r4)
     = events h ++ (if sx1272_event_cb dev then [SX1272_CAD_DETECTED] else []).
Proof.
  intros Hm. cbv zeta. unfold sx1272_on_dio3, sx1272_on_dio4. rewrite Hm.
  cbn [fst snd]. rewrite !send_event_events.
  assert (Hsend : forall d e h0,
            regs (send_event d e h0) = regs h0
            /\ bus_writes (send_event d e h0) = bus_writes h0
            /\ fifo (send_event d e h0) = fifo h0
            /\ irq_enabled (send_event d e h0) = irq_enabled h0
            /\ gpio_level (send_event d e h0) = gpio_level h0)
    by (intros d e h0; unfold send_event; destruct (sx1272_event_cb d);
        repeat split; reflexivity).
  split; [| split; [reflexivity |]].
  - rewrite reg_read_send_event, reg_read_irqflags_cleared.
    pose proof (reg_read_range h REG_LR_IRQFLAGS) as Hf.
    revert Hf. generalize (sx1272_reg_read h REG_LR_IRQFLAGS). intros f Hf.
    by_bytes f Hf.
  - repeat split; try reflexivity.
    + rewrite !(proj1 (Hsend _ _ _)). reflexivity.
    + rewrite !(proj1 (proj2 (Hsend _ _ _))). reflexivity.
    + rewrite !(proj1 (proj2 (proj2 (Hsend _ _ _)))). reflexivity.
    + rewrite !(proj1 (proj2 (proj2 (proj2 (Hsend _ _ _))))). reflexivity.
    + rewrite !(proj2 (proj2 (proj2 (proj2 (Hsend _ _ _))))). reflexivity.
Qed.

Lemma on_dio3_on_dio4_clear_and_report_witness :
  sx1272_reg_read (snd (sx1272_on_dio3 sample_dev cad_busy_hw)) REG_LR_IRQFLAGS
  = 0
  /\ fst (sx1272_on_dio4 sample_dev cad_busy_hw)
     = fst (sx1272_on_dio3 sample_dev cad_busy_hw)
  /\ events (snd (sx1272_on_dio4 sample_dev cad_busy_hw))
     = [SX1272_CAD_DETECTED].
Proof.
  destruct (on_dio3_on_dio4_clear_and_report sample_dev cad_busy_hw eq_refl)
    as (_ & Hdev & _ & _ & _ & _ & _ & _ & H4).
  split; [vm_compute; reflexivity |]. split; [exact Hdev | exact H4].
Defined.

(** The driver's time on air, run in [int] arithmetic against the exact
    formula on every modulation and payload length for a preamble of 8
    symbols. *)
Lemma time_on_air_checked_preamble_8 :
  forallb (fun bw => forallb (fun sf => forallb (fun cr =>
  forallb (fun ldo => forallb (fun ih => forallb (fun crc =>
  forallb (fun len =>
    sx1272_get_time_on_air ARITH_INT
      (set_lora (modulation bw sf cr ldo ih crc 8) sample_dev)
      SX1272_MODEM_LORA len
    =? driver_time_on_air (modulation bw sf cr ldo ih crc 8) len)
  bytes) [false; true]) [false; true]) [false; true])
  all_coding_rates) all_spreading_factors) all_bandwidths = true.
Proof. vm_compute. reflexivity. Qed.

Lemma in_all_bools (b : bool) : In b [false; true].
Proof. destruct b; simpl; [right; left | left]; reflexivity. Qed.

Lemma in_all_bandwidths bw : In bw all_bandwidths.
Proof. destruct bw; simpl; tauto. Qed.

Lemma in_all_spreading_factors sf : In sf all_spreading_factors.
Proof. destruct sf; simpl; tauto. Qed.

Lemma in_all_coding_rates cr : In cr all_coding_rates.
Proof. destruct cr; simpl; tauto. Qed.

Lemma in_bytes b : 0 <= b < 256 -> In b bytes.
Proof.
  intros Hb. unfold bytes. apply in_map_iff. exists (Z.to_nat b).
  split; [lia | apply in_seq; lia].
Qed.

Lemma time_on_air_checked_instance bw sf cr ldo ih crc len :
  0 <= len < 256 ->
  sx1272_get_time_on_air ARITH_INT
    (set_lora (modulation bw sf cr ldo ih crc 8) sample_dev)
    SX1272_MODEM_LORA len
  = driver_time_on_air (modulation bw sf cr ldo ih crc 8) len.
Proof.
  intros Hlen. apply Z.eqb_eq.
  pose proof time_on_air_checked_preamble_8 as H.
  rewrite forallb_forall in H. specialize (H bw (in_all_bandwidths bw)).
  rewrite forallb_forall in H. specialize (H sf (in_all_spreading_factors sf)).
  rewrite forallb_forall in H. specialize (H cr (in_all_coding_rates cr)).
  rewrite forallb_forall in H. specialize (H ldo (in_all_bools ldo)).
  rewrite forallb_forall in H. specialize (H ih (in_all_bools ih)).
  rewrite forallb_forall in H. specialize (H crc (in_all_bools crc)).
  rewrite forallb_forall in H. specialize (H len (in_bytes len Hlen)).
  exact H.
Qed.

(** The time on air depends on the device through seven fields of the
    LoRa settings only. *)
Lemma time_on_air_fields ty dev len :
  sx1272_get_time_on_air ty dev SX1272_MODEM_LORA len
  = sx1272_get_time_on_air ty
      (set_lora (modulation (bandwidth (lora dev)) (datarate (lora dev))
                   (coderate (lora dev)) (low_datarate_optimize (lora dev))
                   (implicit_header (lora dev)) (crc_on (lora dev))
                   (preamble_len (lora dev))) sample_dev)
      SX1272_MODEM_LORA len.
Proof.
  destruct dev as [? ? ? ? ? ? ? ? ? ? ? ? l ? ? ? ? ? ? ? ? ? ?].
  destruct l. reflexivity.
Qed.

Lemma driver_time_on_air_fields l len :
  driver_time_on_air l len
  = driver_time_on_air
      (modulation (bandwidth l) (datarate l) (coderate l)
         (low_datarate_optimize l) (implicit_header l) (crc_on l)
         (preamble_len l)) len.
Proof. destruct l. reflexivity. Qed.

Lemma c_arith_small ty z : 0 <= z < 2 ^ 32 -> c_arith ty z = z.
Proof.
  intros Hz. destruct ty; [reflexivity | apply Z.mod_small; exact Hz].
Qed.

(** Unsigned arithmetic gives the same time on air as [int] arithmetic
    as long as the numerator of the payload symbol count is not
    negative. *)
Lemma time_on_air_arith ty dev len :
  0 <= len < 256 ->
  0 <= payload_numerator (lora dev) len ->
  sx1272_get_time_on_air ty dev SX1272_MODEM_LORA len
  = sx1272_get_time_on_air ARITH_INT dev SX1272_MODEM_LORA len.
Proof.
  intros Hlen Hnum. unfold sx1272_get_time_on_air. cbv zeta.
  unfold payload_numerator in Hnum.
  assert (Hsf : 6 <= sf_code (datarate (lora dev)) <= 12)
    by (destruct (datarate (lora dev)); vm_compute; split; discriminate).
  assert (Hcr : 1 <= cr_code (coderate (lora dev)) <= 4)
    by (destruct (coderate (lora dev)); vm_compute; split; discriminate).
  rewrite !(c_arith_small ty), !(c_arith_small ARITH_INT);
    try reflexivity;
    destruct (implicit_header (lora dev)), (crc_on (lora dev)),
      (low_datarate_optimize (lora dev));
    cbn [negb b2z Z.gtb Z.compare] in *; lia.
Qed.

(** X19: With a preamble of 8 symbols, for every bandwidth, spreading factor,
    coding rate, flag setting and payload length, the double-precision
    computation of [sx1272_get_time_on_air] returns exactly
    floor(t + 0.999) for the duration t in microseconds of
    preamble_len + 4.25 + payload symbols, the payload symbols counted
    with the divisor 4 SF - 2 low_dr_opt; without low-datarate
    optimization this is the specified time on air.  This holds where
    the integer arithmetic is signed, and where it is unsigned as long
    as the numerator 8 len - 4 SF + 28 + 16 crc - 20 (1 - implicit) is not
    negative. *)
Theorem time_on_air_preamble_8 ty dev len :
  preamble_len (lora dev) = 8 ->
  ty = ARITH_INT \/ 0 <= payload_numerator (lora dev) (u8 len) ->
  sx1272_get_time_on_air ty dev SX1272_MODEM_LORA (u8 len)
  = driver_time_on_air (lora dev) (u8 len)
  /\ (low_datarate_optimize (lora dev) = false ->
      sx1272_get_time_on_air ty dev SX1272_MODEM_LORA (u8 len)
      = spec_time_on_air (lora dev) (u8 len)).
Proof.
  intros Hpl Hty.
  assert (Hint : sx1272_get_time_on_air ty dev SX1272_MODEM_LORA (u8 len)
                 = sx1272_get_time_on_air ARITH_INT dev SX1272_MODEM_LORA
                     (u8 len)).
  { destruct Hty as [-> | Hnum]; [reflexivity |].
    apply time_on_air_arith; [apply u8_range | exact Hnum]. }
  assert (Hdrv : sx1272_get_time_on_air ty dev SX1272_MODEM_LORA (u8 len)
                 = driver_time_on_air (lora dev) (u8 len)).
  { rewrite Hint, time_on_air_fields, driver_time_on_air_fields, Hpl.
    apply time_on_air_checked_instance, u8_range. }
  split; [exact Hdrv |].
  intros Hldo. rewrite Hdrv.
  unfold driver_time_on_air, spec_time_on_air.
  rewrite (payload_symbols_without_low_datarate _ _ Hldo). reflexivity.
Qed.

Lemma time_on_air_preamble_8_witness :
  preamble_len (lora sample_dev) = 8
  /\ 0 <= payload_numerator (lora sample_dev) (u8 13)
  /\ sx1272_get_time_on_air ARITH_UNSIGNED_INT sample_dev SX1272_MODEM_LORA
       (u8 13)
     = driver_time_on_air (lora sample_dev) (u8 13).
Proof.
  split; [reflexivity |].
  split; [vm_compute; discriminate |].
  refine (proj1 (time_on_air_preamble_8 ARITH_UNSIGNED_INT sample_dev 13
                   eq_refl _)).
  right. vm_compute. discriminate.
Defined.
